(** * qexpy.plotting: a shallow embedding of the [Plot] class

    The [Plot] object of [qexpy/plotting.py] accumulates the datasets,
    user functions, colours, labels and axis ranges of a figure and hands
    them to bokeh when the figure is requested.  Each method of the class
    is translated below into a computation over the attributes of [self]
    and the module-level state it touches, in a small state-and-exception
    monad; the properties of the class follow the definitions.

    Conventions of the embedding:
    - Python floats are exact rationals ([Q]); NaN and infinities are not
      represented.
    - [print] appends a line to [stdout].
    - An object that the class stores and later mutates in place carries
      an object identity: the two axis ranges, so that two attributes bound
      to the same sequence see each other's item assignments, and the
      datasets, so that a dataset added twice is fitted and renamed at both
      positions.
    - A range is kept as the sequence the caller gave: a list, a tuple, or
      a numpy array of floats or of integers.  Item assignment raises on a
      tuple and keeps the integer part in an array of integers.
    - The collaborators that are not part of this module ([qexpy.fitting],
      [qexpy.error], [qexpy.utils], [qexpy.plot_utils], bokeh) are
      modelled by what this module reads from them and calls on them. *)

From Stdlib Require Import ZArith QArith Ascii String List Bool Lia.
From stdpp Require Import base option list gmap strings.

Import ListNotations.
Local Open Scope string_scope.
Local Open Scope Z_scope.

(** ** Python values *)

(** The exceptions that can leave a method of [Plot]. *)
Inductive PyExc : Type :=
| IndexError
| KeyError
| AttributeError
| TypeError
| ValueError
| CollaboratorError (what : string).

Inductive Result (A : Type) : Type :=
| Ok (a : A)
| Raise (e : PyExc).
Arguments Ok {A} a.
Arguments Raise {A} e.

(** [l[i]] for a Python index: negative indices count from the end. *)
Definition py_getitem {A : Type} (l : list A) (i : Z) : Result A :=
  let n := Z.of_nat (length l) in
  let j := if i <? 0 then n + i else i in
  if (j <? 0) || (n <=? j) then Raise IndexError
  else match nth_error l (Z.to_nat j) with
       | Some a => Ok a
       | None => Raise IndexError
       end.

(** [a < b] and [a > b] on floats. *)
Definition py_lt (a b : Q) : bool := negb (Qle_bool b a).
Definition py_gt (a b : Q) : bool := py_lt b a.

(** [arr.max()] and [arr.min()] of a numpy array; numpy raises
    [ValueError] on an empty array. *)
Fixpoint maximum (x : Q) (l : list Q) : Q :=
  match l with
  | [] => x
  | y :: l' => maximum (if py_lt x y then y else x) l'
  end.

Fixpoint minimum (x : Q) (l : list Q) : Q :=
  match l with
  | [] => x
  | y :: l' => minimum (if py_lt y x then y else x) l'
  end.

Definition np_max (l : list Q) : Result Q :=
  match l with
  | [] => Raise ValueError
  | x :: l' => Ok (maximum x l')
  end.

Definition np_min (l : list Q) : Result Q :=
  match l with
  | [] => Raise ValueError
  | x :: l' => Ok (minimum x l')
  end.

(** [np.linspace(a, b, n)]: [n] evenly spaced samples, both ends
    included. *)
Definition np_linspace (a b : Q) (n : nat) : list Q :=
  match n with
  | O => []
  | S O => [a]
  | S (S _ as m) =>
      map (fun i : nat =>
             (a + inject_Z (Z.of_nat i) * ((b - a) / inject_Z (Z.of_nat m)))%Q)
          (seq 0 n)
  end.

(** [s.split(sep)] for a one-character separator; the result is never
    empty. *)
Fixpoint str_split (sep : Ascii.ascii) (s : string) : list string :=
  match s with
  | EmptyString => [EmptyString]
  | String c s' =>
      if Ascii.eqb c sep then EmptyString :: str_split sep s'
      else match str_split sep s' with
           | w :: ws => String c w :: ws
           | [] => [String c EmptyString]
           end
  end.

(** The sequences a range can be given as.  A numpy array has the one
    Python type [numpy.ndarray] whatever it holds, but item assignment
    depends on its dtype: [TNdarray] is an array of floats, [TNdarrayInt] an
    array of an integer dtype, as [np.array([0, 10])] is. *)
Inductive SeqType : Type := TList | TTuple | TNdarray | TNdarrayInt.

(** [type(a) is type(b)] *)
Definition SeqType_eqb (a b : SeqType) : bool :=
  match a, b with
  | TList, TList | TTuple, TTuple => true
  | (TNdarray | TNdarrayInt), (TNdarray | TNdarrayInt) => true
  | _, _ => false
  end.

(** The value an array of an integer dtype keeps of a float written into
    it: numpy casts as C does, towards zero. *)
Definition np_trunc (v : Q) : Q := inject_Z (Z.quot (Qnum v) (Z.pos (Qden v))).

(** What a sequence of the given kind holds after [seq[i] = v]. *)
Definition stored (t : SeqType) (v : Q) : Q :=
  match t with
  | TNdarrayInt => np_trunc v
  | TList | TTuple | TNdarray => v
  end.

(** A value passed where a range is expected.  Sequences are objects:
    [id] is the identity of the list, tuple or array.  [VArray0] is a
    numpy array of dimension 0, as [np.array(5.0)] is: its type is
    [numpy.ndarray] and it has no length. *)
Inductive PyValue : Type :=
| VNone
| VSeq (id : nat) (t : SeqType) (items : list Q)
| VArray0 (id : nat) (x : Q)
| VFloat (x : Q)
| VStr (s : string).

(** [v is not None] *)
Definition is_not_None (v : PyValue) : bool :=
  match v with VNone => false | _ => true end.

(** [len(v)]; [TypeError] for values without a length. *)
Definition py_len (v : PyValue) : Result Z :=
  match v with
  | VSeq _ _ items => Ok (Z.of_nat (length items))
  | VStr s => Ok (Z.of_nat (String.length s))
  | VNone | VArray0 _ _ | VFloat _ => Raise TypeError
  end.

(** A stored axis range: a two-element sequence object [[lo, hi]]. *)
Record PyRange : Type := mkRange {
  oid : nat;
  kind : SeqType;
  lo : Q;
  hi : Q }.

(** ** Module-level state *)

(** What the methods read and write outside [self]:
    [qe.Measurement.minmax_n], [qu.bokeh_ouput_notebook_called], the answer
    of [qu.in_notebook()], the console, the calls made to [bokeh.io] and
    [bokeh.plotting.show], and the allocator of object identities. *)
Inductive BokehCall : Type :=
| OutputNotebook
| OutputFile (filename title : string)
| Show (figure_id : nat).

Record Globals : Type := mkGlobals {
  minmax_n : Z;
  bokeh_ouput_notebook_called : bool;
  in_notebook : bool;
  stdout : list string;
  bokeh_calls : list BokehCall;
  next_id : nat }.

Definition set_minmax_n (v : Z) (g : Globals) : Globals :=
  mkGlobals v (bokeh_ouput_notebook_called g) (in_notebook g) (stdout g)
            (bokeh_calls g) (next_id g).

Definition set_bokeh_ouput_notebook_called (v : bool) (g : Globals) : Globals :=
  mkGlobals (minmax_n g) v (in_notebook g) (stdout g) (bokeh_calls g) (next_id g).

Definition write_stdout (line : string) (g : Globals) : Globals :=
  mkGlobals (minmax_n g) (bokeh_ouput_notebook_called g) (in_notebook g)
            (stdout g ++ [line]) (bokeh_calls g) (next_id g).

Definition write_lines (lines : list string) (g : Globals) : Globals :=
  mkGlobals (minmax_n g) (bokeh_ouput_notebook_called g) (in_notebook g)
            (stdout g ++ lines) (bokeh_calls g) (next_id g).

Definition log_bokeh (c : BokehCall) (g : Globals) : Globals :=
  mkGlobals (minmax_n g) (bokeh_ouput_notebook_called g) (in_notebook g)
            (stdout g) (bokeh_calls g ++ [c]) (next_id g).

Definition bump_id (g : Globals) : Globals :=
  mkGlobals (minmax_n g) (bokeh_ouput_notebook_called g) (in_notebook g)
            (stdout g) (bokeh_calls g) (S (next_id g)).

(** ** Collaborator data: measurements, functions, datasets *)

(** A [qe.Measurement]: mean, standard deviation and its [__str__]. *)
Record Measurement : Type := mkMeasurement {
  mean : Q;
  std : Q;
  m_str : string }.

(** [pars.get_means()] of a [Measurement_Array]. *)
Definition get_means (ms : list Measurement) : list Q := map mean ms.

(** The argument [pars] of [add_function]. *)
Inductive Pars : Type :=
| ParsNone
| ParsMeasurementArray (ms : list Measurement)
| ParsNdarray (vs : list Q)
| ParsList (vs : list Q)
| ParsTuple (vs : list Q)
| ParsFloat (x : Q)
| ParsStr (s : string).

(** A positional argument received by a user function after [xvals]. *)
Inductive PyArg : Type :=
| ArgFloat (x : Q)
| ArgMeasurement (m : Measurement).

(** What a user function returns: a plain array or a
    [Measurement_Array]. *)
Inductive FValue : Type :=
| FArray (vs : list Q)
| FMeasurementArray (ms : list Measurement).

(** A user function is arbitrary Python code: it is given the sample
    points and the unpacked parameters, may read and write the module-level
    state, and returns or raises. *)
Definition UserFunction : Type :=
  list Q -> list PyArg -> Globals -> Result FValue * Globals.

(** A fit model of the fitting collaborator, evaluated at one point. *)
Definition FitFunction : Type := Q -> list Q -> Q.

(** Modelled from the spec: the dataset type of [qexpy.fitting]
    ([XYDataSet]), which is not part of this module.  A dataset is an
    object: [dataset_id] is its identity, and the methods that change it
    ([fit], [clear_fits], the assignment to [name]) change the object, which
    shows wherever it is bound.  The record holds what the class reads:
    names and units, the extent of the data (the x and y intervals the
    points span, and the interval of the residuals), the abscissae, and the
    fit history with its counter.  [fit_result] stands for the
    collaborator's fit routine: the function, parameters and name a fit of
    the named model to these data produces, or nothing when the routine
    raises; [fit_report] is what the routine prints on the way. *)
Record XYDataSet : Type := mkXYDataSet {
  dataset_id : nat;
  name : string;
  xname : string;
  xunits : string;
  yname : string;
  yunits : string;
  x_extent : Q * Q;
  y_extent : Q * Q;
  yres_extent : Q * Q;
  xdata : list Q;
  nfits : Z;
  fit_function : list FitFunction;
  fit_pars : list (list Measurement);
  fit_function_name : list string;
  fit_npars : list Z;
  fit_result : string -> option (FitFunction * list Measurement * string);
  fit_report : string -> list string }.

(** [dataset.name = n] *)
Definition set_name (n : string) (d : XYDataSet) : XYDataSet :=
  mkXYDataSet (dataset_id d) n (xname d) (xunits d) (yname d) (yunits d)
              (x_extent d) (y_extent d) (yres_extent d) (xdata d) (nfits d)
              (fit_function d) (fit_pars d) (fit_function_name d)
              (fit_npars d) (fit_result d) (fit_report d).

(** Modelled from the spec: [dataset.clear_fits()] of the fitting
    collaborator empties the fit history. *)
Definition clear_fits (d : XYDataSet) : XYDataSet :=
  mkXYDataSet (dataset_id d) (name d) (xname d) (xunits d) (yname d) (yunits d)
              (x_extent d) (y_extent d) (yres_extent d) (xdata d) 0 [] [] [] []
              (fit_result d) (fit_report d).

(** Modelled from the spec: [dataset.fit(model)] of the fitting
    collaborator records the fit it performs at the end of the history and
    returns the parameter estimates. *)
Definition fit_dataset (model : string) (d : XYDataSet)
  : Result (list Measurement) * XYDataSet :=
  match fit_result d model with
  | None => (Raise (CollaboratorError "fit"), d)
  | Some (f, ps, fname) =>
      (Ok ps,
       mkXYDataSet (dataset_id d) (name d) (xname d) (xunits d) (yname d)
                   (yunits d) (x_extent d) (y_extent d) (yres_extent d) (xdata d)
                   (nfits d + 1) (fit_function d ++ [f]) (fit_pars d ++ [ps])
                   (fit_function_name d ++ [fname])
                   (fit_npars d ++ [Z.of_nat (length ps)]) (fit_result d)
                   (fit_report d))
  end.

(** The list of datasets once the object [d] has changed: every position
    bound to that object shows the change. *)
Definition write_dataset (d : XYDataSet) (ds : list XYDataSet) : list XYDataSet :=
  map (fun x => if Nat.eqb (dataset_id x) (dataset_id d) then d else x) ds.

(** ** Bokeh objects *)

(** The [Range1d] a figure builds from the pair it is given; [owner] is
    the figure that created it, so a figure handed another figure's range
    shares it. *)
Record Range1d : Type := mkRange1d {
  owner : nat;
  r_start : Q;
  r_end : Q }.

Inductive Callable : Type :=
| FitModel (f : FitFunction)
| UserDefined (f : UserFunction).

(** What [qpu.plot_dataset] and [qpu.plot_function] were asked to draw. *)
Inductive Mark : Type :=
| DatasetMark (dataset : XYDataSet) (residual : bool) (data_color : string)
| FunctionMark (function : Callable) (f_xdata : list Q) (pars : Pars) (n : Z)
    (legend_name : string) (color : string) (errorbandfactor : Q).

(** A [bokeh.models.Label] as [populate_bokeh_figure] builds it. *)
Record Label : Type := mkLabel {
  l_x : Z;
  l_y : Z;
  text_align : string;
  text_baseline : string;
  text_font_size : string;
  x_units : string;
  y_units : string;
  text : string;
  render_mode : string;
  background_fill_color : string;
  background_fill_alpha : Q }.

Record Figure : Type := mkFigure {
  figure_id : nat;
  tools : string;
  width : Z;
  height : Z;
  y_axis_type : string;
  f_y_range : Q * Q;
  x_axis_type : option string;
  f_x_range : Range1d;
  title : option (option string);
  x_axis_label : option string;
  y_axis_label : option string;
  renderers : list Mark;
  layouts : list Label;
  legend_location_ : option string }.

Definition add_mark (m : Mark) (f : Figure) : Figure :=
  mkFigure (figure_id f) (tools f) (width f) (height f) (y_axis_type f)
           (f_y_range f) (x_axis_type f) (f_x_range f) (title f)
           (x_axis_label f) (y_axis_label f) (renderers f ++ [m]) (layouts f)
           (legend_location_ f).

Definition add_layout (l : Label) (f : Figure) : Figure :=
  mkFigure (figure_id f) (tools f) (width f) (height f) (y_axis_type f)
           (f_y_range f) (x_axis_type f) (f_x_range f) (title f)
           (x_axis_label f) (y_axis_label f) (renderers f) (layouts f ++ [l])
           (legend_location_ f).

Definition set_legend_location (loc : string) (f : Figure) : Figure :=
  mkFigure (figure_id f) (tools f) (width f) (height f) (y_axis_type f)
           (f_y_range f) (x_axis_type f) (f_x_range f) (title f)
           (x_axis_label f) (y_axis_label f) (renderers f) (layouts f)
           (Some loc).

(** What [self.bkfigure] can hold: a figure, or the grid that
    [bokeh.io.gridplot] builds from rows of figures. *)
Inductive BkObject : Type :=
| BkFigure (f : Figure)
| BkGrid (grid_id : nat) (rows : list (list Figure)).

(** A handle on a glyph drawn in a figure: the figure and the position of
    the mark. *)
Record Glyph : Type := mkGlyph {
  g_figure : nat;
  g_index : nat }.

(** ** The attributes of a [Plot]

    [self.xunits], [self.xname], [self.yunits] and [self.yname] are
    prefixed with [p_] to keep them apart from the dataset's own.  The
    attributes created after construction ([bkfigure], [bkres] and the
    three [linear_fit_] ones) are absent until first assigned. *)
Record Plot : Type := mkPlot {
  color_palette : list string;
  color_count : Z;
  datasets : list XYDataSet;
  datasets_colors : list string;
  p_xunits : string;
  p_xname : string;
  p_yunits : string;
  p_yname : string;
  errorband_sigma : Q;
  show_residuals : bool;
  x_range_margin : Q;
  y_range_margin : Q;
  x_range : PyRange;
  y_range : PyRange;
  dimensions : list Z;
  user_functions_count : Z;
  user_functions : list UserFunction;
  user_functions_pars : list Pars;
  user_functions_names : list string;
  user_functions_colors : list string;
  axes : gmap string string;
  legend_location : string;
  labels : gmap string (option string);
  plot_para : gmap string string;
  bkfigure : option BkObject;
  bkres : option Figure;
  linear_fit_line : option Glyph;
  linear_fit_patches : option Glyph;
  linear_fit_pars : option (list Measurement) }.

(** Attribute assignment, one function per attribute the methods assign. *)
Definition with_color_count (v : Z) (p : Plot) : Plot :=
  mkPlot (color_palette p) v (datasets p) (datasets_colors p) (p_xunits p)
        (p_xname p) (p_yunits p) (p_yname p) (errorband_sigma p)
        (show_residuals p) (x_range_margin p) (y_range_margin p) (x_range p)
        (y_range p) (dimensions p) (user_functions_count p)
        (user_functions p) (user_functions_pars p) (user_functions_names p)
        (user_functions_colors p) (axes p) (legend_location p) (labels p)
        (plot_para p) (bkfigure p) (bkres p) (linear_fit_line p)
        (linear_fit_patches p) (linear_fit_pars p).

Definition with_datasets (v : list XYDataSet) (p : Plot) : Plot :=
  mkPlot (color_palette p) (color_count p) v (datasets_colors p)
        (p_xunits p) (p_xname p) (p_yunits p) (p_yname p)
        (errorband_sigma p) (show_residuals p) (x_range_margin p)
        (y_range_margin p) (x_range p) (y_range p) (dimensions p)
        (user_functions_count p) (user_functions p) (user_functions_pars p)
        (user_functions_names p) (user_functions_colors p) (axes p)
        (legend_location p) (labels p) (plot_para p) (bkfigure p) (bkres p)
        (linear_fit_line p) (linear_fit_patches p) (linear_fit_pars p).

Definition with_datasets_colors (v : list string) (p : Plot) : Plot :=
  mkPlot (color_palette p) (color_count p) (datasets p) v (p_xunits p)
        (p_xname p) (p_yunits p) (p_yname p) (errorband_sigma p)
        (show_residuals p) (x_range_margin p) (y_range_margin p) (x_range p)
        (y_range p) (dimensions p) (user_functions_count p)
        (user_functions p) (user_functions_pars p) (user_functions_names p)
        (user_functions_colors p) (axes p) (legend_location p) (labels p)
        (plot_para p) (bkfigure p) (bkres p) (linear_fit_line p)
        (linear_fit_patches p) (linear_fit_pars p).

Definition with_show_residuals (v : bool) (p : Plot) : Plot :=
  mkPlot (color_palette p) (color_count p) (datasets p) (datasets_colors p)
        (p_xunits p) (p_xname p) (p_yunits p) (p_yname p)
        (errorband_sigma p) v (x_range_margin p) (y_range_margin p)
        (x_range p) (y_range p) (dimensions p) (user_functions_count p)
        (user_functions p) (user_functions_pars p) (user_functions_names p)
        (user_functions_colors p) (axes p) (legend_location p) (labels p)
        (plot_para p) (bkfigure p) (bkres p) (linear_fit_line p)
        (linear_fit_patches p) (linear_fit_pars p).

Definition with_x_range (v : PyRange) (p : Plot) : Plot :=
  mkPlot (color_palette p) (color_count p) (datasets p) (datasets_colors p)
        (p_xunits p) (p_xname p) (p_yunits p) (p_yname p)
        (errorband_sigma p) (show_residuals p) (x_range_margin p)
        (y_range_margin p) v (y_range p) (dimensions p)
        (user_functions_count p) (user_functions p) (user_functions_pars p)
        (user_functions_names p) (user_functions_colors p) (axes p)
        (legend_location p) (labels p) (plot_para p) (bkfigure p) (bkres p)
        (linear_fit_line p) (linear_fit_patches p) (linear_fit_pars p).

Definition with_y_range (v : PyRange) (p : Plot) : Plot :=
  mkPlot (color_palette p) (color_count p) (datasets p) (datasets_colors p)
        (p_xunits p) (p_xname p) (p_yunits p) (p_yname p)
        (errorband_sigma p) (show_residuals p) (x_range_margin p)
        (y_range_margin p) (x_range p) v (dimensions p)
        (user_functions_count p) (user_functions p) (user_functions_pars p)
        (user_functions_names p) (user_functions_colors p) (axes p)
        (legend_location p) (labels p) (plot_para p) (bkfigure p) (bkres p)
        (linear_fit_line p) (linear_fit_patches p) (linear_fit_pars p).

Definition with_dimensions (v : list Z) (p : Plot) : Plot :=
  mkPlot (color_palette p) (color_count p) (datasets p) (datasets_colors p)
        (p_xunits p) (p_xname p) (p_yunits p) (p_yname p)
        (errorband_sigma p) (show_residuals p) (x_range_margin p)
        (y_range_margin p) (x_range p) (y_range p) v
        (user_functions_count p) (user_functions p) (user_functions_pars p)
        (user_functions_names p) (user_functions_colors p) (axes p)
        (legend_location p) (labels p) (plot_para p) (bkfigure p) (bkres p)
        (linear_fit_line p) (linear_fit_patches p) (linear_fit_pars p).

Definition with_errorband_sigma (v : Q) (p : Plot) : Plot :=
  mkPlot (color_palette p) (color_count p) (datasets p) (datasets_colors p)
        (p_xunits p) (p_xname p) (p_yunits p) (p_yname p) v
        (show_residuals p) (x_range_margin p) (y_range_margin p) (x_range p)
        (y_range p) (dimensions p) (user_functions_count p)
        (user_functions p) (user_functions_pars p) (user_functions_names p)
        (user_functions_colors p) (axes p) (legend_location p) (labels p)
        (plot_para p) (bkfigure p) (bkres p) (linear_fit_line p)
        (linear_fit_patches p) (linear_fit_pars p).

Definition with_user_functions_count (v : Z) (p : Plot) : Plot :=
  mkPlot (color_palette p) (color_count p) (datasets p) (datasets_colors p)
        (p_xunits p) (p_xname p) (p_yunits p) (p_yname p)
        (errorband_sigma p) (show_residuals p) (x_range_margin p)
        (y_range_margin p) (x_range p) (y_range p) (dimensions p) v
        (user_functions p) (user_functions_pars p) (user_functions_names p)
        (user_functions_colors p) (axes p) (legend_location p) (labels p)
        (plot_para p) (bkfigure p) (bkres p) (linear_fit_line p)
        (linear_fit_patches p) (linear_fit_pars p).

Definition with_user_functions (v : list UserFunction) (p : Plot) : Plot :=
  mkPlot (color_palette p) (color_count p) (datasets p) (datasets_colors p)
        (p_xunits p) (p_xname p) (p_yunits p) (p_yname p)
        (errorband_sigma p) (show_residuals p) (x_range_margin p)
        (y_range_margin p) (x_range p) (y_range p) (dimensions p)
        (user_functions_count p) v (user_functions_pars p)
        (user_functions_names p) (user_functions_colors p) (axes p)
        (legend_location p) (labels p) (plot_para p) (bkfigure p) (bkres p)
        (linear_fit_line p) (linear_fit_patches p) (linear_fit_pars p).

Definition with_user_functions_pars (v : list Pars) (p : Plot) : Plot :=
  mkPlot (color_palette p) (color_count p) (datasets p) (datasets_colors p)
        (p_xunits p) (p_xname p) (p_yunits p) (p_yname p)
        (errorband_sigma p) (show_residuals p) (x_range_margin p)
        (y_range_margin p) (x_range p) (y_range p) (dimensions p)
        (user_functions_count p) (user_functions p) v
        (user_functions_names p) (user_functions_colors p) (axes p)
        (legend_location p) (labels p) (plot_para p) (bkfigure p) (bkres p)
        (linear_fit_line p) (linear_fit_patches p) (linear_fit_pars p).

Definition with_user_functions_names (v : list string) (p : Plot) : Plot :=
  mkPlot (color_palette p) (color_count p) (datasets p) (datasets_colors p)
        (p_xunits p) (p_xname p) (p_yunits p) (p_yname p)
        (errorband_sigma p) (show_residuals p) (x_range_margin p)
        (y_range_margin p) (x_range p) (y_range p) (dimensions p)
        (user_functions_count p) (user_functions p) (user_functions_pars p)
        v (user_functions_colors p) (axes p) (legend_location p) (labels p)
        (plot_para p) (bkfigure p) (bkres p) (linear_fit_line p)
        (linear_fit_patches p) (linear_fit_pars p).

Definition with_user_functions_colors (v : list string) (p : Plot) : Plot :=
  mkPlot (color_palette p) (color_count p) (datasets p) (datasets_colors p)
        (p_xunits p) (p_xname p) (p_yunits p) (p_yname p)
        (errorband_sigma p) (show_residuals p) (x_range_margin p)
        (y_range_margin p) (x_range p) (y_range p) (dimensions p)
        (user_functions_count p) (user_functions p) (user_functions_pars p)
        (user_functions_names p) v (axes p) (legend_location p) (labels p)
        (plot_para p) (bkfigure p) (bkres p) (linear_fit_line p)
        (linear_fit_patches p) (linear_fit_pars p).

Definition with_labels (v : gmap string (option string)) (p : Plot) : Plot :=
  mkPlot (color_palette p) (color_count p) (datasets p) (datasets_colors p)
        (p_xunits p) (p_xname p) (p_yunits p) (p_yname p)
        (errorband_sigma p) (show_residuals p) (x_range_margin p)
        (y_range_margin p) (x_range p) (y_range p) (dimensions p)
        (user_functions_count p) (user_functions p) (user_functions_pars p)
        (user_functions_names p) (user_functions_colors p) (axes p)
        (legend_location p) v (plot_para p) (bkfigure p) (bkres p)
        (linear_fit_line p) (linear_fit_patches p) (linear_fit_pars p).

Definition with_bkfigure (v : option BkObject) (p : Plot) : Plot :=
  mkPlot (color_palette p) (color_count p) (datasets p) (datasets_colors p)
        (p_xunits p) (p_xname p) (p_yunits p) (p_yname p)
        (errorband_sigma p) (show_residuals p) (x_range_margin p)
        (y_range_margin p) (x_range p) (y_range p) (dimensions p)
        (user_functions_count p) (user_functions p) (user_functions_pars p)
        (user_functions_names p) (user_functions_colors p) (axes p)
        (legend_location p) (labels p) (plot_para p) v (bkres p)
        (linear_fit_line p) (linear_fit_patches p) (linear_fit_pars p).

Definition with_bkres (v : option Figure) (p : Plot) : Plot :=
  mkPlot (color_palette p) (color_count p) (datasets p) (datasets_colors p)
        (p_xunits p) (p_xname p) (p_yunits p) (p_yname p)
        (errorband_sigma p) (show_residuals p) (x_range_margin p)
        (y_range_margin p) (x_range p) (y_range p) (dimensions p)
        (user_functions_count p) (user_functions p) (user_functions_pars p)
        (user_functions_names p) (user_functions_colors p) (axes p)
        (legend_location p) (labels p) (plot_para p) (bkfigure p) v
        (linear_fit_line p) (linear_fit_patches p) (linear_fit_pars p).

Definition with_linear_fit_line (v : option Glyph) (p : Plot) : Plot :=
  mkPlot (color_palette p) (color_count p) (datasets p) (datasets_colors p)
        (p_xunits p) (p_xname p) (p_yunits p) (p_yname p)
        (errorband_sigma p) (show_residuals p) (x_range_margin p)
        (y_range_margin p) (x_range p) (y_range p) (dimensions p)
        (user_functions_count p) (user_functions p) (user_functions_pars p)
        (user_functions_names p) (user_functions_colors p) (axes p)
        (legend_location p) (labels p) (plot_para p) (bkfigure p) (bkres p)
        v (linear_fit_patches p) (linear_fit_pars p).

Definition with_linear_fit_patches (v : option Glyph) (p : Plot) : Plot :=
  mkPlot (color_palette p) (color_count p) (datasets p) (datasets_colors p)
        (p_xunits p) (p_xname p) (p_yunits p) (p_yname p)
        (errorband_sigma p) (show_residuals p) (x_range_margin p)
        (y_range_margin p) (x_range p) (y_range p) (dimensions p)
        (user_functions_count p) (user_functions p) (user_functions_pars p)
        (user_functions_names p) (user_functions_colors p) (axes p)
        (legend_location p) (labels p) (plot_para p) (bkfigure p) (bkres p)
        (linear_fit_line p) v (linear_fit_pars p).

Definition with_linear_fit_pars (v : option (list Measurement)) (p : Plot) : Plot :=
  mkPlot (color_palette p) (color_count p) (datasets p) (datasets_colors p)
        (p_xunits p) (p_xname p) (p_yunits p) (p_yname p)
        (errorband_sigma p) (show_residuals p) (x_range_margin p)
        (y_range_margin p) (x_range p) (y_range p) (dimensions p)
        (user_functions_count p) (user_functions p) (user_functions_pars p)
        (user_functions_names p) (user_functions_colors p) (axes p)
        (legend_location p) (labels p) (plot_para p) (bkfigure p) (bkres p)
        (linear_fit_line p) (linear_fit_patches p) v.

(** ** The method monad

    A method runs on the attributes of [self] and on the module-level
    state, and either returns a value or raises; both states survive a
    raise. *)
Record Run (A : Type) : Type := mkRun {
  result : Result A;
  self_after : Plot;
  globals_after : Globals }.
Arguments mkRun {A} _ _ _.
Arguments result {A} _.
Arguments self_after {A} _.
Arguments globals_after {A} _.

Definition M (A : Type) : Type := Plot -> Globals -> Run A.

Definition ret {A : Type} (a : A) : M A := fun p g => mkRun (Ok a) p g.

Definition raise {A : Type} (e : PyExc) : M A := fun p g => mkRun (Raise e) p g.

Definition bind {A B : Type} (c : M A) (k : A -> M B) : M B :=
  fun p g =>
    match c p g with
    | mkRun (Ok a) p' g' => k a p' g'
    | mkRun (Raise e) p' g' => mkRun (Raise e) p' g'
    end.

Notation "'let*' x ':=' c 'in' k" := (bind c (fun x => k))
  (at level 10, x name, c at level 100, k at level 200).

Definition lift {A : Type} (r : Result A) : M A := fun p g => mkRun r p g.

(** Reading [self] and assigning to one of its attributes. *)
Definition self : M Plot := fun p g => mkRun (Ok p) p g.

Definition assign (set : Plot -> Plot) : M unit :=
  fun p g => mkRun (Ok tt) (set p) g.

(** Reading and changing the module-level state. *)
Definition globals : M Globals := fun p g => mkRun (Ok g) p g.

Definition assign_global (set : Globals -> Globals) : M unit :=
  fun p g => mkRun (Ok tt) p (set g).

Definition print (line : string) : M unit := assign_global (write_stdout line).

(** What a collaborator prints. *)
Definition print_lines (lines : list string) : M unit :=
  assign_global (write_lines lines).

(** [d[key]] on a dictionary attribute. *)
Definition dict_getitem {V : Type} (d : gmap string V) (key : string) : M V :=
  match d !! key with
  | Some v => ret v
  | None => raise KeyError
  end.

(** A new two-element list [[a, b]]. *)
Definition new_list (a b : Q) : M PyRange :=
  fun p g => mkRun (Ok (mkRange (next_id g) TList a b)) p (bump_id g).

(** [r[i]] on a stored range. *)
Definition range_getitem (r : PyRange) (i : Z) : Result Q :=
  py_getitem [lo r; hi r] i.

(** [r[i] = v] on a stored range: the object [r] changes, and so does
    every attribute bound to that object.  Tuples do not support item
    assignment; an array of an integer dtype keeps the integer part of
    [v]. *)
Definition store_item (i : Z) (v : Q) (r : PyRange) : PyRange :=
  if (i =? 0) || (i =? -2) then mkRange (oid r) (kind r) (stored (kind r) v) (hi r)
  else mkRange (oid r) (kind r) (lo r) (stored (kind r) v).

Definition write_through (target : nat) (i : Z) (v : Q) (r : PyRange) : PyRange :=
  if Nat.eqb (oid r) target then store_item i v r else r.

Definition range_setitem (r : PyRange) (i : Z) (v : Q) : M unit :=
  match kind r with
  | TTuple => raise TypeError
  | TList | TNdarray | TNdarrayInt =>
      if (i <? -2) || (2 <=? i) then raise IndexError
      else
        let* _ := assign (fun p => with_x_range (write_through (oid r) i v (x_range p)) p) in
        assign (fun p => with_y_range (write_through (oid r) i v (y_range p)) p)
  end.

(** Modelled from the spec: [dataset.get_x_range(margin)] and
    [dataset.get_y_range(margin)] of the fitting collaborator report the
    extent of the data widened by [margin] on both sides, as a new list;
    [dataset.get_yres_range()] reports the extent of the residuals. *)
Definition get_x_range (d : XYDataSet) (margin : Q) : M PyRange :=
  new_list (fst (x_extent d) - margin)%Q (snd (x_extent d) + margin)%Q.

Definition get_y_range (d : XYDataSet) (margin : Q) : M PyRange :=
  new_list (fst (y_extent d) - margin)%Q (snd (y_extent d) + margin)%Q.

Definition get_yres_range (d : XYDataSet) : M PyRange :=
  new_list (fst (yres_extent d)) (snd (yres_extent d)).

(** ** The class *)

(** [bokeh.palettes.Set1_9], the nine colours of ColorBrewer's Set1. *)
Definition Set1_9 : list string :=
  ["#e41a1c"; "#377eb8"; "#4daf4a"; "#984ea3"; "#ff7f00"; "#ffff33";
   "#a65628"; "#f781bf"; "#999999"].

(** [_get_color_from_palette] *)
Definition _get_color_from_palette : M string :=
  let* _ := assign (fun p => with_color_count (color_count p + 1) p) in
  let* p := self in
  lift (py_getitem (color_palette p) (color_count p - 1)).

(** [set_range_from_dataset] *)
Definition set_range_from_dataset (dataset : XYDataSet) : M unit :=
  let* p := self in
  let* xr := get_x_range dataset (x_range_margin p) in
  let* _ := assign (with_x_range xr) in
  let* p := self in
  let* yr := get_y_range dataset (y_range_margin p) in
  assign (with_y_range yr).

(** The attributes as the assignments of [__init__] leave them, the two
    calls to other methods apart: the colour of the first dataset and the
    ranges, which [__init__] obtains from [_get_color_from_palette] and
    [set_range_from_dataset], still hold placeholders here. *)
Definition init_attributes (d : XYDataSet) (data_name : option string) : Plot :=
  mkPlot Set1_9 0 [d] []
         (xunits d) (xname d) (yunits d) (yname d)
         1%Q false (1 # 2)%Q (1 # 2)%Q
         (mkRange 0 TList 0%Q 0%Q) (mkRange 0 TList 0%Q 0%Q)
         [600; 400]
         0 [] [] [] []
         (<["xscale" := "linear"]> (<["yscale" := "linear"]> ∅))
         "top_left"
         (<["title" := Some (name d)]>
          (<["xtitle" := Some (xname d ++ " [" ++ xunits d ++ "]")]>
           (<["ytitle" := Some (yname d ++ " [" ++ yunits d ++ "]")]>
            (<["data" := data_name]> ∅))))
         (<["filename" := "Plot"]> ∅)
         None None None None None.

(** The object under construction when [qf.XYDataSet] raises: the
    palette, the cursor and the empty list of datasets are all it has.  The
    constructor does not return it; the attributes it does not have yet
    hold placeholders. *)
Definition unbuilt : Plot :=
  mkPlot Set1_9 0 [] []
         "" "" "" ""
         0%Q false 0%Q 0%Q
         (mkRange 0 TList 0%Q 0%Q) (mkRange 0 TList 0%Q 0%Q)
         []
         0 [] [] [] []
         ∅ "" ∅ ∅
         None None None None None.

(** [__init__].  [wrapped] is the outcome of the call
    [qf.XYDataSet(x, y, xerr=xerr, yerr=yerr, data_name=data_name)]: the
    dataset it builds from the raw arrays, or the exception it raises.  The
    call is made only when no [dataset] is given. *)
Definition __init__ (wrapped : Result XYDataSet) (data_name : option string)
    (dataset : option XYDataSet) (g : Globals) : Run unit :=
  match (match dataset with Some d => Ok d | None => wrapped end) with
  | Raise e => mkRun (Raise e) unbuilt g
  | Ok d =>
      (let* c := _get_color_from_palette in
       let* _ := assign (fun p => with_datasets_colors (datasets_colors p ++ [c]) p) in
       let* p := self in
       let* last := lift (py_getitem (datasets p) (-1)) in
       set_range_from_dataset last) (init_attributes d data_name) g
  end.

(** [add_residuals] *)
Definition add_residuals : M unit :=
  let* p := self in
  let* last := lift (py_getitem (datasets p) (-1)) in
  if 0 <? nfits last then assign (with_show_residuals true) else ret tt.

(** The tests [add_function] makes on [pars].  [Measurement_Array] is a
    subclass of [np.ndarray]. *)
Definition isinstance_ndarray (pars : Pars) : bool :=
  match pars with
  | ParsNdarray _ | ParsMeasurementArray _ => true
  | _ => false
  end.

Definition isinstance_Measurement_Array (pars : Pars) : bool :=
  match pars with
  | ParsMeasurementArray _ => true
  | _ => false
  end.

Definition isinstance_list_or_ndarray (pars : Pars) : bool :=
  match pars with
  | ParsList _ | ParsNdarray _ | ParsMeasurementArray _ => true
  | _ => false
  end.

(** [pars == None], asked only of values that are not arrays. *)
Definition eq_None (pars : Pars) : bool :=
  match pars with
  | ParsNone => true
  | _ => false
  end.

(** [*pars]: the positional arguments a sequence unpacks to. *)
Definition unpack (pars : Pars) : list PyArg :=
  match pars with
  | ParsMeasurementArray ms => map ArgMeasurement ms
  | ParsNdarray vs | ParsList vs => map ArgFloat vs
  | ParsNone | ParsTuple _ | ParsFloat _ | ParsStr _ => []
  end.

(** [function(xvals, *args)] *)
Definition call (function : UserFunction) (xvals : list Q) (args : list PyArg)
  : M FValue :=
  fun p g => mkRun (fst (function xvals args g)) p (snd (function xvals args g)).

(** [fmes.get_means()]: only a [Measurement_Array] has the method. *)
Definition fvalue_get_means (fmes : FValue) : Result FValue :=
  match fmes with
  | FMeasurementArray ms => Ok (FArray (get_means ms))
  | FArray _ => Raise AttributeError
  end.

(** [fvals.max()] and [fvals.min()] as floats.  The extremum of an array
    of [Measurement] objects is not a float; that case is outside the
    numeric model and is treated as a type error. *)
Definition fvalue_max (fvals : FValue) : Result Q :=
  match fvals with
  | FArray vs => np_max vs
  | FMeasurementArray _ => Raise TypeError
  end.

Definition fvalue_min (fvals : FValue) : Result Q :=
  match fvals with
  | FArray vs => np_min vs
  | FMeasurementArray _ => Raise TypeError
  end.

(** ["userf_{}".format(n)] *)
Definition digit_of (n : nat) : string :=
  String (Ascii.ascii_of_nat (48 + n)) EmptyString.

Fixpoint decimal_fuel (fuel n : nat) : string :=
  match fuel with
  | O => ""
  | S fuel' =>
      if Nat.ltb n 10 then digit_of n
      else decimal_fuel fuel' (Nat.div n 10) ++ digit_of (Nat.modulo n 10)
  end.

Definition format_int (z : Z) : string :=
  if z <? 0 then "-" ++ decimal_fuel (S (Z.to_nat (- z))) (Z.to_nat (- z))
  else decimal_fuel (S (Z.to_nat z)) (Z.to_nat z).

(** [add_function], from the computation of [fmax] to the end. *)
Definition add_function_record (function : UserFunction) (pars : Pars)
    (name : option string) (color : option string) (fvals : FValue) : M unit :=
  let* p := self in
  let* vmax := lift (fvalue_max fvals) in
  let fmax := (vmax + y_range_margin p)%Q in
  let* p := self in
  let* vmin := lift (fvalue_min fvals) in
  let fmin := (vmin - y_range_margin p)%Q in
  let* p := self in
  let* y1 := lift (range_getitem (y_range p) 1) in
  let* _ := if py_gt fmax y1 then range_setitem (y_range p) 1 fmax else ret tt in
  let* p := self in
  let* y0 := lift (range_getitem (y_range p) 0) in
  let* _ := if py_lt fmin y0 then range_setitem (y_range p) 0 fmin else ret tt in
  let* _ := assign (fun p => with_user_functions (user_functions p ++ [function]) p) in
  let* _ := assign (fun p => with_user_functions_pars (user_functions_pars p ++ [pars]) p) in
  let* p := self in
  let fname := match name with
               | None => "userf_" ++ format_int (user_functions_count p)
               | Some n => n
               end in
  let* _ := assign (fun p => with_user_functions_names (user_functions_names p ++ [fname]) p) in
  let* _ := assign (fun p => with_user_functions_count (user_functions_count p + 1) p) in
  match color with
  | None =>
      let* c := _get_color_from_palette in
      assign (fun p => with_user_functions_colors (user_functions_colors p ++ [c]) p)
  | Some c =>
      assign (fun p => with_user_functions_colors (user_functions_colors p ++ [c]) p)
  end.

(** The branch of [add_function] for a [Measurement_Array] of parameters:
    the function is evaluated with [qe.Measurement.minmax_n] set to 1. *)
Definition evaluate_with_measurements (function : UserFunction)
    (xvals : list Q) (pars : Pars) : M FValue :=
  let* g := globals in
  let recall := minmax_n g in
  let* _ := assign_global (set_minmax_n 1) in
  let* fmes := call function xvals (unpack pars) in
  let* fvals := lift (fvalue_get_means fmes) in
  let* _ := assign_global (set_minmax_n recall) in
  ret fvals.

(** [add_function] *)
Definition add_function (function : UserFunction) (pars : Pars)
    (name : option string) (color : option string) : M unit :=
  let* p := self in
  let* x0 := lift (range_getitem (x_range p) 0) in
  let* x1 := lift (range_getitem (x_range p) 1) in
  let xvals := np_linspace x0 x1 100 in
  if negb (isinstance_ndarray pars) && eq_None pars then
    let* fvals := call function xvals [] in
    add_function_record function pars name color fvals
  else if isinstance_Measurement_Array pars then
    let* fvals := evaluate_with_measurements function xvals pars in
    add_function_record function pars name color fvals
  else if isinstance_list_or_ndarray pars then
    let* fvals := call function xvals (unpack pars) in
    add_function_record function pars name color fvals
  else
    print "Error: Not a recognized format for parameter".

(** [self.datasets[-1].name = name]: the dataset object at the end of
    the list is renamed. *)
Definition rename_last (n : string) (ds : list XYDataSet) : list XYDataSet :=
  match rev ds with
  | [] => []
  | d :: _ => write_dataset (set_name n d) ds
  end.

(** [add_dataset] *)
Definition add_dataset (dataset : XYDataSet) (color : option string)
    (name : option string) : M unit :=
  let* _ := assign (fun p => with_datasets (datasets p ++ [dataset]) p) in
  let* _ := match color with
            | None =>
                let* c := _get_color_from_palette in
                assign (fun p => with_datasets_colors (datasets_colors p ++ [c]) p)
            | Some c =>
                assign (fun p => with_datasets_colors (datasets_colors p ++ [c]) p)
            end in
  let* _ := match name with
            | Some n =>
                let* p := self in
                let* _ := lift (py_getitem (datasets p) (-1)) in
                assign (fun p => with_datasets (rename_last n (datasets p)) p)
            | None => ret tt
            end in
  let* p := self in
  let* xr := get_x_range dataset (x_range_margin p) in
  let* p := self in
  let* yr := get_y_range dataset (y_range_margin p) in
  let* p := self in
  let* sx0 := lift (range_getitem (x_range p) 0) in
  let* _ := if py_lt (lo xr) sx0 then range_setitem (x_range p) 0 (lo xr) else ret tt in
  let* p := self in
  let* sx1 := lift (range_getitem (x_range p) 1) in
  let* _ := if py_gt (hi xr) sx1 then range_setitem (x_range p) 1 (hi xr) else ret tt in
  let* p := self in
  let* sy0 := lift (range_getitem (y_range p) 0) in
  let* _ := if py_lt (lo yr) sy0 then range_setitem (y_range p) 0 (lo yr) else ret tt in
  let* p := self in
  let* sy1 := lift (range_getitem (y_range p) 1) in
  if py_gt (hi yr) sy1 then range_setitem (y_range p) 1 (hi yr) else ret tt.

(** [set_plot_range] tests [type(x_range) in ARRAY], where [ARRAY] is
    [qu.array_types].  That tuple of sequence types belongs to
    [qexpy.utils]; the method takes it as a parameter. *)
Section Array_types.

Variable ARRAY : list SeqType.

(** [type(v) in ARRAY] *)
Definition type_in_ARRAY (v : PyValue) : bool :=
  match v with
  | VSeq _ t _ => existsb (SeqType_eqb t) ARRAY
  | VArray0 _ _ => existsb (SeqType_eqb TNdarray) ARRAY
  | VNone | VFloat _ | VStr _ => false
  end.

(** [len(v) is 2] *)
Definition len_is_2 (v : PyValue) : Result bool :=
  match py_len v with
  | Ok n => Ok (n =? 2)
  | Raise e => Raise e
  end.

(** [type(v) in ARRAY and len(v) is 2]; [and] does not evaluate its
    second operand when the first is false. *)
Definition is_range (v : PyValue) : M bool :=
  if type_in_ARRAY v then lift (len_is_2 v) else ret false.

(** The range object an accepted argument is. *)
Definition as_range (v : PyValue) : Result PyRange :=
  match v with
  | VSeq id t [a; b] => Ok (mkRange id t a b)
  | _ => Raise TypeError
  end.

(** [set_plot_range] *)
Definition set_plot_range (new_x_range new_y_range : PyValue) : M unit :=
  let* x_ok := is_range new_x_range in
  let* _ :=
    if x_ok : bool then
      let* r := lift (as_range new_x_range) in
      assign (with_x_range r)
    else if is_not_None new_x_range then
      print "X range must be a list containing a minimun and maximum
            value for the range of the plot."
    else ret tt in
  let* y_ok := is_range new_y_range in
  if y_ok : bool then
    let* r := lift (as_range new_y_range) in
    assign (with_y_range r)
  else if is_not_None new_y_range then
    print "Y range must be a list containing a minimun and maximum
            value for the range of the plot."
  else ret tt.

End Array_types.

(** [set_labels] *)
Definition set_labels (title xtitle ytitle data_name : option string) : M unit :=
  let* _ := match title with
            | Some t => assign (fun p => with_labels (<["title" := Some t]> (labels p)) p)
            | None => ret tt
            end in
  let* _ := match xtitle with
            | Some t => assign (fun p => with_labels (<["xtitle" := Some t]> (labels p)) p)
            | None => ret tt
            end in
  let* _ := match ytitle with
            | Some t => assign (fun p => with_labels (<["ytitle" := Some t]> (labels p)) p)
            | None => ret tt
            end in
  match data_name with
  | Some t => assign (fun p => with_labels (<["Data" := Some t]> (labels p)) p)
  | None => ret tt
  end.

(** [resize_plot] *)
Definition resize_plot (width height : option Z) : M unit :=
  let width := match width with None => 600 | Some w => w end in
  let height := match height with None => 400 | Some h => h end in
  assign (with_dimensions [width; height]).

(** [set_errorband_sigma] *)
Definition set_errorband_sigma (sigma : Q) : M unit :=
  assign (with_errorband_sigma sigma).

(** ** Rendering *)

(** [bokeh.plotting.figure(...)]: a new figure object. *)
Definition bp_figure (build : nat -> Figure) : M Figure :=
  fun p g => mkRun (Ok (build (next_id g))) p (bump_id g).

(** [self.bkfigure] where a figure is expected. *)
Definition the_bkfigure : M Figure :=
  let* p := self in
  match bkfigure p with
  | Some (BkFigure f) => ret f
  | Some (BkGrid _ _) | None => raise AttributeError
  end.

(** [self.bkres] *)
Definition the_bkres : M Figure :=
  let* p := self in
  match bkres p with
  | Some f => ret f
  | None => raise AttributeError
  end.

(** [initialize_bokeh_figure] *)
Definition initialize_bokeh_figure (residuals : bool) : M Figure :=
  let* p := self in
  if negb residuals then
    let* w := lift (py_getitem (dimensions p) 0) in
    let* h := lift (py_getitem (dimensions p) 1) in
    let* yscale := dict_getitem (axes p) "yscale" in
    let* xscale := dict_getitem (axes p) "xscale" in
    let* t := dict_getitem (labels p) "title" in
    let* xl := dict_getitem (labels p) "xtitle" in
    let* yl := dict_getitem (labels p) "ytitle" in
    bp_figure (fun id =>
      mkFigure id "save, pan, box_zoom, wheel_zoom, reset" w h yscale
               (lo (y_range p), hi (y_range p)) (Some xscale)
               (mkRange1d id (lo (x_range p)) (hi (x_range p)))
               (Some t) xl yl [] [] None)
  else
    let* w := lift (py_getitem (dimensions p) 0) in
    let* h := lift (py_getitem (dimensions p) 1) in
    let* last := lift (py_getitem (datasets p) (-1)) in
    let* yres := get_yres_range last in
    let* main := the_bkfigure in
    let* xl := dict_getitem (labels p) "xtitle" in
    bp_figure (fun id =>
      mkFigure id "save, pan, box_zoom, wheel_zoom, reset" w (h / 3) "linear"
               (lo yres, hi yres) None (f_x_range main) None xl
               (Some "Residuals") [] [] None).

(** [qpu.plot_dataset(self.bkfigure, ...)] and
    [qpu.plot_dataset(self.bkres, ...)]: the collaborator draws on the
    figure object the attribute is bound to. *)
Definition plot_dataset_bkfigure (dataset : XYDataSet) (residual : bool)
    (data_color : string) : M unit :=
  let* f := the_bkfigure in
  assign (with_bkfigure
            (Some (BkFigure (add_mark (DatasetMark dataset residual data_color) f)))).

Definition plot_dataset_bkres (dataset : XYDataSet) (residual : bool)
    (data_color : string) : M unit :=
  let* f := the_bkres in
  assign (with_bkres (Some (add_mark (DatasetMark dataset residual data_color) f))).

(** [qpu.plot_function(self.bkfigure, ...)]; it returns the line and the
    band it drew. *)
Definition plot_function_bkfigure (function : Callable) (xdata : list Q)
    (pars : Pars) (n : Z) (legend_name color : string) (errorbandfactor : Q)
  : M (Glyph * Glyph) :=
  let* f := the_bkfigure in
  let* _ := assign (with_bkfigure
              (Some (BkFigure
                 (add_mark (FunctionMark function xdata pars n legend_name color
                                         errorbandfactor) f)))) in
  ret (mkGlyph (figure_id f) (length (renderers f)),
       mkGlyph (figure_id f) (length (renderers f))).

(** [range(n)] *)
Definition py_range (n : Z) : list Z := map Z.of_nat (seq 0 (Z.to_nat n)).

(** The loop that writes the fit parameters of the first dataset on the
    figure. *)
Fixpoint draw_fit_parameters (dataset : XYDataSet) (indices : list Z) : M unit :=
  match indices with
  | [] => ret tt
  | i :: rest =>
      let* ps := lift (py_getitem (fit_pars dataset) (-1)) in
      let* par := lift (py_getitem ps i) in
      let short_name := str_split "_"%char (m_str par) in
      let* first := lift (py_getitem short_name 0) in
      let* last := lift (py_getitem short_name (-1)) in
      let short_name := first ++ "_" ++ last in
      let citation := mkLabel 590 (320 + 20 * i) "right" "top" "11pt" "screen"
                              "screen" short_name "css" "white" 1%Q in
      let* f := the_bkfigure in
      let* _ := assign (with_bkfigure (Some (BkFigure (add_layout citation f)))) in
      draw_fit_parameters dataset rest
  end.

(** The loop of [populate_bokeh_figure] over [self.datasets]. *)
Fixpoint draw_datasets (remaining : list XYDataSet) (count : Z) : M unit :=
  match remaining with
  | [] => ret tt
  | dataset :: rest =>
      let* p := self in
      let* color := lift (py_getitem (datasets_colors p) count) in
      let* _ := plot_dataset_bkfigure dataset false color in
      let* _ :=
        if 0 <? nfits dataset then
          let* f := lift (py_getitem (fit_function dataset) (-1)) in
          let* ps := lift (py_getitem (fit_pars dataset) (-1)) in
          let* fname := lift (py_getitem (fit_function_name dataset) (-1)) in
          let* p := self in
          let* _ := plot_function_bkfigure (FitModel f) (xdata dataset)
                      (ParsMeasurementArray ps) 100 fname color
                      (errorband_sigma p) in
          let* _ :=
            if count <? 1 then
              let* npars := lift (py_getitem (fit_npars dataset) (-1)) in
              draw_fit_parameters dataset (py_range npars)
            else ret tt in
          let* p := self in
          if show_residuals p then plot_dataset_bkres dataset true color
          else ret tt
        else ret tt in
      draw_datasets rest (count + 1)
  end.

(** [zip(a, b, c)] *)
Fixpoint zip3 {A B C : Type} (a : list A) (b : list B) (c : list C)
  : list (A * B * C) :=
  match a, b, c with
  | x :: a', y :: b', z :: c' => (x, y, z) :: zip3 a' b' c'
  | _, _, _ => []
  end.

(** The loop of [populate_bokeh_figure] over the user functions. *)
Fixpoint draw_functions (remaining : list (UserFunction * Pars * string))
    (xvals : list Q) (count : Z) : M unit :=
  match remaining with
  | [] => ret tt
  | (func, pars, fname) :: rest =>
      let* p := self in
      let* color := lift (py_getitem (user_functions_colors p) count) in
      let* _ := plot_function_bkfigure (UserDefined func) xvals pars 100 fname
                  color (errorband_sigma p) in
      draw_functions rest xvals (count + 1)
  end.

(** [bokeh.io.gridplot(rows)]: a new layout object. *)
Definition bi_gridplot (rows : list (list Figure)) : M BkObject :=
  fun p g => mkRun (Ok (BkGrid (next_id g) rows)) p (bump_id g).

(** [populate_bokeh_figure] *)
Definition populate_bokeh_figure : M BkObject :=
  let* fig := initialize_bokeh_figure false in
  let* _ := assign (with_bkfigure (Some (BkFigure fig))) in
  let* p := self in
  let* _ :=
    if show_residuals p then
      let* res := initialize_bokeh_figure true in
      assign (with_bkres (Some res))
    else ret tt in
  let* p := self in
  let* _ := draw_datasets (datasets p) 0 in
  let* p := self in
  let* x0 := lift (range_getitem (x_range p) 0) in
  let* x1 := lift (range_getitem (x_range p) 1) in
  let xvals := [(x0 + x_range_margin p)%Q; (x1 - x_range_margin p)%Q] in
  let* _ := draw_functions
              (zip3 (user_functions p) (user_functions_pars p)
                    (user_functions_names p)) xvals 0 in
  let* f := the_bkfigure in
  let* p := self in
  let* _ := assign (with_bkfigure
              (Some (BkFigure (set_legend_location (legend_location p) f)))) in
  let* p := self in
  let* _ :=
    if show_residuals p then
      let* f := the_bkfigure in
      let* res := the_bkres in
      let* grid := bi_gridplot [[f]; [res]] in
      assign (with_bkfigure (Some grid))
    else ret tt in
  let* p := self in
  match bkfigure p with
  | Some obj => ret obj
  | None => raise AttributeError
  end.

(** [set_bokeh_output].  The first branch evaluates
    [self.attributes['title']] as an argument of [bi.output_file]; the class
    never creates an attribute [attributes]. *)
Definition set_bokeh_output (output : string) : M unit :=
  let* g := globals in
  if String.eqb output "file" || negb (in_notebook g) then
    let* p := self in
    let* _ := dict_getitem (plot_para p) "filename" in
    raise AttributeError
  else if negb (bokeh_ouput_notebook_called g) then
    let* _ := assign_global (log_bokeh OutputNotebook) in
    assign_global (set_bokeh_ouput_notebook_called true)
  else ret tt.

(** [bokeh.plotting.show(obj)] *)
Definition bp_show (obj : BkObject) : M unit :=
  assign_global (log_bokeh (Show match obj with
                                 | BkFigure f => figure_id f
                                 | BkGrid id _ => id
                                 end)).

(** [show] *)
Definition show (output : string) (populate_figure : bool) : M unit :=
  let* _ := set_bokeh_output output in
  if populate_figure then
    let* obj := populate_bokeh_figure in
    bp_show obj
  else
    let* p := self in
    match bkfigure p with
    | Some obj => bp_show obj
    | None => raise AttributeError
    end.

(** [dataset.clear_fits()] and [dataset.fit("linear")] in
    [show_linear_fit] act on the dataset object at the end of
    [self.datasets]. *)
Definition clear_fits_last : M unit :=
  let* p := self in
  let* dataset := lift (py_getitem (datasets p) (-1)) in
  assign (fun p => with_datasets (write_dataset (clear_fits dataset) (datasets p)) p).

Definition fit_last (model : string) : M (list Measurement) :=
  let* p := self in
  let* dataset := lift (py_getitem (datasets p) (-1)) in
  let* _ := print_lines (fit_report dataset model) in
  let* _ := assign (fun p => with_datasets
                      (write_dataset (snd (fit_dataset model dataset)) (datasets p)) p) in
  lift (fst (fit_dataset model dataset)).

(** [show_linear_fit] *)
Definition show_linear_fit (output : string) : M unit :=
  let* p := self in
  let* _ :=
    if 1 <? Z.of_nat (length (datasets p)) then
      print "Warning: only using the last added dataset, and clearing previous fits"
    else ret tt in
  let* p := self in
  let* _ := lift (py_getitem (datasets p) (-1)) in
  let* color := lift (py_getitem (datasets_colors p) (-1)) in
  let* _ := clear_fits_last in
  let* _ := fit_last "linear" in
  let* p := self in
  let* dataset := lift (py_getitem (datasets p) (-1)) in
  let* func := lift (py_getitem (fit_function dataset) (-1)) in
  let* pars := lift (py_getitem (fit_pars dataset) (-1)) in
  let fname := "linear" in
  let* x0 := lift (range_getitem (x_range p) 0) in
  let* _ :=
    if py_gt x0 (- (1 # 2))%Q then
      let* _ := range_setitem (x_range p) 0 (- (1 # 2))%Q in
      let* p := self in
      let* ds := lift (py_getitem (datasets p) (-1)) in
      let* f := lift (py_getitem (fit_function ds) (-1)) in
      let* x0 := lift (range_getitem (x_range p) 0) in
      range_setitem (y_range p) 0 (f x0 (get_means pars))
    else ret tt in
  let* fig := initialize_bokeh_figure false in
  let* _ := assign (with_bkfigure (Some (BkFigure fig))) in
  let* _ := plot_dataset_bkfigure dataset false color in
  let* p := self in
  let* x0 := lift (range_getitem (x_range p) 0) in
  let* x1 := lift (range_getitem (x_range p) 1) in
  let xvals := [(x0 + x_range_margin p)%Q; (x1 - x_range_margin p)%Q] in
  let* p := self in
  let* drawn := plot_function_bkfigure (FitModel func) xvals
                  (ParsMeasurementArray pars) 100 fname color
                  (errorband_sigma p) in
  let* _ := assign (with_linear_fit_line (Some (fst drawn))) in
  let* _ := assign (with_linear_fit_patches (Some (snd drawn))) in
  let* _ := assign (with_linear_fit_pars (Some pars)) in
  let* f := the_bkfigure in
  let* p := self in
  let* _ := assign (with_bkfigure
              (Some (BkFigure (set_legend_location (legend_location p) f)))) in
  show output false.

(** ** Fits and their parameters *)

(** [fit].  The guess and the range are handed to the collaborator
    untouched; the model of the collaborator keys its answer on the model
    name alone.  The fit acts on the dataset object at [datasetindex]. *)
Definition fit (model : string) (datasetindex : Z) : M (list Measurement) :=
  let* p := self in
  let* dataset := lift (py_getitem (datasets p) datasetindex) in
  let* _ := print_lines (fit_report dataset model) in
  let* _ := assign (fun p => with_datasets
                      (write_dataset (snd (fit_dataset model dataset))
                                     (datasets p)) p) in
  lift (fst (fit_dataset model dataset)).

(** [print_fit_parameters].  [str] of a [Measurement_Array] belongs to
    the uncertainty collaborator and is taken as a parameter. *)
Section Print_fit_parameters.

Variable array_str : list Measurement -> string.

Definition print_fit_parameters (dataset : Z) : M unit :=
  let* p := self in
  let* last := lift (py_getitem (datasets p) (-1)) in
  if 0 <? nfits last then
    let* p := self in
    let* d := lift (py_getitem (datasets p) dataset) in
    let* pars := lift (py_getitem (fit_pars d) (-1)) in
    print ("Fit parameters:
" ++ array_str pars)
  else
    print "Datasets have not been fit".

End Print_fit_parameters.

(** ** The sliders of [interact_linear_fit]

    [interact_linear_fit] computes five slider ranges from the parameters
    that [show_linear_fit] stored and hands them, with the callback
    [update], to [ipywidgets.interact], which builds the widgets and calls
    [update] with the defaults.  [update] works on [qe.Measurement]
    arithmetic and writes the data sources of the two glyphs
    [show_linear_fit] drew, through [self].  What the registration and the
    callback do to the plot and to the module-level state, and whether
    they raise, is the parameter [interact].  The ranges are computed in
    exact arithmetic here, in floating point by the code. *)
Record Slider : Type := mkSlider {
  s_min : Q;
  s_max : Q;
  s_step : Q;
  s_default : Q }.

Record Sliders : Type := mkSliders {
  offset : Slider;
  slope : Slider;
  offset_err : Slider;
  slope_err : Slider;
  correlation : Slider }.

Section Interact.

Variable interact : Sliders -> M unit.

Definition interact_linear_fit (error_range : Q) : M unit :=
  let* p := self in
  match linear_fit_pars p with
  | None => raise AttributeError
  | Some pars =>
      let* par0 := lift (py_getitem pars 0) in
      let off_mean := mean par0 in
      let off_std := std par0 in
      let off_min := (off_mean - error_range * off_std)%Q in
      let off_max := (off_mean + error_range * off_std)%Q in
      let off_step := ((off_max - off_min) / 50)%Q in
      let* par1 := lift (py_getitem pars 1) in
      let slope_mean := mean par1 in
      let slope_std := std par1 in
      let slope_min := (slope_mean - error_range * slope_std)%Q in
      let slope_max := (slope_mean + error_range * slope_std)%Q in
      let slope_step := ((slope_max - slope_min) / 50)%Q in
      interact (mkSliders
                  (mkSlider off_min off_max off_step off_mean)
                  (mkSlider slope_min slope_max slope_step slope_mean)
                  (mkSlider 0 (2 * off_std) (off_std / 50) off_std)
                  (mkSlider 0 (2 * slope_std) (off_std / 50) slope_std)
                  (mkSlider (- (1)) 1 (5 # 100) (1 # 10)))
  end.

End Interact.

(** ** Scenarios and notions used in the statements *)

(** A concrete session: two datasets with a linear fit model on offer, a
    user function that returns its sample points, and the module-level
    state of a fresh notebook. *)
Definition notebook : Globals := mkGlobals 100 false true [] [] 0.

Definition linear : FitFunction :=
  fun x ps => match ps with
              | [a; b] => (a + b * x)%Q
              | _ => 0%Q
              end.

Definition linear_fit_of (intercept slope : Q) (model : string)
  : option (FitFunction * list Measurement * string) :=
  if String.eqb model "linear" then
    Some (linear,
          [mkMeasurement intercept (1 # 10) "run_linear_fit_intercept";
           mkMeasurement slope (1 # 10) "run_linear_fit_slope"],
          "linear")
  else None.

(** What the fit routine prints. *)
Definition fit_report_of (model : string) : list string :=
  ["Fit of " ++ model].

Definition run_A : XYDataSet :=
  mkXYDataSet 1 "run A" "t" "s" "d" "m" (0%Q, 10%Q) (0%Q, 5%Q) ((- (1))%Q, 1%Q)
              [0%Q; 5%Q; 10%Q] 0 [] [] [] [] (linear_fit_of 3 1) fit_report_of.

Definition run_B : XYDataSet :=
  mkXYDataSet 2 "run B" "t" "s" "d" "m" ((- (2))%Q, 2%Q) (1%Q, 7%Q) ((- (1))%Q, 1%Q)
              [(- (2))%Q; 0%Q; 2%Q] 0 [] [] [] [] (linear_fit_of 4 (3 # 2))
              fit_report_of.

Definition identity_function : UserFunction :=
  fun xvals _ g => (Ok (FArray xvals), g).

(** A function of uncertain parameters: it returns one measurement per
    sample point when called in single-sample mode, and refuses to run
    otherwise. *)
Definition uncertain_line : UserFunction :=
  fun xvals args g =>
    if minmax_n g =? 1 then
      (Ok (FMeasurementArray
             (map (fun x => mkMeasurement x (1 # 10) "f") xvals)), g)
    else (Raise (CollaboratorError "sampling"), g).

(** What [qf.XYDataSet] does when it is given no arrays. *)
Definition no_arrays : Result XYDataSet := Raise (CollaboratorError "XYDataSet").

(** [Plot(dataset=run_A)] in a fresh notebook. *)
Definition fresh_plot : Run unit := __init__ no_arrays None (Some run_A) notebook.

(** [Plot(dataset=run_A, data_name="run A")] *)
Definition named_plot : Run unit :=
  __init__ no_arrays (Some "run A") (Some run_A) notebook.

(** Running one computation after another run. *)
Definition and_then {A B : Type} (r : Run A) (c : M B) : Run B :=
  c (self_after r) (globals_after r).

(** [n] further datasets added without a colour. *)
Fixpoint add_datasets (n : nat) (d : XYDataSet) : M unit :=
  match n with
  | O => ret tt
  | S n' => let* _ := add_dataset d None None in add_datasets n' d
  end.

(** The plot after [Plot(dataset=run_A)] and eight [add_dataset(run_B)]:
    nine colours have been allocated. *)
Definition nine_colours : Run unit := and_then fresh_plot (add_datasets 8 run_B).

(** A two-element sequence: what [set_plot_range] is documented to
    accept. *)
Definition two_element_sequence (v : PyValue) : bool :=
  match v with
  | VSeq _ _ [_; _] => true
  | _ => false
  end.

Definition x_range_message : string :=
  "X range must be a list containing a minimun and maximum
            value for the range of the plot.".

Definition y_range_message : string :=
  "Y range must be a list containing a minimun and maximum
            value for the range of the plot.".

(** The range [set_plot_range] stores for an argument, if it stores
    one. *)
Definition accepted (ARRAY : list SeqType) (v : PyValue) : option PyRange :=
  match v with
  | VSeq id t [a; b] =>
      if existsb (SeqType_eqb t) ARRAY then Some (mkRange id t a b) else None
  | _ => None
  end.

(** An argument of one of the array types that has no length: a numpy
    array of dimension 0, when [numpy.ndarray] is among the types. *)
Definition unsized (ARRAY : list SeqType) (v : PyValue) : bool :=
  match v with
  | VArray0 _ _ => existsb (SeqType_eqb TNdarray) ARRAY
  | _ => false
  end.

(** Whether [set_plot_range] prints its message for an argument that has
    a length or is not of an array type. *)
Definition reported (ARRAY : list SeqType) (v : PyValue) : bool :=
  match accepted ARRAY v with
  | Some _ => false
  | None => is_not_None v
  end.

(** A content of [qu.array_types] for the scenarios: list, tuple and
    [numpy.ndarray]. *)
Definition array_types : list SeqType := [TList; TTuple; TNdarray].

(** The interval a stored range denotes, and inclusion of intervals. *)
Definition interval (r : PyRange) : Q * Q := (lo r, hi r).

Definition within (inner outer : Q * Q) : Prop :=
  (fst outer <= fst inner)%Q /\ (snd inner <= snd outer)%Q.

(** An interval widened by a margin on both sides. *)
Definition padded (extent : Q * Q) (margin : Q) : Q * Q :=
  ((fst extent - margin)%Q, (snd extent + margin)%Q).

(** Two attributes bound to one list object show the same items. *)
Definition coherent (p : Plot) : Prop :=
  oid (x_range p) = oid (y_range p) -> x_range p = y_range p.

(** A range that keeps the value written into it (an array of an integer
    dtype keeps its integer part only), and a plot whose two ranges do and
    are coherent. *)
Definition exact (r : PyRange) : Prop := kind r <> TNdarrayInt.

Definition sound (p : Plot) : Prop :=
  coherent p /\ exact (x_range p) /\ exact (y_range p).

(** The ranges of [p'] enclose those of [p], the margins being the
    same. *)
Definition grows (p p' : Plot) : Prop :=
  within (interval (x_range p)) (interval (x_range p')) /\
  within (interval (y_range p)) (interval (y_range p')) /\
  x_range_margin p' = x_range_margin p /\
  y_range_margin p' = y_range_margin p.

(** A call that adds something to a plot. *)
Inductive Call : Type :=
| AddDataset (dataset : XYDataSet) (color name : option string)
| AddFunction (function : UserFunction) (pars : Pars) (name color : option string).

Definition run_call (c : Call) : M unit :=
  match c with
  | AddDataset dataset color name => add_dataset dataset color name
  | AddFunction function pars name color => add_function function pars name color
  end.

Fixpoint run_calls (cs : list Call) : M unit :=
  match cs with
  | [] => ret tt
  | c :: cs' => let* _ := run_call c in run_calls cs'
  end.

(** Whether [pars] has one of the three forms [add_function] accepts. *)
Definition recognized (pars : Pars) : bool :=
  match pars with
  | ParsNone | ParsMeasurementArray _ | ParsNdarray _ | ParsList _ => true
  | ParsTuple _ | ParsFloat _ | ParsStr _ => false
  end.

(** The values [add_function] samples on the current x-range for a
    recognized [pars], with the module-level state the evaluation leaves. *)
Definition sample (function : UserFunction) (pars : Pars) (p : Plot)
    (g : Globals) : Result FValue * Globals :=
  let xvals := np_linspace (lo (x_range p)) (hi (x_range p)) 100 in
  match pars with
  | ParsMeasurementArray _ =>
      match function xvals (unpack pars) (set_minmax_n 1 g) with
      | (Ok fmes, g1) =>
          match fvalue_get_means fmes with
          | Ok fvals => (Ok fvals, set_minmax_n (minmax_n g) g1)
          | Raise e => (Raise e, g1)
          end
      | (Raise e, g1) => (Raise e, g1)
      end
  | _ => function xvals (unpack pars) g
  end.

(** What one call adds to the area the plot has to show: for a dataset its
    padded x and y extents, for a function the padded extent of the values
    sampled over the x-range current at the call. *)
Definition extent_added (c : Call) (p : Plot) (g : Globals)
  : option (option (Q * Q) * (Q * Q)) :=
  match c with
  | AddDataset dataset _ _ =>
      Some (Some (padded (x_extent dataset) (x_range_margin p)),
            padded (y_extent dataset) (y_range_margin p))
  | AddFunction function pars _ _ =>
      if recognized pars then
        match fst (sample function pars p g) with
        | Ok (FArray (v :: vs)) =>
            Some (None, padded (minimum v vs, maximum v vs) (y_range_margin p))
        | _ => None
        end
      else None
  end.

(** The extents a sequence of calls adds, each taken in the state its call
    starts from. *)
Fixpoint extents_added (cs : list Call) (p : Plot) (g : Globals)
  : list (option (Q * Q) * (Q * Q)) :=
  match cs with
  | [] => []
  | c :: cs' =>
      match extent_added c p g with
      | Some e => [e]
      | None => []
      end ++
      match result (run_call c p g) with
      | Ok _ => extents_added cs' (self_after (run_call c p g))
                              (globals_after (run_call c p g))
      | Raise _ => []
      end
  end.

Definition encloses (p : Plot) (e : option (Q * Q) * (Q * Q)) : Prop :=
  match fst e with
  | Some xe => within xe (interval (x_range p))
  | None => True
  end /\
  within (snd e) (interval (y_range p)).

(** The colour a call is given: the explicit one, or the next of the
    palette. *)
Definition colour_given (color : option string) (p : Plot) : Result string :=
  match color with
  | Some c => Ok c
  | None => py_getitem (color_palette p) (color_count p + 1 - 1)
  end.

Definition cursor_after (color : option string) (p : Plot) : Z :=
  match color with
  | Some _ => color_count p
  | None => color_count p + 1
  end.

(** A second dataset and a function added to the fresh plot. *)
Definition two_additions : list Call :=
  [AddDataset run_B None None;
   AddFunction identity_function ParsNone None None].

(** A computation respects a relation between the state it starts from
    and the state it leaves, whether it returns or raises. *)
Definition respects (R : Plot -> Globals -> Plot -> Globals -> Prop)
    {A : Type} (c : M A) : Prop :=
  forall p g, R p g (self_after (c p g)) (globals_after (c p g)).

(** The evaluation mode of the uncertainty provider is left as found. *)
Definition same_mode (p : Plot) (g : Globals) (p' : Plot) (g' : Globals) : Prop :=
  minmax_n g' = minmax_n g.

(** Two uncertain parameters. *)
Definition two_measurements : list Measurement :=
  [mkMeasurement 3 (1 # 10) "a"; mkMeasurement 1 (1 # 10) "b"].

(** [r = [0, 10]; p.set_plot_range(r, r)] on the fresh plot: both ranges
    are bound to the one list [r]. *)
Definition shared_range_plot : Run unit :=
  and_then fresh_plot
           (set_plot_range [TList; TTuple; TNdarray]
                           (VSeq 100 TList [0%Q; 10%Q])
                           (VSeq 100 TList [0%Q; 10%Q])).

(** [p.set_plot_range(np.array([0, 10]))] on the fresh plot: the x-range is
    the caller's array of integers. *)
Definition integer_range_plot : Run unit :=
  and_then fresh_plot
           (set_plot_range array_types (VSeq 100 TNdarrayInt [0%Q; 10%Q]) VNone).

(** [p.set_plot_range([0, 10], [0, 5])] on the fresh plot: two lists. *)
Definition ranged_plot : Run unit :=
  and_then fresh_plot
           (set_plot_range [TList; TTuple; TNdarray]
                           (VSeq 100 TList [0%Q; 10%Q])
                           (VSeq 101 TList [0%Q; 5%Q])).

(** The accumulated configuration of a plot: every attribute but the two
    that hold the figures of the last rendering. *)
Definition configuration (p : Plot) : Plot :=
  with_bkres None (with_bkfigure None p).

(** The module-level state apart from the allocator of identities. *)
Definition ambient (g : Globals) : Globals :=
  mkGlobals (minmax_n g) (bokeh_ouput_notebook_called g) (in_notebook g)
            (stdout g) (bokeh_calls g) 0.

(** What rendering leaves alone: the configuration and the module-level
    state; it only takes new identities. *)
Definition rendering_frame (p : Plot) (g : Globals) (p' : Plot) (g' : Globals)
  : Prop :=
  configuration p' = configuration p /\
  ambient g' = ambient g /\
  (next_id g <= next_id g')%nat.

(** The same objects under identities moved up by [k]. *)
Definition shift_range1d (k : nat) (r : Range1d) : Range1d :=
  mkRange1d (k + owner r) (r_start r) (r_end r).

Definition shift_figure (k : nat) (f : Figure) : Figure :=
  mkFigure (k + figure_id f) (tools f) (width f) (height f) (y_axis_type f)
           (f_y_range f) (x_axis_type f) (shift_range1d k (f_x_range f))
           (title f) (x_axis_label f) (y_axis_label f) (renderers f)
           (layouts f) (legend_location_ f).

Definition shift_object (k : nat) (obj : BkObject) : BkObject :=
  match obj with
  | BkFigure f => BkFigure (shift_figure k f)
  | BkGrid id rows => BkGrid (k + id) (map (map (shift_figure k)) rows)
  end.

Definition shift_result (k : nat) (r : Result BkObject) : Result BkObject :=
  match r with
  | Ok obj => Ok (shift_object k obj)
  | Raise e => Raise e
  end.

(** The state of a second rendering against the state of a first one, at
    the same point of the method: the same configuration, the figure under
    construction the same up to identities, and so the residual figure
    when residuals are shown (when they are not, [bkres] is never read). *)
Definition renders_alike (k : nat) (p p' : Plot) : Prop :=
  configuration p' = configuration p /\
  bkfigure p' = option_map (shift_object k) (bkfigure p) /\
  (show_residuals p = true -> bkres p' = option_map (shift_figure k) (bkres p)).

Definition allocates_alike (k : nat) (g g' : Globals) : Prop :=
  ambient g' = ambient g /\ next_id g' = (k + next_id g)%nat.

(** Two runs that end alike: both raise the same exception, or both
    return, with values related by [V], and leave states that are alike. *)
Definition ends_alike (k : nat) {A : Type} (V : A -> A -> Prop) (r r' : Run A)
  : Prop :=
  match result r, result r' with
  | Ok a, Ok a' =>
      V a a' /\
      renders_alike k (self_after r) (self_after r') /\
      allocates_alike k (globals_after r) (globals_after r')
  | Raise e, Raise e' => e = e'
  | _, _ => False
  end.

(** Two computations that, started from states that are alike, end
    alike. *)
Definition runs_alike (k : nat) {A : Type} (V : A -> A -> Prop) (c c' : M A)
  : Prop :=
  forall p g p' g',
    renders_alike k p p' -> allocates_alike k g g' ->
    ends_alike k V (c p g) (c' p' g').

(** A plot drawn with residuals: the fresh plot after a linear fit and a
    call to [add_residuals], with one user function. *)
Definition fitted_plot : Run unit :=
  and_then
    (and_then
       (and_then fresh_plot (let* _ := fit_last "linear" in ret tt))
       add_residuals)
    (add_function identity_function ParsNone None None).

Definition map_result {A B : Type} (f : A -> B) (r : Result A) : Result B :=
  match r with
  | Ok a => Ok (f a)
  | Raise e => Raise e
  end.

(** A value that is not looked at. *)
Definition any_value {A : Type} (a a' : A) : Prop := True.


(** Every attribute of a plot but the two ranges. *)
Definition outside_ranges (p : Plot) : Plot :=
  with_y_range (mkRange 0 TList 0 0) (with_x_range (mkRange 0 TList 0 0) p).

(** Every attribute of a plot but the list of datasets. *)
Definition outside_datasets (p : Plot) : Plot := with_datasets [] p.

(** A computation that cannot return. *)
Definition never_returns {A : Type} (c : M A) : Prop :=
  forall p g, exists e, result (c p g) = Raise e.

(** The entry of the labels dictionary under [key] once [set_labels] has
    run, from the entries before. *)
Definition label_after (title xtitle ytitle data_name : option string)
    (old : gmap string (option string)) (key : string) : option (option string) :=
  let given (arg : option string) :=
    match arg with
    | Some t => Some (Some t)
    | None => old !! key
    end in
  if String.eqb key "Data" then given data_name
  else if String.eqb key "ytitle" then given ytitle
  else if String.eqb key "xtitle" then given xtitle
  else if String.eqb key "title" then given title
  else old !! key.

(** [width] and [height] as [resize_plot] reads them. *)
Definition or_default (default : Z) (arg : option Z) : Z :=
  match arg with
  | Some v => v
  | None => default
  end.

(** A third dataset, with the data of [run_A], after one linear fit; and
    a plot of [run_A] (never fitted) to which the fitted dataset is
    added. *)
Definition run_C : XYDataSet :=
  mkXYDataSet 3 "run C" "t" "s" "d" "m" (0%Q, 10%Q) (0%Q, 5%Q) ((- (1))%Q, 1%Q)
              [0%Q; 5%Q; 10%Q] 0 [] [] [] [] (linear_fit_of 3 1) fit_report_of.

Definition run_C_fitted : XYDataSet := snd (fit_dataset "linear" run_C).

Definition mixed_plot : Run unit :=
  and_then fresh_plot (add_dataset run_C_fitted None None).

(** A rendering of measurement arrays for the console. *)
Definition show_means (pars : list Measurement) : string :=
  String.concat ", " (map m_str pars).

(** The attribute [linear_fit_pars] is left as found (absent or bound). *)
Definition same_linear_fit (p : Plot) (g : Globals) (p' : Plot) (g' : Globals)
  : Prop :=
  linear_fit_pars p' = linear_fit_pars p.

(** The methods of a plot other than [show_linear_fit] and
    [interact_linear_fit], and a session at the prompt: the calls are made
    one after the other, and a call that raises leaves the plot as it was
    when the exception left the method. *)
Inductive Method : Type :=
| CallGetColorFromPalette
| CallFit (model : string) (datasetindex : Z)
| CallPrintFitParameters (dataset : Z)
| CallAddResiduals
| CallAddFunction (function : UserFunction) (pars : Pars) (name color : option string)
| CallAddDataset (dataset : XYDataSet) (color name : option string)
| CallSetRangeFromDataset (dataset : XYDataSet)
| CallSetPlotRange (new_x_range new_y_range : PyValue)
| CallSetLabels (title xtitle ytitle data_name : option string)
| CallResizePlot (w h : option Z)
| CallSetErrorbandSigma (sigma : Q)
| CallShow (output : string) (populate_figure : bool)
| CallSetBokehOutput (output : string)
| CallPopulateBokehFigure
| CallInitializeBokehFigure (residuals : bool).

(** Every method of a plot that can be called once it is constructed. *)
Inductive AnyMethod : Type :=
| Other (m : Method)
| CallShowLinearFit (output : string)
| CallInteractLinearFit (error_range : Q).

Section Session.

Variable ARRAY : list SeqType.
Variable array_str : list Measurement -> string.

Definition run_method (m : Method) : M unit :=
  match m with
  | CallGetColorFromPalette => let* _ := _get_color_from_palette in ret tt
  | CallFit model datasetindex => let* _ := fit model datasetindex in ret tt
  | CallPrintFitParameters dataset => print_fit_parameters array_str dataset
  | CallAddResiduals => add_residuals
  | CallAddFunction function pars name color => add_function function pars name color
  | CallAddDataset dataset color name => add_dataset dataset color name
  | CallSetRangeFromDataset dataset => set_range_from_dataset dataset
  | CallSetPlotRange x y => set_plot_range ARRAY x y
  | CallSetLabels title xtitle ytitle data_name =>
      set_labels title xtitle ytitle data_name
  | CallResizePlot w h => resize_plot w h
  | CallSetErrorbandSigma sigma => set_errorband_sigma sigma
  | CallShow output populate_figure => show output populate_figure
  | CallSetBokehOutput output => set_bokeh_output output
  | CallPopulateBokehFigure => let* _ := populate_bokeh_figure in ret tt
  | CallInitializeBokehFigure residuals =>
      let* _ := initialize_bokeh_figure residuals in ret tt
  end.

Fixpoint session (ms : list Method) (p : Plot) (g : Globals) : Plot * Globals :=
  match ms with
  | [] => (p, g)
  | m :: rest =>
      session rest (self_after (run_method m p g)) (globals_after (run_method m p g))
  end.

Variable interact : Sliders -> M unit.

Definition run_any (m : AnyMethod) : M unit :=
  match m with
  | Other m => run_method m
  | CallShowLinearFit output => show_linear_fit output
  | CallInteractLinearFit error_range => interact_linear_fit interact error_range
  end.

Fixpoint long_session (ms : list AnyMethod) (p : Plot) (g : Globals) : Plot * Globals :=
  match ms with
  | [] => (p, g)
  | m :: rest =>
      long_session rest (self_after (run_any m p g)) (globals_after (run_any m p g))
  end.

End Session.

(** Widgets that are built without calling back, as a collaborator for
    [interact_linear_fit]. *)
Definition silent_widgets (s : Sliders) : M unit := ret tt.

(** The colours recorded for the datasets and for the functions are left
    as found. *)
Definition same_colours (p : Plot) (g : Globals) (p' : Plot) (g' : Globals)
  : Prop :=
  datasets_colors p' = datasets_colors p /\
  user_functions_colors p' = user_functions_colors p.

(** The plot of nine colours after a tenth dataset was added without a
    colour; the call raised. *)
Definition tenth_dataset : Run unit :=
  and_then nine_colours (add_dataset run_B None (Some "tenth")).

(** The plot object is left as found; only module-level state may
    change. *)
Definition same_plot (p : Plot) (g : Globals) (p' : Plot) (g' : Globals) : Prop :=
  p' = p.

(** Every attribute of a plot but the ranges, the datasets, their colours
    and the palette cursor. *)
Definition outside_datasets_and_ranges (p : Plot) : Plot :=
  with_datasets [] (with_datasets_colors [] (with_color_count 0 (outside_ranges p))).

(** Nothing but the two ranges changes, and no object is created. *)
Definition only_ranges (p : Plot) (g : Globals) (p' : Plot) (g' : Globals)
  : Prop :=
  outside_ranges p' = outside_ranges p /\ g' = g.

(** The dataset at the end of the list after [add_dataset]. *)
Definition as_added (name : option string) (dataset : XYDataSet) : XYDataSet :=
  match name with
  | Some n => set_name n dataset
  | None => dataset
  end.

(** The datasets of the plot after [add_dataset]: the object is appended,
    and a new name shows at every position bound to that object. *)
Definition datasets_added (name : option string) (dataset : XYDataSet)
    (ds : list XYDataSet) : list XYDataSet :=
  match name with
  | Some n => write_dataset (set_name n dataset) (ds ++ [dataset])
  | None => ds ++ [dataset]
  end.

(** Every attribute of a plot but the ranges, the four lists that record
    the functions, their count and the palette cursor. *)
Definition outside_functions (p : Plot) : Plot :=
  with_user_functions []
    (with_user_functions_pars []
       (with_user_functions_names []
          (with_user_functions_colors []
             (with_user_functions_count 0 (with_color_count 0 p))))).

Definition outside_functions_and_ranges (p : Plot) : Plot :=
  outside_functions (outside_ranges p).

(** The name [add_function] records. *)
Definition name_given (name : option string) (p : Plot) : string :=
  match name with
  | None => "userf_" ++ format_int (user_functions_count p)
  | Some n => n
  end.

(** A function added under a name, then one added without. *)
Definition named_then_unnamed : Run unit :=
  and_then
    (and_then fresh_plot (add_function identity_function ParsNone (Some "mine") None))
    (add_function identity_function ParsNone None (Some "green")).

(** A plot with fewer colours than datasets, and the relation of a state
    to a later one in which the datasets have gained no colour. *)
Definition lacks_a_colour (p : Plot) : Prop :=
  (length (datasets_colors p) < length (datasets p))%nat.

Definition no_colour_gained (p : Plot) (g : Globals) (p' : Plot) (g' : Globals)
  : Prop :=
  (length (datasets p) + length (datasets_colors p')
   <= length (datasets p') + length (datasets_colors p))%nat.

(** The numbers of datasets and of colours are left as found. *)
Definition same_lengths (p : Plot) (g : Globals) (p' : Plot) (g' : Globals)
  : Prop :=
  length (datasets p') = length (datasets p) /\
  length (datasets_colors p') = length (datasets_colors p).

(** What a user may try after the failed addition. *)
Definition repair_attempt : list AnyMethod :=
  [Other (CallAddDataset run_A (Some "blue") None);
   Other (CallSetLabels (Some "title") None None (Some "data"));
   Other (CallResizePlot (Some 800) None);
   CallShowLinearFit "inline";
   CallInteractLinearFit 2;
   Other (CallShow "inline" false)].

(** Every attribute of a plot but the figure and the three that
    [show_linear_fit] keeps for [interact_linear_fit]. *)
Definition outside_linear_fit (p : Plot) : Plot :=
  with_linear_fit_pars None
    (with_linear_fit_patches None
       (with_linear_fit_line None (with_bkfigure None p))).

(** The callback of [interact_linear_fit] assigns to the data of the two
    glyphs of the linear fit and to nothing else of the plot: whatever the
    widgets do, and whether they return or raise, the attributes of the
    plot other than the figure and the glyphs are left as found. *)
Definition writes_glyph_data (interact : Sliders -> M unit) : Prop :=
  forall s p g,
    outside_linear_fit (self_after (interact s p g)) = outside_linear_fit p.

(** The two marks [show_linear_fit] draws: the data, and the fitted line
    between the ends of the x-range moved inwards by the margin. *)
Definition linear_fit_marks (dataset : XYDataSet) (color : string)
    (func : FitFunction) (pars : list Measurement) (p : Plot) : list Mark :=
  [DatasetMark dataset false color;
   FunctionMark (FitModel func)
                [(lo (x_range p) + x_range_margin p)%Q;
                 (hi (x_range p) - x_range_margin p)%Q]
                (ParsMeasurementArray pars) 100 "linear" color
                (errorband_sigma p)].

(** A plot with two datasets, a user function and residuals switched on. *)
Definition busy_plot : Run unit :=
  and_then
    (and_then
       (and_then
          (and_then fresh_plot (add_dataset run_B None None))
          (add_function identity_function ParsNone None None))
       (let* _ := fit "linear" (-1) in ret tt))
    add_residuals.

(** The plot is left as found and nothing is printed. *)
Definition quiet (p : Plot) (g : Globals) (p' : Plot) (g' : Globals) : Prop :=
  p' = p /\ stdout g' = stdout g.

Definition linear_fit_warning : string :=
  "Warning: only using the last added dataset, and clearing previous fits".

(** [p.set_plot_range((0, 10), [0, 5])] on the fresh plot: the x-range is
    a tuple. *)
Definition tuple_range_plot : Run unit :=
  and_then fresh_plot
           (set_plot_range [TList; TTuple; TNdarray]
                           (VSeq 100 TTuple [0%Q; 10%Q])
                           (VSeq 101 TList [0%Q; 5%Q])).

(** The functions a rendering draws: [zip] stops at the shortest of the
    three lists it walks. *)
Definition drawn_functions (p : Plot) : nat :=
  length (zip3 (user_functions p) (user_functions_pars p) (user_functions_names p)).

Definition lacks_a_function_colour (p : Plot) : Prop :=
  (length (user_functions_colors p) < drawn_functions p)%nat.

Definition no_function_colour_gained (p : Plot) (g : Globals)
    (p' : Plot) (g' : Globals) : Prop :=
  (drawn_functions p + length (user_functions_colors p')
   <= drawn_functions p' + length (user_functions_colors p))%nat.

(** The four lists that record the functions keep their lengths. *)
Definition same_function_lengths (p : Plot) (g : Globals)
    (p' : Plot) (g' : Globals) : Prop :=
  length (user_functions p') = length (user_functions p) /\
  length (user_functions_pars p') = length (user_functions_pars p) /\
  length (user_functions_names p') = length (user_functions_names p) /\
  length (user_functions_colors p') = length (user_functions_colors p).

(** Nine functions added to the fresh plot without a colour: the ninth
    finds the palette used up. *)
Fixpoint add_functions (n : nat) (f : UserFunction) : Plot -> Globals -> Plot * Globals :=
  fun p g =>
    match n with
    | O => (p, g)
    | S n' =>
        add_functions n' f (self_after (add_function f ParsNone None None p g))
                      (globals_after (add_function f ParsNone None None p g))
    end.

Definition nine_functions : Plot * Globals :=
  add_functions 9 identity_function (self_after fresh_plot) (globals_after fresh_plot).

(** The identity of a bokeh object. *)
Definition object_id (obj : BkObject) : nat :=
  match obj with
  | BkFigure f => figure_id f
  | BkGrid id _ => id
  end.

(** The labels laid on the figure under construction, if [self.bkfigure]
    holds a figure; the relation that leaves them as found; and where
    [populate_bokeh_figure] puts the label of the parameter at index [i]. *)
Definition main_layouts (p : Plot) : option (list Label) :=
  match bkfigure p with
  | Some (BkFigure f) => Some (layouts f)
  | Some (BkGrid _ _) | None => None
  end.

Definition same_layouts (p : Plot) (g : Globals) (p' : Plot) (g' : Globals)
  : Prop :=
  main_layouts p' = main_layouts p.

Definition placed_for (i : Z) (l : Label) : Prop :=
  l_x l = 590 /\ l_y l = 320 + 20 * i.

(** The main figure of the object a rendering returns. *)
Definition main_figure (obj : BkObject) : option Figure :=
  match obj with
  | BkFigure f => Some f
  | BkGrid _ ((f :: _) :: _) => Some f
  | BkGrid _ _ => None
  end.

(** A plot of two fitted datasets. *)
Definition two_fits : Run unit :=
  and_then
    (and_then
       (and_then fresh_plot (let* _ := fit "linear" (-1) in ret tt))
       (add_dataset run_B None None))
    (let* _ := fit "linear" (-1) in ret tt).

(** ** Properties *)

(** *** Python primitives *)

Lemma py_lt_true (a b : Q) : py_lt a b = true <-> (a < b)%Q.
Proof.
  unfold py_lt. rewrite negb_true_iff.
  split; intros H.
  - apply Qnot_le_lt. intros Hle. apply Qle_bool_iff in Hle. congruence.
  - destruct (Qle_bool b a) eqn:E; [|reflexivity].
    apply Qle_bool_iff in E. exfalso. exact (Qlt_not_le _ _ H E).
Qed.

Lemma py_lt_false (a b : Q) : py_lt a b = false <-> (b <= a)%Q.
Proof.
  unfold py_lt. rewrite negb_false_iff. apply Qle_bool_iff.
Qed.

Lemma py_getitem_in_range {A : Type} (l : list A) (i : Z) :
  0 <= i < Z.of_nat (length l) ->
  exists a, py_getitem l i = Ok a /\ nth_error l (Z.to_nat i) = Some a.
Proof.
  intros [Hlo Hhi]. unfold py_getitem.
  destruct (i <? 0) eqn:E1; [apply Z.ltb_lt in E1; lia|].
  rewrite E1.
  destruct (Z.of_nat (length l) <=? i) eqn:E2; [apply Z.leb_le in E2; lia|].
  simpl.
  destruct (nth_error l (Z.to_nat i)) as [a|] eqn:E3.
  - exists a. split; reflexivity.
  - apply nth_error_None in E3. lia.
Qed.

Lemma py_getitem_past_end {A : Type} (l : list A) (i : Z) :
  Z.of_nat (length l) <= i -> py_getitem l i = Raise IndexError.
Proof.
  intros H. unfold py_getitem.
  destruct (i <? 0) eqn:E1; [apply Z.ltb_lt in E1; lia|].
  destruct (Z.of_nat (length l) <=? i) eqn:E2;
    [|apply Z.leb_gt in E2; lia].
  rewrite orb_true_r. reflexivity.
Qed.

Lemma py_getitem_last {A : Type} (l : list A) (a : A) :
  py_getitem (l ++ [a]) (-1) = Ok a.
Proof.
  unfold py_getitem. rewrite length_app. simpl length.
  replace (-1 <? 0) with true by reflexivity.
  replace (Z.of_nat (length l + 1) + -1) with (Z.of_nat (length l)) by lia.
  destruct (Z.of_nat (length l) <? 0) eqn:E1; [apply Z.ltb_lt in E1; lia|].
  destruct (Z.of_nat (length l + 1) <=? Z.of_nat (length l)) eqn:E2;
    [apply Z.leb_le in E2; lia|].
  simpl. rewrite Nat2Z.id.
  rewrite nth_error_app2 by lia. rewrite Nat.sub_diag. reflexivity.
Qed.

(** *** The palette cursor *)

(** One allocation: the cursor moves first, then the palette is indexed
    at the old cursor. *)
Lemma get_color_run (p : Plot) (g : Globals) :
  _get_color_from_palette p g =
  mkRun (py_getitem (color_palette p) (color_count p + 1 - 1))
        (with_color_count (color_count p + 1) p) g.
Proof. reflexivity. Qed.

(** C1 (as amended).  The k-th automatic colour allocation finds the
    cursor at k-1.  It always moves the cursor to k.  While k is at most
    the palette size it returns palette[(k-1) mod paletteSize], which is
    palette[k-1]; once k exceeds the palette size it does not wrap around:
    it raises IndexError. *)
Theorem palette_allocation (p : Plot) (g : Globals) (k : Z) :
  1 <= k ->
  color_count p = k - 1 ->
  let size := Z.of_nat (length (color_palette p)) in
  let r := _get_color_from_palette p g in
  color_count (self_after r) = k /\
  (k <= size ->
   result r = py_getitem (color_palette p) ((k - 1) mod size) /\
   exists c, result r = Ok c /\ nth_error (color_palette p) (Z.to_nat (k - 1)) = Some c) /\
  (size < k -> result r = Raise IndexError).
Proof.
  intros Hk Hcount size r. subst r. rewrite get_color_run. simpl.
  rewrite Hcount.
  replace (k - 1 + 1 - 1) with (k - 1) by lia.
  split; [lia|]. split.
  - intros Hle. rewrite Z.mod_small by (unfold size in *; lia).
    split; [reflexivity|].
    apply py_getitem_in_range. unfold size in *. lia.
  - intros Hgt. apply py_getitem_past_end. unfold size in *. lia.
Qed.

Lemma palette_allocation_witness :
  1 <= 2 /\
  color_count (self_after fresh_plot) = 2 - 1 /\
  result (and_then fresh_plot _get_color_from_palette) =
    py_getitem Set1_9 ((2 - 1) mod 9).
Proof.
  split; [lia|]. split; [reflexivity|].
  refine (proj1 (proj1 (proj2 (palette_allocation (self_after fresh_plot)
            (globals_after fresh_plot) 2 _ _)) _)).
  - lia.
  - reflexivity.
  - vm_compute. discriminate.
Defined.

(** C1, the claim as stated fails: after nine allocations (the first
    dataset and eight more, all without a colour) the tenth allocation
    raises IndexError where the claim promises palette[(10-1) mod 9]. *)
Lemma palette_does_not_wrap :
  result nine_colours = Ok tt /\
  color_count (self_after nine_colours) = 9 /\
  color_palette (self_after nine_colours) = Set1_9 /\
  result (and_then nine_colours _get_color_from_palette) = Raise IndexError /\
  py_getitem Set1_9 ((10 - 1) mod 9) = Ok "#e41a1c" /\
  result (and_then nine_colours (add_dataset run_B None None)) = Raise IndexError.
Proof. vm_compute. repeat split. Qed.

(** *** Usage errors of [add_function] *)

(** C3.  When [pars] has none of the recognized forms (it is not None,
    not a Measurement_Array, not a list or an ndarray), [add_function]
    prints its error message and returns normally, and no attribute of the
    plot changes: nothing is appended, no counter moves, the ranges are
    untouched.  Of the module-level state only the console changes. *)
Theorem add_function_unrecognized (function : UserFunction) (pars : Pars)
    (name color : option string) (p : Plot) (g : Globals) :
  pars <> ParsNone ->
  isinstance_Measurement_Array pars = false ->
  isinstance_list_or_ndarray pars = false ->
  add_function function pars name color p g =
  mkRun (Ok tt) p (write_stdout "Error: Not a recognized format for parameter" g).
Proof.
  intros Hnone Hmeas Hlist.
  destruct pars; try congruence; try discriminate; reflexivity.
Qed.

Lemma add_function_unrecognized_witness :
  ParsTuple [1%Q; 2%Q] <> ParsNone /\
  and_then fresh_plot (add_function identity_function (ParsTuple [1%Q; 2%Q]) None None) =
  mkRun (Ok tt) (self_after fresh_plot)
        (write_stdout "Error: Not a recognized format for parameter"
                      (globals_after fresh_plot)).
Proof.
  split; [discriminate|].
  apply (add_function_unrecognized identity_function (ParsTuple [1%Q; 2%Q]) None None
           (self_after fresh_plot) (globals_after fresh_plot)).
  - discriminate.
  - reflexivity.
  - reflexivity.
Defined.

(** *** Residuals *)

(** C10.  [add_residuals] returns normally and prints nothing.  When the
    most recently added dataset has at least one fit it sets
    [show_residuals] to true and changes nothing else; when it has none the
    plot is left exactly as it was, so a [show_residuals] that was false
    remains false.  Hence the flag goes from false to true only when that
    dataset has a fit. *)
Theorem add_residuals_needs_a_fit (p : Plot) (g : Globals) (last : XYDataSet) :
  py_getitem (datasets p) (-1) = Ok last ->
  let r := add_residuals p g in
  result r = Ok tt /\
  globals_after r = g /\
  (0 < nfits last -> self_after r = with_show_residuals true p) /\
  (nfits last <= 0 ->
   self_after r = p /\
   (show_residuals p = false -> show_residuals (self_after r) = false)) /\
  (show_residuals p = false -> show_residuals (self_after r) = true ->
   0 < nfits last).
Proof.
  intros Hlast r. subst r. unfold add_residuals, bind, self, lift.
  rewrite Hlast.
  destruct (0 <? nfits last) eqn:E; simpl.
  - apply Z.ltb_lt in E. repeat split; try lia; congruence.
  - apply Z.ltb_ge in E. repeat split; try lia; congruence.
Qed.

Lemma add_residuals_needs_a_fit_witness :
  py_getitem (datasets (self_after fresh_plot)) (-1) = Ok run_A /\
  nfits run_A <= 0 /\
  result (and_then fresh_plot add_residuals) = Ok tt /\
  self_after (and_then fresh_plot add_residuals) = self_after fresh_plot /\
  show_residuals (self_after (and_then fresh_plot add_residuals)) = false.
Proof.
  assert (Hlast : py_getitem (datasets (self_after fresh_plot)) (-1) = Ok run_A)
    by (vm_compute; reflexivity).
  assert (Hn : nfits run_A <= 0) by (vm_compute; discriminate).
  assert (Hflag0 : show_residuals (self_after fresh_plot) = false)
    by (vm_compute; reflexivity).
  pose proof (add_residuals_needs_a_fit (self_after fresh_plot)
                (globals_after fresh_plot) run_A Hlast) as H.
  cbv zeta in H. destruct H as (Hres & _ & _ & Hnone & _).
  destruct (Hnone Hn) as [Hsame Hflag].
  unfold and_then.
  split; [exact Hlast|]. split; [exact Hn|].
  split; [exact Hres|]. split; [exact Hsame|].
  exact (Hflag Hflag0).
Defined.

(** *** Labels *)

(** [set_labels] never fails and touches only the dictionary of
    labels. *)
Lemma set_labels_run (title xtitle ytitle data_name : option string)
    (p : Plot) (g : Globals) :
  exists labels',
    set_labels title xtitle ytitle data_name p g =
    mkRun (Ok tt) (with_labels labels' p) g /\
    labels' !! "title" = match title with
                         | Some t => Some (Some t)
                         | None => labels p !! "title"
                         end /\
    labels' !! "xtitle" = match xtitle with
                          | Some t => Some (Some t)
                          | None => labels p !! "xtitle"
                          end /\
    labels' !! "ytitle" = match ytitle with
                          | Some t => Some (Some t)
                          | None => labels p !! "ytitle"
                          end /\
    labels' !! "data" = labels p !! "data" /\
    labels' !! "Data" = match data_name with
                        | Some t => Some (Some t)
                        | None => labels p !! "Data"
                        end.
Proof.
  destruct p; destruct title, xtitle, ytitle, data_name;
    eexists; (split; [reflexivity|]); simpl;
    repeat split;
    repeat first [ rewrite lookup_insert_eq
                 | rewrite lookup_insert_ne by discriminate ];
    reflexivity.
Qed.

(** C7.  [set_labels(data_name="run B")] on a plot built with
    [data_name="run A"]: the entry 'data' made at construction still reads
    "run A", and the new name sits under a second key, 'Data'. *)
Theorem set_labels_data_name_misses_entry :
  let r := and_then named_plot (set_labels None None None (Some "run B")) in
  result r = Ok tt /\
  labels (self_after named_plot) !! "data" = Some (Some "run A") /\
  labels (self_after named_plot) !! "Data" = None /\
  labels (self_after r) !! "data" = Some (Some "run A") /\
  labels (self_after r) !! "Data" = Some (Some "run B").
Proof.
  destruct (set_labels_run None None None (Some "run B")
              (self_after named_plot) (globals_after named_plot))
    as (l' & Hrun & _ & _ & _ & Hdata & HData).
  unfold and_then. rewrite Hrun. simpl.
  rewrite Hdata, HData.
  repeat split; reflexivity.
Qed.

(** *** Setting the ranges by hand *)

Lemma len_is_2_sequence (id : nat) (t : SeqType) (items : list Q) :
  len_is_2 (VSeq id t items) = Ok (two_element_sequence (VSeq id t items)).
Proof.
  unfold len_is_2. simpl.
  destruct items as [|a [|b [|c l]]]; try reflexivity.
  f_equal. apply Z.eqb_neq. simpl length. lia.
Qed.

(** The guard [type(v) in ARRAY and len(v) is 2]: [len] raises for an
    array without a length. *)
Lemma is_range_run (ARRAY : list SeqType) (v : PyValue) (p : Plot) (g : Globals) :
  is_range ARRAY v p g =
  mkRun (if unsized ARRAY v then Raise TypeError
         else Ok (type_in_ARRAY ARRAY v && two_element_sequence v)) p g.
Proof.
  unfold is_range, type_in_ARRAY, unsized.
  destruct v as [|id t items|id x| |]; try reflexivity.
  - destruct (existsb (SeqType_eqb t) ARRAY); [|reflexivity].
    unfold lift. rewrite len_is_2_sequence. reflexivity.
  - destruct (existsb (SeqType_eqb TNdarray) ARRAY); reflexivity.
Qed.

(** What [set_plot_range] does, argument by argument. *)
Lemma set_plot_range_run (ARRAY : list SeqType)
    (new_x_range new_y_range : PyValue) (p : Plot) (g : Globals) :
  set_plot_range ARRAY new_x_range new_y_range p g =
  let p1 := match accepted ARRAY new_x_range with
            | Some r => with_x_range r
            | None => fun q => q
            end p in
  let g1 := (if reported ARRAY new_x_range
             then write_stdout x_range_message else fun h => h) g in
  if unsized ARRAY new_x_range then mkRun (Raise TypeError) p g
  else if unsized ARRAY new_y_range then mkRun (Raise TypeError) p1 g1
  else
    mkRun (Ok tt)
          (match accepted ARRAY new_y_range with
           | Some r => with_y_range r
           | None => fun q => q
           end p1)
          ((if reported ARRAY new_y_range
            then write_stdout y_range_message else fun h => h) g1).
Proof.
  cbv zeta. unfold set_plot_range, bind. rewrite is_range_run.
  destruct (unsized ARRAY new_x_range) eqn:Ux; [reflexivity|].
  assert (Hone : forall v, unsized ARRAY v = false ->
            (type_in_ARRAY ARRAY v && two_element_sequence v = true /\
             exists r, as_range v = Ok r /\ accepted ARRAY v = Some r /\
                       reported ARRAY v = false) \/
            (type_in_ARRAY ARRAY v && two_element_sequence v = false /\
             accepted ARRAY v = None /\ reported ARRAY v = is_not_None v)).
  { intros v Hv. unfold reported, accepted, type_in_ARRAY. unfold unsized in Hv.
    destruct v as [|id t [|a [|b [|c l]]]|id x| |]; simpl;
      try (right; repeat split; rewrite ?andb_false_r; reflexivity).
    destruct (existsb (SeqType_eqb t) ARRAY); simpl.
    - left. split; [reflexivity|]. eexists. repeat split.
    - right. repeat split. }
  destruct (Hone new_x_range Ux)
    as [(Ex & rx & Hrx & Hax & Hpx) | (Ex & Hax & Hpx)];
    rewrite Ex, Hax, Hpx; cbv iota.
  - unfold lift at 1. rewrite Hrx. unfold assign at 1. rewrite is_range_run.
    destruct (unsized ARRAY new_y_range) eqn:Uy; [reflexivity|].
    destruct (Hone new_y_range Uy)
      as [(Ey & ry & Hry & Hay & Hpy) | (Ey & Hay & Hpy)];
      rewrite Ey, Hay, Hpy; cbv iota.
    + unfold lift. rewrite Hry. reflexivity.
    + destruct (is_not_None new_y_range); reflexivity.
  - destruct (is_not_None new_x_range); cbv iota;
      unfold print, assign_global, ret; rewrite is_range_run;
      (destruct (unsized ARRAY new_y_range) eqn:Uy; [reflexivity|]);
      (destruct (Hone new_y_range Uy)
         as [(Ey & ry & Hry & Hay & Hpy) | (Ey & Hay & Hpy)];
       rewrite Ey, Hay, Hpy; cbv iota;
       [ unfold lift; rewrite Hry; reflexivity
       | destruct (is_not_None new_y_range); reflexivity ]).
Qed.

Lemma accepted_is_pair (ARRAY : list SeqType) (v : PyValue) (r : PyRange) :
  accepted ARRAY v = Some r -> two_element_sequence v = true.
Proof.
  destruct v as [|id t [|a [|b [|c l]]]|id x| |]; simpl; try discriminate.
  reflexivity.
Qed.

Lemma rejected_is_reported (ARRAY : list SeqType) (v : PyValue) :
  two_element_sequence v = false ->
  accepted ARRAY v = None /\ (v <> VNone -> reported ARRAY v = true).
Proof.
  intros H.
  assert (Hacc : accepted ARRAY v = None).
  { destruct (accepted ARRAY v) eqn:E; [|reflexivity].
    apply accepted_is_pair in E. congruence. }
  split; [exact Hacc|].
  intros Hne. unfold reported. rewrite Hacc.
  destruct v; try reflexivity. congruence.
Qed.

(** For arguments that have a length or are not of an array type,
    [set_plot_range] does not raise.  An x (or y) argument that is not a
    two-element sequence leaves the stored x (or y) range exactly as it
    was, and unless the argument is None the usage message is printed.  The
    stored range changes only when the argument is a two-element
    sequence. *)
Lemma set_plot_range_guard (ARRAY : list SeqType)
    (new_x_range new_y_range : PyValue) (p : Plot) (g : Globals) :
  unsized ARRAY new_x_range = false ->
  unsized ARRAY new_y_range = false ->
  let r := set_plot_range ARRAY new_x_range new_y_range p g in
  result r = Ok tt /\
  (two_element_sequence new_x_range = false ->
   x_range (self_after r) = x_range p /\
   (new_x_range <> VNone -> In x_range_message (stdout (globals_after r)))) /\
  (two_element_sequence new_y_range = false ->
   y_range (self_after r) = y_range p /\
   (new_y_range <> VNone -> In y_range_message (stdout (globals_after r)))) /\
  (x_range (self_after r) <> x_range p ->
   two_element_sequence new_x_range = true) /\
  (y_range (self_after r) <> y_range p ->
   two_element_sequence new_y_range = true).
Proof.
  intros Ux Uy r. subst r. rewrite set_plot_range_run. cbv zeta.
  rewrite Ux, Uy. simpl.
  split; [reflexivity|].
  assert (Hx : forall q, x_range (match accepted ARRAY new_y_range with
                                  | Some r => with_y_range r
                                  | None => fun q => q
                                  end q) = x_range q).
  { intros q. destruct (accepted ARRAY new_y_range); reflexivity. }
  assert (Hout : forall h, stdout ((if reported ARRAY new_y_range
                                    then write_stdout y_range_message
                                    else fun h => h) h) =
                           (stdout h ++ (if reported ARRAY new_y_range
                                         then [y_range_message] else []))%list).
  { intros h. destruct (reported ARRAY new_y_range); simpl;
      [reflexivity | rewrite app_nil_r; reflexivity]. }
  rewrite Hx, Hout.
  split; [|split; [|split]].
  - intros Hpair. destruct (rejected_is_reported ARRAY _ Hpair) as [Hacc Hrep].
    rewrite Hacc. split; [reflexivity|].
    intros Hne. rewrite (Hrep Hne). simpl.
    rewrite !in_app_iff. simpl. tauto.
  - intros Hpair. destruct (rejected_is_reported ARRAY _ Hpair) as [Hacc Hrep].
    rewrite Hacc.
    split; [destruct (accepted ARRAY new_x_range); reflexivity|].
    intros Hne. rewrite (Hrep Hne).
    rewrite in_app_iff. simpl. tauto.
  - intros Hchanged.
    destruct (accepted ARRAY new_x_range) eqn:E;
      [exact (accepted_is_pair _ _ _ E) | congruence].
  - intros Hchanged.
    destruct (accepted ARRAY new_y_range) eqn:E;
      [exact (accepted_is_pair _ _ _ E) | ].
    exfalso. apply Hchanged.
    destruct (accepted ARRAY new_x_range); reflexivity.
Qed.

Example rejected_ranges_are_reported :
  let r := and_then fresh_plot
             (set_plot_range array_types
                (VSeq 7 TList [0%Q; 1%Q; 2%Q]) (VFloat 3)) in
  result r = Ok tt /\
  x_range (self_after r) = x_range (self_after fresh_plot) /\
  y_range (self_after r) = y_range (self_after fresh_plot) /\
  In x_range_message (stdout (globals_after r)) /\
  In y_range_message (stdout (globals_after r)).
Proof.
  pose proof (set_plot_range_guard array_types
                (VSeq 7 TList [0%Q; 1%Q; 2%Q]) (VFloat 3)
                (self_after fresh_plot) (globals_after fresh_plot)
                eq_refl eq_refl) as H.
  cbv zeta in H. destruct H as (Hres & Hx & Hy & _ & _).
  destruct (Hx eq_refl) as [Hxr Hxm].
  destruct (Hy eq_refl) as [Hyr Hym].
  cbv zeta. unfold and_then.
  split; [exact Hres|]. split; [exact Hxr|]. split; [exact Hyr|].
  split; [apply Hxm; discriminate | apply Hym; discriminate].
Qed.

(** C4.  The claim fails on the code for an argument of an array type
    that has no length.  When [numpy.ndarray] is one of the array types, a
    numpy array of dimension 0 passes [type(x_range) in ARRAY], and
    [len(x_range)] raises TypeError: the call raises instead of reporting a
    usage error, and no message is printed.  As the x argument it stops the
    method before anything is done; as the y argument it stops the method
    after the x argument was dealt with. *)
Theorem set_plot_range_raises_without_length (ARRAY : list SeqType)
    (id : nat) (x : Q) (other : PyValue) (p : Plot) (g : Globals) :
  existsb (SeqType_eqb TNdarray) ARRAY = true ->
  set_plot_range ARRAY (VArray0 id x) other p g = mkRun (Raise TypeError) p g /\
  set_plot_range ARRAY VNone (VArray0 id x) p g = mkRun (Raise TypeError) p g /\
  (unsized ARRAY other = false ->
   result (set_plot_range ARRAY other (VArray0 id x) p g) = Raise TypeError).
Proof.
  intros Harray.
  assert (Hun : unsized ARRAY (VArray0 id x) = true) by exact Harray.
  rewrite !set_plot_range_run. cbv zeta. rewrite Hun.
  split; [reflexivity|]. split; [reflexivity|].
  intros Hother. rewrite Hother. reflexivity.
Qed.

Lemma set_plot_range_raises_without_length_witness :
  existsb (SeqType_eqb TNdarray) array_types = true /\
  and_then fresh_plot (set_plot_range array_types (VArray0 7 5) VNone) =
  mkRun (Raise TypeError) (self_after fresh_plot) (globals_after fresh_plot).
Proof.
  split; [reflexivity|].
  exact (proj1 (set_plot_range_raises_without_length array_types 7 5 VNone
                  (self_after fresh_plot) (globals_after fresh_plot) eq_refl)).
Defined.

(** *** Item assignment on the stored ranges *)

Lemma with_ranges_same (p : Plot) :
  with_y_range (y_range p) (with_x_range (x_range p) p) = p.
Proof. destruct p; reflexivity. Qed.

(** Item assignment at index 0 or 1: a tuple refuses, a list or an array
    changes, and with it every attribute bound to the same object. *)
Lemma range_setitem_run (r : PyRange) (i : Z) (v : Q) (p : Plot) (g : Globals) :
  i = 0 \/ i = 1 ->
  range_setitem r i v p g =
  match kind r with
  | TTuple => mkRun (Raise TypeError) p g
  | TList | TNdarray | TNdarrayInt =>
      mkRun (Ok tt)
            (with_y_range (write_through (oid r) i v (y_range p))
               (with_x_range (write_through (oid r) i v (x_range p)) p)) g
  end.
Proof.
  intros [-> | ->]; unfold range_setitem; destruct (kind r); reflexivity.
Qed.

Lemma write_through_oid (target : nat) (i : Z) (v : Q) (q : PyRange) :
  oid (write_through target i v q) = oid q.
Proof.
  unfold write_through, store_item.
  destruct (Nat.eqb (oid q) target); [|reflexivity].
  destruct ((i =? 0) || (i =? -2)); reflexivity.
Qed.

Lemma write_through_hit (i : Z) (v : Q) (q : PyRange) :
  write_through (oid q) i v q = store_item i v q.
Proof. unfold write_through. rewrite Nat.eqb_refl. reflexivity. Qed.

Lemma write_through_miss (target : nat) (i : Z) (v : Q) (q : PyRange) :
  oid q <> target -> write_through target i v q = q.
Proof.
  intros H. unfold write_through.
  destruct (Nat.eqb (oid q) target) eqn:E; [|reflexivity].
  apply Nat.eqb_eq in E. contradiction.
Qed.

Lemma within_refl (i : Q * Q) : within i i.
Proof. split; apply Qle_refl. Qed.

Lemma within_trans (a b c : Q * Q) : within a b -> within b c -> within a c.
Proof.
  intros [H1 H2] [H3 H4]. split; eapply Qle_trans; eassumption.
Qed.

Lemma grows_refl (p : Plot) : grows p p.
Proof. repeat split; apply Qle_refl. Qed.

Lemma grows_trans (p1 p2 p3 : Plot) : grows p1 p2 -> grows p2 p3 -> grows p1 p3.
Proof.
  intros (Hx & Hy & Hmx & Hmy) (Hx' & Hy' & Hmx' & Hmy').
  split; [eapply within_trans; eassumption|].
  split; [eapply within_trans; eassumption|].
  split; congruence.
Qed.

Lemma encloses_grows (p p' : Plot) (e : option (Q * Q) * (Q * Q)) :
  encloses p e -> grows p p' -> encloses p' e.
Proof.
  intros [Hx Hy] (Gx & Gy & _ & _). split.
  - destruct (fst e); [eapply within_trans; eassumption | exact I].
  - eapply within_trans; eassumption.
Qed.

Lemma stored_exact (r : PyRange) (v : Q) : exact r -> stored (kind r) v = v.
Proof. unfold exact. destruct (kind r); [reflexivity..|congruence]. Qed.

Lemma write_through_kind (target : nat) (i : Z) (v : Q) (q : PyRange) :
  kind (write_through target i v q) = kind q.
Proof.
  unfold write_through, store_item.
  destruct (Nat.eqb (oid q) target); [|reflexivity].
  destruct ((i =? 0) || (i =? -2)); reflexivity.
Qed.

(** A conditional item assignment that can only move a bound outwards:
    [if v < r[0]: r[0] = v] and [if v > r[1]: r[1] = v], for [r] one of the
    two stored ranges of a sound plot.  Whatever the outcome, the plot
    stays sound and its ranges do not shrink; when the statement
    completes, the bound of [r] is beyond [v]. *)
Section Outward.

Variables (p : Plot) (g : Globals) (v : Q).
Hypothesis Hsound : sound p.

Let same_object (r q : PyRange) : Prop := oid q = oid r -> q = r.

Lemma written_sound (r : PyRange) (i : Z) :
  sound (with_y_range (write_through (oid r) i v (y_range p))
           (with_x_range (write_through (oid r) i v (x_range p)) p)).
Proof.
  destruct Hsound as (Hc & Hex & Hey).
  unfold sound, coherent, exact in *.
  cbn [x_range y_range with_x_range with_y_range].
  rewrite !write_through_oid, !write_through_kind.
  split; [|split; assumption].
  intros Hoid. rewrite (Hc Hoid). reflexivity.
Qed.

Lemma lower_outward (r : PyRange) :
  same_object r (x_range p) -> same_object r (y_range p) ->
  exact r ->
  exists res X Y,
    (if py_lt v (lo r) then range_setitem r 0 v else ret tt) p g =
    mkRun res (with_y_range Y (with_x_range X p)) g /\
    oid X = oid (x_range p) /\ oid Y = oid (y_range p) /\
    sound (with_y_range Y (with_x_range X p)) /\
    within (interval (x_range p)) (interval X) /\
    within (interval (y_range p)) (interval Y) /\
    (res = Ok tt -> (r = x_range p -> (lo X <= v)%Q) /\
                    (r = y_range p -> (lo Y <= v)%Q)).
Proof.
  intros Hx Hy Hr.
  destruct (py_lt v (lo r)) eqn:E.
  - rewrite range_setitem_run by (left; reflexivity).
    apply py_lt_true in E.
    assert (Hq : forall q, same_object r q ->
              within (interval q) (interval (write_through (oid r) 0 v q))).
    { intros q Hq. destruct (Nat.eq_dec (oid q) (oid r)) as [Heq | Hne].
      - rewrite (Hq Heq), write_through_hit. unfold store_item.
        cbn [orb Z.eqb]. rewrite (stored_exact r v Hr). split; simpl.
        + apply Qlt_le_weak. exact E.
        + apply Qle_refl.
      - rewrite write_through_miss by exact Hne. apply within_refl. }
    assert (Hok : exists res,
              match kind r with
              | TTuple => mkRun (Raise TypeError) p g
              | TList | TNdarray | TNdarrayInt =>
                  mkRun (Ok tt)
                    (with_y_range (write_through (oid r) 0 v (y_range p))
                       (with_x_range (write_through (oid r) 0 v (x_range p)) p)) g
              end = mkRun res (if SeqType_eqb (kind r) TTuple then p else
                    (with_y_range (write_through (oid r) 0 v (y_range p))
                       (with_x_range (write_through (oid r) 0 v (x_range p)) p))) g
              /\ (res = Ok tt -> SeqType_eqb (kind r) TTuple = false)).
    { destruct (kind r); eexists; split; try reflexivity; discriminate. }
    destruct Hok as (res & Hrun & Hres). rewrite Hrun.
    destruct (SeqType_eqb (kind r) TTuple) eqn:Etuple.
    + exists res, (x_range p), (y_range p).
      rewrite with_ranges_same.
      split; [reflexivity|]. split; [reflexivity|]. split; [reflexivity|].
      split; [exact Hsound|].
      split; [apply within_refl|]. split; [apply within_refl|].
      intros Hres'. specialize (Hres Hres'). discriminate Hres.
    + exists res, (write_through (oid r) 0 v (x_range p)),
        (write_through (oid r) 0 v (y_range p)).
      split; [reflexivity|].
      rewrite !write_through_oid.
      split; [reflexivity|]. split; [reflexivity|].
      split; [apply written_sound|].
      split; [apply Hq; exact Hx|]. split; [apply Hq; exact Hy|].
      intros _. split; intros ->; rewrite write_through_hit; unfold store_item;
        cbn [orb Z.eqb lo]; rewrite (stored_exact _ v Hr); apply Qle_refl.
  - apply py_lt_false in E.
    exists (Ok tt), (x_range p), (y_range p).
    rewrite with_ranges_same.
    split; [reflexivity|]. split; [reflexivity|]. split; [reflexivity|].
    split; [exact Hsound|].
    split; [apply within_refl|]. split; [apply within_refl|].
    intros _. split; intros <-; exact E.
Qed.

Lemma upper_outward (r : PyRange) :
  same_object r (x_range p) -> same_object r (y_range p) ->
  exact r ->
  exists res X Y,
    (if py_gt v (hi r) then range_setitem r 1 v else ret tt) p g =
    mkRun res (with_y_range Y (with_x_range X p)) g /\
    oid X = oid (x_range p) /\ oid Y = oid (y_range p) /\
    sound (with_y_range Y (with_x_range X p)) /\
    within (interval (x_range p)) (interval X) /\
    within (interval (y_range p)) (interval Y) /\
    (res = Ok tt -> (r = x_range p -> (v <= hi X)%Q) /\
                    (r = y_range p -> (v <= hi Y)%Q)).
Proof.
  intros Hx Hy Hr. unfold py_gt.
  destruct (py_lt (hi r) v) eqn:E.
  - rewrite range_setitem_run by (right; reflexivity).
    apply py_lt_true in E.
    assert (Hq : forall q, same_object r q ->
              within (interval q) (interval (write_through (oid r) 1 v q))).
    { intros q Hq. destruct (Nat.eq_dec (oid q) (oid r)) as [Heq | Hne].
      - rewrite (Hq Heq), write_through_hit. unfold store_item.
        cbn [orb Z.eqb]. rewrite (stored_exact r v Hr). split; simpl.
        + apply Qle_refl.
        + apply Qlt_le_weak. exact E.
      - rewrite write_through_miss by exact Hne. apply within_refl. }
    assert (Hok : exists res,
              match kind r with
              | TTuple => mkRun (Raise TypeError) p g
              | TList | TNdarray | TNdarrayInt =>
                  mkRun (Ok tt)
                    (with_y_range (write_through (oid r) 1 v (y_range p))
                       (with_x_range (write_through (oid r) 1 v (x_range p)) p)) g
              end = mkRun res (if SeqType_eqb (kind r) TTuple then p else
                    (with_y_range (write_through (oid r) 1 v (y_range p))
                       (with_x_range (write_through (oid r) 1 v (x_range p)) p))) g
              /\ (res = Ok tt -> SeqType_eqb (kind r) TTuple = false)).
    { destruct (kind r); eexists; split; try reflexivity; discriminate. }
    destruct Hok as (res & Hrun & Hres). rewrite Hrun.
    destruct (SeqType_eqb (kind r) TTuple) eqn:Etuple.
    + exists res, (x_range p), (y_range p).
      rewrite with_ranges_same.
      split; [reflexivity|]. split; [reflexivity|]. split; [reflexivity|].
      split; [exact Hsound|].
      split; [apply within_refl|]. split; [apply within_refl|].
      intros Hres'. specialize (Hres Hres'). discriminate Hres.
    + exists res, (write_through (oid r) 1 v (x_range p)),
        (write_through (oid r) 1 v (y_range p)).
      split; [reflexivity|].
      rewrite !write_through_oid.
      split; [reflexivity|]. split; [reflexivity|].
      split; [apply written_sound|].
      split; [apply Hq; exact Hx|]. split; [apply Hq; exact Hy|].
      intros _. split; intros ->; rewrite write_through_hit; unfold store_item;
        cbn [orb Z.eqb hi]; rewrite (stored_exact _ v Hr); apply Qle_refl.
  - apply py_lt_false in E.
    exists (Ok tt), (x_range p), (y_range p).
    rewrite with_ranges_same.
    split; [reflexivity|]. split; [reflexivity|]. split; [reflexivity|].
    split; [exact Hsound|].
    split; [apply within_refl|]. split; [apply within_refl|].
    intros _. split; intros <-; exact E.
Qed.

End Outward.

(** *** Stepping through a method *)

Lemma bind_ret {A B : Type} (a : A) (k : A -> M B) (p : Plot) (g : Globals) :
  bind (ret a) k p g = k a p g.
Proof. reflexivity. Qed.

Lemma bind_self {B : Type} (k : Plot -> M B) (p : Plot) (g : Globals) :
  bind self k p g = k p p g.
Proof. reflexivity. Qed.

Lemma bind_globals {B : Type} (k : Globals -> M B) (p : Plot) (g : Globals) :
  bind globals k p g = k g p g.
Proof. reflexivity. Qed.

Lemma bind_assign {B : Type} (f : Plot -> Plot) (k : unit -> M B)
    (p : Plot) (g : Globals) :
  bind (assign f) k p g = k tt (f p) g.
Proof. reflexivity. Qed.

Lemma bind_assign_global {B : Type} (f : Globals -> Globals) (k : unit -> M B)
    (p : Plot) (g : Globals) :
  bind (assign_global f) k p g = k tt p (f g).
Proof. reflexivity. Qed.

Lemma bind_lift {A B : Type} (r : Result A) (k : A -> M B) (p : Plot) (g : Globals) :
  bind (lift r) k p g =
  match r with
  | Ok a => k a p g
  | Raise e => mkRun (Raise e) p g
  end.
Proof. unfold bind, lift. destruct r; reflexivity. Qed.

Lemma bind_new_list {B : Type} (a b : Q) (k : PyRange -> M B)
    (p : Plot) (g : Globals) :
  bind (new_list a b) k p g = k (mkRange (next_id g) TList a b) p (bump_id g).
Proof. reflexivity. Qed.

Lemma bind_bind {A B C : Type} (c : M A) (k1 : A -> M B) (k2 : B -> M C)
    (p : Plot) (g : Globals) :
  bind (bind c k1) k2 p g = bind c (fun a => bind (k1 a) k2) p g.
Proof.
  unfold bind. destruct (c p g) as [[a | e] p1 g1]; reflexivity.
Qed.

Lemma bind_get_color {B : Type} (k : string -> M B) (p : Plot) (g : Globals) :
  bind _get_color_from_palette k p g =
  match py_getitem (color_palette p) (color_count p + 1 - 1) with
  | Ok c => k c (with_color_count (color_count p + 1) p) g
  | Raise e => mkRun (Raise e) (with_color_count (color_count p + 1) p) g
  end.
Proof.
  unfold bind. rewrite get_color_run.
  destruct (py_getitem (color_palette p) (color_count p + 1 - 1)); reflexivity.
Qed.

Lemma range_getitem_0 (r : PyRange) : range_getitem r 0 = Ok (lo r).
Proof. reflexivity. Qed.

Lemma range_getitem_1 (r : PyRange) : range_getitem r 1 = Ok (hi r).
Proof. reflexivity. Qed.

(** Attribute reads of attribute assignments, reduced. *)
Ltac norm :=
  cbn [
       color_palette color_count datasets datasets_colors p_xunits
       p_xname p_yunits p_yname errorband_sigma show_residuals
       x_range_margin y_range_margin x_range y_range dimensions
       user_functions_count user_functions user_functions_pars
       user_functions_names user_functions_colors axes legend_location
       labels plot_para bkfigure bkres linear_fit_line
       linear_fit_patches linear_fit_pars with_color_count
       with_datasets with_datasets_colors with_show_residuals
       with_x_range with_y_range with_dimensions with_errorband_sigma
       with_user_functions_count with_user_functions
       with_user_functions_pars with_user_functions_names
       with_user_functions_colors with_labels with_bkfigure with_bkres
       with_linear_fit_line with_linear_fit_patches
       with_linear_fit_pars result self_after globals_after minmax_n
       bokeh_ouput_notebook_called in_notebook stdout bokeh_calls
       next_id set_minmax_n set_bokeh_ouput_notebook_called
       write_stdout write_lines log_bokeh bump_id oid kind lo hi fst snd ].

Ltac norm_in H :=
  cbn [
       color_palette color_count datasets datasets_colors p_xunits
       p_xname p_yunits p_yname errorband_sigma show_residuals
       x_range_margin y_range_margin x_range y_range dimensions
       user_functions_count user_functions user_functions_pars
       user_functions_names user_functions_colors axes legend_location
       labels plot_para bkfigure bkres linear_fit_line
       linear_fit_patches linear_fit_pars with_color_count
       with_datasets with_datasets_colors with_show_residuals
       with_x_range with_y_range with_dimensions with_errorband_sigma
       with_user_functions_count with_user_functions
       with_user_functions_pars with_user_functions_names
       with_user_functions_colors with_labels with_bkfigure with_bkres
       with_linear_fit_line with_linear_fit_patches
       with_linear_fit_pars result self_after globals_after minmax_n
       bokeh_ouput_notebook_called in_notebook stdout bokeh_calls
       next_id set_minmax_n set_bokeh_ouput_notebook_called
       write_stdout write_lines log_bokeh bump_id oid kind lo hi fst snd ] in H.

Ltac run_step :=
  first [ rewrite bind_bind
        | rewrite bind_ret
        | rewrite bind_self
        | rewrite bind_globals
        | rewrite bind_assign
        | rewrite bind_assign_global
        | rewrite bind_new_list
        | rewrite bind_lift
        | rewrite range_getitem_0
        | rewrite range_getitem_1
        | rewrite py_getitem_last ];
  cbv beta iota; norm.

Ltac run := repeat run_step.

Ltac run_step_in H :=
  first [ rewrite bind_bind in H
        | rewrite bind_ret in H
        | rewrite bind_self in H
        | rewrite bind_globals in H
        | rewrite bind_assign in H
        | rewrite bind_assign_global in H
        | rewrite bind_new_list in H
        | rewrite bind_lift in H
        | rewrite range_getitem_0 in H
        | rewrite range_getitem_1 in H
        | rewrite py_getitem_last in H ];
  cbv beta iota in H; norm_in H.

Ltac run_in H := repeat run_step_in H.

Lemma run_inj {A : Type} (r r' : Result A) (p p' : Plot) (g g' : Globals) :
  mkRun r p g = mkRun r' p' g' -> r = r' /\ p = p' /\ g = g'.
Proof. intros H. injection H as -> -> ->. repeat split. Qed.

(** A step whose run is known. *)
Lemma bind_run {A B : Type} (c : M A) (k : A -> M B) (p : Plot) (g : Globals)
    (res : Result A) (p' : Plot) (g' : Globals) :
  c p g = mkRun res p' g' ->
  bind c k p g = match res with
                 | Ok a => k a p' g'
                 | Raise e => mkRun (Raise e) p' g'
                 end.
Proof. intros H. unfold bind. rewrite H. destruct res; reflexivity. Qed.

(** *** The ranges enclose what is added *)

Lemma sound_coherent (p : Plot) :
  sound p -> oid (x_range p) = oid (y_range p) -> x_range p = y_range p.
Proof. intros [H _]. exact H. Qed.

Lemma coherent_sym (p : Plot) :
  sound p -> oid (y_range p) = oid (x_range p) -> y_range p = x_range p.
Proof. intros [H _] E. symmetry. apply H. symmetry. exact E. Qed.

Lemma sound_exact_x (p : Plot) : sound p -> exact (x_range p).
Proof. intros (_ & H & _). exact H. Qed.

Lemma sound_exact_y (p : Plot) : sound p -> exact (y_range p).
Proof. intros (_ & _ & H). exact H. Qed.

(** The four conditional assignments that end [add_dataset]. *)
Lemma expand_ranges_encloses (xr yr : PyRange) (p : Plot) (g : Globals)
    (p' : Plot) (g' : Globals) :
  sound p ->
  (let* p1 := self in
   let* sx0 := lift (range_getitem (x_range p1) 0) in
   let* _ := if py_lt (lo xr) sx0 then range_setitem (x_range p1) 0 (lo xr)
             else ret tt in
   let* p2 := self in
   let* sx1 := lift (range_getitem (x_range p2) 1) in
   let* _ := if py_gt (hi xr) sx1 then range_setitem (x_range p2) 1 (hi xr)
             else ret tt in
   let* p3 := self in
   let* sy0 := lift (range_getitem (y_range p3) 0) in
   let* _ := if py_lt (lo yr) sy0 then range_setitem (y_range p3) 0 (lo yr)
             else ret tt in
   let* p4 := self in
   let* sy1 := lift (range_getitem (y_range p4) 1) in
   if py_gt (hi yr) sy1 then range_setitem (y_range p4) 1 (hi yr) else ret tt)
    p g = mkRun (Ok tt) p' g' ->
  sound p' /\
  grows p p' /\
  within (interval xr) (interval (x_range p')) /\
  within (interval yr) (interval (y_range p')).
Proof.
  intros Hc H.
  rewrite bind_self, bind_lift, range_getitem_0 in H. cbv beta iota in H.
  destruct (lower_outward p g (lo xr) Hc (x_range p) (fun _ => eq_refl)
              (coherent_sym p Hc) (sound_exact_x p Hc))
    as (res1 & X1 & Y1 & E1 & Hox1 & Hoy1 & Hc1 & Wx1 & Wy1 & B1).
  rewrite (bind_run _ _ _ _ _ _ _ E1) in H.
  destruct res1 as [[]|e]; [|discriminate H].
  destruct (B1 eq_refl) as [B1x _]. specialize (B1x eq_refl). clear B1.
  set (p1 := with_y_range Y1 (with_x_range X1 p)) in *.
  assert (Hcp1 : sound p1) by exact Hc1.
  rewrite bind_self, bind_lift, range_getitem_1 in H. cbv beta iota in H.
  destruct (upper_outward p1 g (hi xr) Hcp1 (x_range p1) (fun _ => eq_refl)
              (coherent_sym p1 Hcp1) (sound_exact_x p1 Hcp1))
    as (res2 & X2 & Y2 & E2 & Hox2 & Hoy2 & Hc2 & Wx2 & Wy2 & B2).
  rewrite (bind_run _ _ _ _ _ _ _ E2) in H.
  destruct res2 as [[]|e]; [|discriminate H].
  destruct (B2 eq_refl) as [B2x _]. specialize (B2x eq_refl). clear B2.
  set (p2 := with_y_range Y2 (with_x_range X2 p1)) in *.
  assert (Hcp2 : sound p2) by exact Hc2.
  rewrite bind_self, bind_lift, range_getitem_0 in H. cbv beta iota in H.
  destruct (lower_outward p2 g (lo yr) Hcp2 (y_range p2) (sound_coherent p2 Hcp2)
              (fun _ => eq_refl) (sound_exact_y p2 Hcp2))
    as (res3 & X3 & Y3 & E3 & Hox3 & Hoy3 & Hc3 & Wx3 & Wy3 & B3).
  rewrite (bind_run _ _ _ _ _ _ _ E3) in H.
  destruct res3 as [[]|e]; [|discriminate H].
  destruct (B3 eq_refl) as [_ B3y]. specialize (B3y eq_refl). clear B3.
  set (p3 := with_y_range Y3 (with_x_range X3 p2)) in *.
  assert (Hcp3 : sound p3) by exact Hc3.
  rewrite bind_self, bind_lift, range_getitem_1 in H. cbv beta iota in H.
  destruct (upper_outward p3 g (hi yr) Hcp3 (y_range p3) (sound_coherent p3 Hcp3)
              (fun _ => eq_refl) (sound_exact_y p3 Hcp3))
    as (res4 & X4 & Y4 & E4 & Hox4 & Hoy4 & Hc4 & Wx4 & Wy4 & B4).
  rewrite E4 in H.
  destruct res4 as [[]|e]; [|discriminate H].
  destruct (B4 eq_refl) as [_ B4y]. specialize (B4y eq_refl). clear B4.
  injection H as <- <-.
  change (x_range p1) with X1 in *. change (y_range p1) with Y1 in *.
  change (x_range p2) with X2 in *. change (y_range p2) with Y2 in *.
  change (x_range p3) with X3 in *. change (y_range p3) with Y3 in *.
  split; [exact Hc4|].
  destruct Wx1 as [Wx1l Wx1h], Wx2 as [Wx2l Wx2h], Wx3 as [Wx3l Wx3h],
    Wx4 as [Wx4l Wx4h], Wy1 as [Wy1l Wy1h], Wy2 as [Wy2l Wy2h],
    Wy3 as [Wy3l Wy3h], Wy4 as [Wy4l Wy4h].
  unfold grows, within, interval in *. simpl fst in *. simpl snd in *.
  change (x_range (with_y_range Y4 (with_x_range X4 p3))) with X4.
  change (y_range (with_y_range Y4 (with_x_range X4 p3))) with Y4.
  assert (Lx : (lo X4 <= lo X1)%Q).
  { eapply Qle_trans; [exact Wx4l|]. eapply Qle_trans; [exact Wx3l|]. exact Wx2l. }
  assert (Ux : (hi X2 <= hi X4)%Q).
  { eapply Qle_trans; [exact Wx3h|]. exact Wx4h. }
  assert (Ly : (lo Y3 <= lo Y1)%Q).
  { eapply Qle_trans; [exact Wy3l|]. exact Wy2l. }
  assert (Uy : (hi Y1 <= hi Y3)%Q).
  { eapply Qle_trans; [exact Wy2h|]. exact Wy3h. }
  repeat split; try reflexivity.
  - eapply Qle_trans; [exact Lx|]. exact Wx1l.
  - eapply Qle_trans; [exact Wx1h|]. eapply Qle_trans; [exact Wx2h|]. exact Ux.
  - eapply Qle_trans; [exact Wy4l|]. eapply Qle_trans; [exact Ly|]. exact Wy1l.
  - eapply Qle_trans; [exact Wy1h|]. eapply Qle_trans; [exact Uy|]. exact Wy4h.
  - eapply Qle_trans; [exact Lx|]. exact B1x.
  - eapply Qle_trans; [exact B2x|]. exact Ux.
  - eapply Qle_trans; [exact Wy4l|]. exact B3y.
  - exact B4y.
Qed.

Ltac finish_add_dataset H Hc :=
  unfold get_x_range, get_y_range in H;
  rewrite bind_self in H; cbv beta in H;
  rewrite bind_new_list in H; cbv beta in H;
  rewrite bind_self in H; cbv beta in H;
  rewrite bind_new_list in H; cbv beta in H;
  apply expand_ranges_encloses in H; [|exact Hc];
  destruct H as (Hc' & Hg & Hx & Hy);
  split; [exact Hc' | split; [exact Hg | split; [exact Hx | exact Hy]]].

Ltac rename_step H :=
  match type of H with
  | bind (match ?name with Some _ => _ | None => _ end) _ _ _ = _ =>
      destruct name;
      [ rewrite bind_bind, bind_self in H; cbv beta in H;
        rewrite bind_bind, bind_lift in H; norm_in H;
        rewrite py_getitem_last in H; cbv beta iota in H;
        rewrite bind_assign in H; cbv beta in H
      | rewrite bind_ret in H ]
  end.

(** [add_dataset], when it returns: the ranges have not shrunk and they
    enclose the padded extent of the new dataset. *)
Lemma add_dataset_encloses (dataset : XYDataSet) (color name : option string)
    (p : Plot) (g : Globals) (p' : Plot) (g' : Globals) :
  sound p ->
  add_dataset dataset color name p g = mkRun (Ok tt) p' g' ->
  sound p' /\
  grows p p' /\
  encloses p' (Some (padded (x_extent dataset) (x_range_margin p)),
               padded (y_extent dataset) (y_range_margin p)).
Proof.
  intros Hc H. unfold add_dataset in H.
  rewrite bind_assign in H. cbv beta in H.
  destruct color as [c|].
  - rewrite bind_assign in H. cbv beta in H.
    rename_step H; finish_add_dataset H Hc.
  - rewrite bind_bind, bind_get_color in H.
    destruct (py_getitem _ _) as [c|e]; [|discriminate H].
    rewrite bind_assign in H. cbv beta in H.
    rename_step H; finish_add_dataset H Hc.
Qed.

(** *** [add_function], step by step *)

(** [add_function] samples the function when [pars] has a recognized
    form, and records it from the sampled values; otherwise it only prints
    its message. *)
Lemma add_function_run (function : UserFunction) (pars : Pars)
    (name color : option string) (p : Plot) (g : Globals) :
  add_function function pars name color p g =
  if recognized pars then
    match sample function pars p g with
    | (Ok fvals, g1) => add_function_record function pars name color fvals p g1
    | (Raise e, g1) => mkRun (Raise e) p g1
    end
  else mkRun (Ok tt) p (write_stdout "Error: Not a recognized format for parameter" g).
Proof.
  unfold add_function.
  rewrite bind_self, bind_lift, range_getitem_0. cbv beta iota.
  rewrite bind_lift, range_getitem_1. cbv beta iota.
  destruct pars; try reflexivity; cbn [recognized isinstance_ndarray eq_None
    isinstance_Measurement_Array isinstance_list_or_ndarray negb andb];
    cbv iota; unfold sample.
  - (* None *)
    unfold bind at 1, call.
    destruct (function _ _ g) as [[fv | e] g1]; reflexivity.
  - (* Measurement_Array *)
    unfold evaluate_with_measurements.
    rewrite bind_bind, bind_globals. cbv beta.
    rewrite bind_bind, bind_assign_global. cbv beta.
    rewrite bind_bind. unfold bind at 1, call.
    destruct (function _ _ (set_minmax_n 1 g)) as [[fmes | e] g1]; [|reflexivity].
    cbn [fst snd]. rewrite bind_bind, bind_lift.
    destruct (fvalue_get_means fmes) as [fvals | e]; [|reflexivity].
    rewrite bind_bind, bind_assign_global. cbv beta.
    rewrite bind_ret. reflexivity.
  - (* ndarray *)
    unfold bind at 1, call.
    destruct (function _ _ g) as [[fv | e] g1]; reflexivity.
  - (* list *)
    unfold bind at 1, call.
    destruct (function _ _ g) as [[fv | e] g1]; reflexivity.
Qed.

(** [add_function] from the computation of [fmax] on, when it returns:
    the sampled values are a non-empty plain array, the y-range has not
    shrunk and encloses their padded extent, the function, its parameters,
    its name and its colour are appended, and the module-level state is
    untouched. *)
Lemma add_function_record_returns (function : UserFunction) (pars : Pars)
    (name color : option string) (fvals : FValue)
    (p : Plot) (g : Globals) (p' : Plot) (g' : Globals) :
  sound p ->
  add_function_record function pars name color fvals p g = mkRun (Ok tt) p' g' ->
  g' = g /\
  sound p' /\
  grows p p' /\
  (exists v vs,
     fvals = FArray (v :: vs) /\
     within (padded (minimum v vs, maximum v vs) (y_range_margin p))
            (interval (y_range p'))) /\
  (exists c,
     colour_given color p = Ok c /\
     user_functions_colors p' = (user_functions_colors p ++ [c])%list) /\
  color_count p' = cursor_after color p /\
  color_palette p' = color_palette p /\
  user_functions p' = (user_functions p ++ [function])%list /\
  user_functions_pars p' = (user_functions_pars p ++ [pars])%list /\
  user_functions_count p' = user_functions_count p + 1.
Proof.
  intros Hc H. unfold add_function_record in H.
  rewrite bind_self, bind_lift in H. cbv beta in H.
  destruct fvals as [[|v vs] | ms]; try discriminate H.
  cbn [fvalue_max np_max] in H. cbv beta iota in H.
  rewrite bind_self, bind_lift in H. cbn [fvalue_min np_min] in H.
  cbv beta iota in H.
  rewrite bind_self, bind_lift, range_getitem_1 in H. cbv beta iota in H.
  destruct (upper_outward p g (maximum v vs + y_range_margin p)%Q Hc
              (y_range p) (sound_coherent p Hc) (fun _ => eq_refl)
              (sound_exact_y p Hc))
    as (res1 & X1 & Y1 & E1 & Hox1 & Hoy1 & Hc1 & Wx1 & Wy1 & B1).
  rewrite (bind_run _ _ _ _ _ _ _ E1) in H.
  destruct res1 as [[]|e]; [|discriminate H].
  destruct (B1 eq_refl) as [_ B1y]. specialize (B1y eq_refl). clear B1.
  set (p1 := with_y_range Y1 (with_x_range X1 p)) in *.
  assert (Hcp1 : sound p1) by exact Hc1.
  rewrite bind_self, bind_lift, range_getitem_0 in H. cbv beta iota in H.
  destruct (lower_outward p1 g (minimum v vs - y_range_margin p)%Q Hcp1
              (y_range p1) (sound_coherent p1 Hcp1) (fun _ => eq_refl)
              (sound_exact_y p1 Hcp1))
    as (res2 & X2 & Y2 & E2 & Hox2 & Hoy2 & Hc2 & Wx2 & Wy2 & B2).
  rewrite (bind_run _ _ _ _ _ _ _ E2) in H.
  destruct res2 as [[]|e]; [|discriminate H].
  destruct (B2 eq_refl) as [_ B2y]. specialize (B2y eq_refl). clear B2.
  change (x_range p1) with X1 in *. change (y_range p1) with Y1 in *.
  rewrite bind_assign in H. cbv beta in H.
  rewrite bind_assign in H. cbv beta in H.
  rewrite bind_self in H. cbv beta in H.
  rewrite bind_assign in H. cbv beta in H.
  rewrite bind_assign in H. cbv beta in H.
  destruct Wx1 as [Wx1l Wx1h], Wx2 as [Wx2l Wx2h],
    Wy1 as [Wy1l Wy1h], Wy2 as [Wy2l Wy2h].
  unfold interval in *. cbn [fst snd] in *.
  assert (Hgrow : (lo X2 <= lo (x_range p))%Q /\ (hi (x_range p) <= hi X2)%Q /\
                  (lo Y2 <= lo (y_range p))%Q /\ (hi (y_range p) <= hi Y2)%Q /\
                  (lo Y2 <= minimum v vs - y_range_margin p)%Q /\
                  (maximum v vs + y_range_margin p <= hi Y2)%Q).
  { repeat split.
    - eapply Qle_trans; [exact Wx2l | exact Wx1l].
    - eapply Qle_trans; [exact Wx1h | exact Wx2h].
    - eapply Qle_trans; [exact Wy2l | exact Wy1l].
    - eapply Qle_trans; [exact Wy1h | exact Wy2h].
    - exact B2y.
    - eapply Qle_trans; [exact B1y | exact Wy2h]. }
  destruct Hgrow as (G1 & G2 & G3 & G4 & G5 & G6).
  destruct color as [c|].
  - unfold assign in H. apply run_inj in H. destruct H as (_ & <- & <-).
    split; [reflexivity|]. split; [exact Hc2|].
    split; [repeat split; assumption|].
    split; [exists v, vs; repeat split; assumption|].
    split; [exists c; split; reflexivity|].
    repeat split; reflexivity.
  - rewrite bind_get_color in H. norm_in H.
    destruct (py_getitem _ _) as [c|e] eqn:Ec; [|discriminate H].
    unfold assign in H. apply run_inj in H. destruct H as (_ & <- & <-).
    split; [reflexivity|]. split; [exact Hc2|].
    split; [repeat split; assumption|].
    split; [exists v, vs; repeat split; assumption|].
    split; [exists c; split; [exact Ec | reflexivity]|].
    repeat split; reflexivity.
Qed.

(** *** Sequences of additions *)

Lemma add_function_encloses (function : UserFunction) (pars : Pars)
    (name color : option string) (p : Plot) (g : Globals) (p' : Plot) (g' : Globals) :
  sound p ->
  add_function function pars name color p g = mkRun (Ok tt) p' g' ->
  sound p' /\
  grows p p' /\
  forall e, extent_added (AddFunction function pars name color) p g = Some e ->
            encloses p' e.
Proof.
  intros Hc H. rewrite add_function_run in H. cbn [extent_added].
  destruct (recognized pars).
  - destruct (sample function pars p g) as [[fvals | e] g1]; [|discriminate H].
    apply (add_function_record_returns _ _ _ _ _ _ _ _ _ Hc) in H.
    destruct H as (_ & Hc' & Hg & (v & vs & -> & Hw) & _).
    split; [exact Hc'|]. split; [exact Hg|].
    cbn [fst]. intros e [= <-]. split; [exact I | exact Hw].
  - injection H as <- <-.
    split; [exact Hc|]. split; [apply grows_refl|]. discriminate.
Qed.

Lemma run_call_encloses (c : Call) (p : Plot) (g : Globals) (p' : Plot) (g' : Globals) :
  sound p ->
  run_call c p g = mkRun (Ok tt) p' g' ->
  sound p' /\
  grows p p' /\
  forall e, extent_added c p g = Some e -> encloses p' e.
Proof.
  intros Hc H. destruct c as [dataset color name | function pars name color].
  - apply (add_dataset_encloses _ _ _ _ _ _ _ Hc) in H.
    destruct H as (Hc' & Hg & He).
    split; [exact Hc'|]. split; [exact Hg|].
    intros e [= <-]. exact He.
  - exact (add_function_encloses _ _ _ _ _ _ _ _ Hc H).
Qed.

(** Where the ranges do enclose what is added: on a plot whose ranges
    keep the floats written into them (lists, or arrays of floats; one
    object or two), after any sequence of [add_dataset] and [add_function]
    calls that all return, the x-range and the y-range enclose the padded
    extent of every dataset added and the padded extent of the values every
    function added was sampled to, each taken when its call was made. *)
Lemma ranges_enclose_everything_added (cs : list Call) (p : Plot) (g : Globals)
    (p' : Plot) (g' : Globals) :
  sound p ->
  run_calls cs p g = mkRun (Ok tt) p' g' ->
  Forall (encloses p') (extents_added cs p g) /\ grows p p' /\ sound p'.
Proof.
  revert p g. induction cs as [|c cs IH]; intros p g Hc H.
  - injection H as <- <-. split; [constructor|]. split; [apply grows_refl | exact Hc].
  - cbn [run_calls extents_added] in *. unfold bind in H.
    destruct (run_call c p g) as [[[] | e] p1 g1] eqn:E; [|discriminate H].
    cbn [result self_after globals_after].
    destruct (run_call_encloses c p g p1 g1 Hc E) as (Hc1 & Hg1 & He1).
    destruct (IH p1 g1 Hc1 H) as (Hrest & Hg' & Hc').
    split; [|split; [eapply grows_trans; eassumption | exact Hc']].
    apply Forall_app. split; [|exact Hrest].
    destruct (extent_added c p g) as [e|]; [|constructor].
    constructor; [|constructor].
    eapply encloses_grows; [apply He1; reflexivity | exact Hg'].
Qed.

Lemma run_eta {A : Type} (r : Run A) (a : A) :
  result r = Ok a -> r = mkRun (Ok a) (self_after r) (globals_after r).
Proof. destruct r as [res q h]. simpl. intros ->. reflexivity. Qed.

Lemma fresh_plot_sound : sound (self_after fresh_plot).
Proof.
  split; [|split].
  - intros H. vm_compute in H. discriminate H.
  - vm_compute. discriminate.
  - vm_compute. discriminate.
Qed.

(** On the fresh plot, whose ranges are two lists of floats, a dataset and
    then a function are added and both are enclosed. *)
Example two_additions_are_enclosed :
  let r := and_then fresh_plot (run_calls two_additions) in
  result r = Ok tt /\
  Forall (encloses (self_after r))
         (extents_added two_additions (self_after fresh_plot)
                        (globals_after fresh_plot)) /\
  length (extents_added two_additions (self_after fresh_plot)
                        (globals_after fresh_plot)) = 2%nat.
Proof.
  cbv zeta. unfold and_then.
  set (p := self_after fresh_plot). set (g := globals_after fresh_plot).
  assert (Hres : result (run_calls two_additions p g) = Ok tt)
    by (vm_compute; reflexivity).
  split; [exact Hres|].
  split; [|vm_compute; reflexivity].
  pose proof (ranges_enclose_everything_added two_additions p g
                (self_after (run_calls two_additions p g))
                (globals_after (run_calls two_additions p g))
                fresh_plot_sound
                (run_eta (run_calls two_additions p g) tt Hres)) as H.
  exact (proj1 H).
Qed.

(** C2.  The claim fails on the code when a stored range is an array of
    integers.  [set_plot_range] keeps the caller's object as the range, and
    [add_dataset] widens the range by item assignment; numpy keeps only the
    integer part of a float written into an array of integers.  After
    [p.set_plot_range(np.array([0, 10]))] and [p.add_dataset(run_B)], where
    the data of [run_B] span x in [-2, 2] and the padded extent is
    [-2.5, 2.5], both calls have returned and the x-range is [-2, 10]: it
    does not enclose the padded extent of the dataset that was added. *)
Theorem integer_range_is_not_widened :
  let r := and_then integer_range_plot (add_dataset run_B None None) in
  result integer_range_plot = Ok tt /\
  result r = Ok tt /\
  extents_added [AddDataset run_B None None] (self_after integer_range_plot)
                (globals_after integer_range_plot) =
    [(Some ((- (5 # 2))%Q, (5 # 2)%Q), ((1 # 2)%Q, (15 # 2)%Q))] /\
  interval (x_range (self_after r)) = ((- (2))%Q, 10%Q) /\
  ~ Forall (encloses (self_after r))
           (extents_added [AddDataset run_B None None]
                          (self_after integer_range_plot)
                          (globals_after integer_range_plot)).
Proof.
  cbv zeta.
  split; [vm_compute; reflexivity|].
  split; [vm_compute; reflexivity|].
  split; [vm_compute; reflexivity|].
  split; [vm_compute; reflexivity|].
  intros H. apply Forall_inv in H. destruct H as [[H _] _].
  vm_compute in H. apply H. reflexivity.
Qed.

(** The two scenarios on ranges: a dataset spanning x in [0, 10] and y in
    [0, 5] with margin 0.5 gives the ranges [-0.5, 10.5] and [-0.5, 5.5];
    adding a dataset spanning x in [-2, 2] moves the lower x bound to -2.5
    and leaves the upper one at 10.5. *)
Example initial_ranges :
  interval (x_range (self_after fresh_plot)) = ((- (1 # 2))%Q, (21 # 2)%Q) /\
  interval (y_range (self_after fresh_plot)) = ((- (1 # 2))%Q, (11 # 2)%Q).
Proof. vm_compute. split; reflexivity. Qed.

Example ranges_after_second_dataset :
  let r := and_then fresh_plot (add_dataset run_B None None) in
  result r = Ok tt /\
  interval (x_range (self_after r)) = ((- (5 # 2))%Q, (21 # 2)%Q).
Proof. vm_compute. split; reflexivity. Qed.

(** *** What a computation leaves alone *)

Section Respects.

Variable R : Plot -> Globals -> Plot -> Globals -> Prop.
Hypothesis R_refl : forall p g, R p g p g.
Hypothesis R_trans :
  forall p1 g1 p2 g2 p3 g3, R p1 g1 p2 g2 -> R p2 g2 p3 g3 -> R p1 g1 p3 g3.

Lemma respects_ret {A : Type} (a : A) : respects R (ret a).
Proof. intros p g. apply R_refl. Qed.

Lemma respects_raise {A : Type} (e : PyExc) : respects R (@raise A e).
Proof. intros p g. apply R_refl. Qed.

Lemma respects_lift {A : Type} (r : Result A) : respects R (lift r).
Proof. intros p g. apply R_refl. Qed.

Lemma respects_self : respects R self.
Proof. intros p g. apply R_refl. Qed.

Lemma respects_globals : respects R globals.
Proof. intros p g. apply R_refl. Qed.

Lemma respects_bind {A B : Type} (c : M A) (k : A -> M B) :
  respects R c -> (forall a, respects R (k a)) -> respects R (bind c k).
Proof.
  intros Hc Hk p g. specialize (Hc p g). unfold bind.
  destruct (c p g) as [[a | e] p1 g1]; cbn [self_after globals_after] in *.
  - eapply R_trans; [exact Hc | apply Hk].
  - exact Hc.
Qed.

Lemma respects_assign (f : Plot -> Plot) :
  (forall p g, R p g (f p) g) -> respects R (assign f).
Proof. intros H p g. apply H. Qed.

Lemma respects_assign_global (f : Globals -> Globals) :
  (forall p g, R p g p (f g)) -> respects R (assign_global f).
Proof. intros H p g. apply H. Qed.

Lemma respects_dict_getitem {V : Type} (d : gmap string V) (key : string) :
  respects R (dict_getitem d key).
Proof.
  unfold dict_getitem. destruct (d !! key); [apply respects_ret | apply respects_raise].
Qed.

(** Item assignment respects a relation that the rebinding of the two
    ranges respects. *)
Lemma respects_range_setitem (r : PyRange) (i : Z) (v : Q) :
  (forall X p g, R p g (with_x_range X p) g) ->
  (forall Y p g, R p g (with_y_range Y p) g) ->
  respects R (range_setitem r i v).
Proof.
  intros Hx Hy. unfold range_setitem.
  destruct (kind r); try apply respects_raise;
    (destruct ((i <? -2) || (2 <=? i)); [apply respects_raise|];
     apply respects_bind; [|intros _]; apply respects_assign; intros; auto).
Qed.

Lemma respects_get_color :
  (forall n p g, R p g (with_color_count n p) g) ->
  respects R _get_color_from_palette.
Proof.
  intros H. unfold _get_color_from_palette.
  apply respects_bind; [apply respects_assign; intros; apply H|].
  intros _. apply respects_bind; [apply respects_self|].
  intros q. apply respects_lift.
Qed.

End Respects.

Ltac respects_with Hrefl Htrans :=
  repeat first
    [ apply (respects_ret _ Hrefl)
    | apply (respects_raise _ Hrefl)
    | apply (respects_lift _ Hrefl)
    | apply (respects_self _ Hrefl)
    | apply (respects_globals _ Hrefl)
    | apply (respects_dict_getitem _ Hrefl)
    | apply (respects_range_setitem _ Hrefl Htrans)
    | apply (respects_get_color _ Hrefl Htrans)
    | apply respects_assign
    | apply respects_assign_global
    | apply (respects_bind _ Htrans); [|intros ?]
    | match goal with
      | |- respects _ (if ?b then _ else _) => destruct b
      | |- respects _ (match ?x with Some _ => _ | None => _ end) => destruct x
      end ].

(** *** The evaluation mode *)

Lemma same_mode_refl (p : Plot) (g : Globals) : same_mode p g p g.
Proof. reflexivity. Qed.

Lemma same_mode_trans (p1 : Plot) (g1 : Globals) (p2 : Plot) (g2 : Globals)
    (p3 : Plot) (g3 : Globals) :
  same_mode p1 g1 p2 g2 -> same_mode p2 g2 p3 g3 -> same_mode p1 g1 p3 g3.
Proof. unfold same_mode. congruence. Qed.

Lemma add_function_record_same_mode (function : UserFunction) (pars : Pars)
    (name color : option string) (fvals : FValue) :
  respects same_mode (add_function_record function pars name color fvals).
Proof.
  unfold add_function_record.
  respects_with same_mode_refl same_mode_trans; intros; reflexivity.
Qed.

(** Where the flag is restored: [add_function] with a Measurement_Array of
    parameters calls the function with [qe.Measurement.minmax_n] set to 1.
    When the call returns a value and [get_means] accepts it, the flag is
    set back before anything else happens, and it has its prior value when
    [add_function] ends, whichever way it ends. *)
Lemma add_function_restores_mode (function : UserFunction)
    (ms : list Measurement) (name color : option string)
    (p : Plot) (g : Globals) (fmes fvals : FValue) (g1 : Globals) :
  function (np_linspace (lo (x_range p)) (hi (x_range p)) 100)
           (map ArgMeasurement ms) (set_minmax_n 1 g) = (Ok fmes, g1) ->
  fvalue_get_means fmes = Ok fvals ->
  let r := add_function function (ParsMeasurementArray ms) name color p g in
  r = add_function_record function (ParsMeasurementArray ms) name color fvals p
        (set_minmax_n (minmax_n g) g1) /\
  minmax_n (globals_after r) = minmax_n g.
Proof.
  intros Hcall Hmeans r.
  assert (Hr : r = add_function_record function (ParsMeasurementArray ms) name
                     color fvals p (set_minmax_n (minmax_n g) g1)).
  { subst r. rewrite add_function_run. cbn [recognized]. unfold sample.
    cbn [unpack]. rewrite Hcall, Hmeans. reflexivity. }
  split; [exact Hr|].
  rewrite Hr.
  exact (add_function_record_same_mode function (ParsMeasurementArray ms) name
           color fvals p (set_minmax_n (minmax_n g) g1)).
Qed.

Example uncertain_line_restores_mode :
  let r := and_then fresh_plot
             (add_function uncertain_line (ParsMeasurementArray two_measurements)
                           None None) in
  minmax_n (globals_after fresh_plot) = 100 /\
  result r = Ok tt /\
  minmax_n (globals_after r) = 100.
Proof.
  cbv zeta. unfold and_then.
  set (p := self_after fresh_plot). set (g := globals_after fresh_plot).
  set (xvals := np_linspace (lo (x_range p)) (hi (x_range p)) 100).
  set (fmes := FMeasurementArray
                 (map (fun x => mkMeasurement x (1 # 10) "f") xvals)).
  assert (Hmode : minmax_n g = 100) by (vm_compute; reflexivity).
  assert (Hcall : uncertain_line xvals (map ArgMeasurement two_measurements)
                    (set_minmax_n 1 g) = (Ok fmes, set_minmax_n 1 g))
    by reflexivity.
  pose proof (add_function_restores_mode uncertain_line two_measurements
                None None p g fmes (FArray (get_means
                  (map (fun x => mkMeasurement x (1 # 10) "f") xvals)))
                (set_minmax_n 1 g) Hcall eq_refl) as H.
  cbv zeta in H. destruct H as [_ H].
  split; [exact Hmode|]. split; [vm_compute; reflexivity|].
  rewrite H. exact Hmode.
Qed.

(** When the function raises instead, the flag is left at 1. *)
Lemma add_function_leaves_mode_on_error (function : UserFunction)
    (ms : list Measurement) (name color : option string)
    (p : Plot) (g : Globals) (e : PyExc) (g1 : Globals) :
  function (np_linspace (lo (x_range p)) (hi (x_range p)) 100)
           (map ArgMeasurement ms) (set_minmax_n 1 g) = (Raise e, g1) ->
  add_function function (ParsMeasurementArray ms) name color p g =
  mkRun (Raise e) p g1.
Proof.
  intros Hcall. rewrite add_function_run. cbn [recognized]. unfold sample.
  cbn [unpack]. rewrite Hcall. reflexivity.
Qed.

(** C5.  The claim fails on the code when the function returns normally
    but what it returns is not an array of uncertain values.
    [add_function] saves the flag, sets it to 1 and calls the function; the
    plain array the function returns has no [get_means], so line 138
    raises AttributeError before the line that restores the flag is
    reached.  The call to [add_function] ends with the exception, the plot
    is unchanged, and the module-level state is the one the function left:
    unless the function itself changed the flag, it is still 1. *)
Theorem add_function_leaves_mode_overridden (function : UserFunction)
    (ms : list Measurement) (name color : option string)
    (p : Plot) (g : Globals) (values : list Q) (g1 : Globals) :
  function (np_linspace (lo (x_range p)) (hi (x_range p)) 100)
           (map ArgMeasurement ms) (set_minmax_n 1 g) = (Ok (FArray values), g1) ->
  add_function function (ParsMeasurementArray ms) name color p g =
  mkRun (Raise AttributeError) p g1.
Proof.
  intros Hcall. rewrite add_function_run. cbn [recognized]. unfold sample.
  cbn [unpack]. rewrite Hcall. reflexivity.
Qed.

Lemma add_function_leaves_mode_overridden_witness :
  let r := and_then fresh_plot
             (add_function identity_function
                           (ParsMeasurementArray two_measurements) None None) in
  minmax_n (globals_after fresh_plot) = 100 /\
  result r = Raise AttributeError /\
  minmax_n (globals_after r) = 1.
Proof.
  cbv zeta. unfold and_then.
  split; [reflexivity|].
  rewrite (add_function_leaves_mode_overridden identity_function two_measurements
             None None (self_after fresh_plot) (globals_after fresh_plot)
             (np_linspace (lo (x_range (self_after fresh_plot)))
                          (hi (x_range (self_after fresh_plot))) 100)
             (set_minmax_n 1 (globals_after fresh_plot)) eq_refl).
  split; reflexivity.
Defined.

(** *** [show_linear_fit] and the lower x bound *)

Section Respects_bokeh.

Variable R : Plot -> Globals -> Plot -> Globals -> Prop.
Hypothesis R_refl : forall p g, R p g p g.
Hypothesis R_trans :
  forall p1 g1 p2 g2 p3 g3, R p1 g1 p2 g2 -> R p2 g2 p3 g3 -> R p1 g1 p3 g3.
Hypothesis R_bump : forall p g, R p g p (bump_id g).
Hypothesis R_bkfigure : forall v p g, R p g (with_bkfigure v p) g.
Hypothesis R_bkres : forall v p g, R p g (with_bkres v p) g.

Lemma respects_bp_figure (build : nat -> Figure) : respects R (bp_figure build).
Proof. intros p g. apply R_bump. Qed.

Lemma respects_new_list (a b : Q) : respects R (new_list a b).
Proof. intros p g. apply R_bump. Qed.

Lemma respects_bi_gridplot (rows : list (list Figure)) :
  respects R (bi_gridplot rows).
Proof. intros p g. apply R_bump. Qed.

Lemma respects_the_bkfigure : respects R the_bkfigure.
Proof.
  unfold the_bkfigure.
  apply (respects_bind _ R_trans); [apply (respects_self _ R_refl)|].
  intros q. destruct (bkfigure q) as [[f | id rows]|];
    first [apply (respects_ret _ R_refl) | apply (respects_raise _ R_refl)].
Qed.

Lemma respects_the_bkres : respects R the_bkres.
Proof.
  unfold the_bkres.
  apply (respects_bind _ R_trans); [apply (respects_self _ R_refl)|].
  intros q. destruct (bkres q);
    first [apply (respects_ret _ R_refl) | apply (respects_raise _ R_refl)].
Qed.

Lemma respects_initialize_bokeh_figure (residuals : bool) :
  respects R (initialize_bokeh_figure residuals).
Proof.
  unfold initialize_bokeh_figure, get_yres_range.
  apply (respects_bind _ R_trans); [apply (respects_self _ R_refl)|].
  intros q. destruct (negb residuals);
    repeat first
      [ apply (respects_lift _ R_refl)
      | apply (respects_dict_getitem _ R_refl)
      | apply respects_bp_figure
      | apply respects_new_list
      | apply respects_the_bkfigure
      | apply (respects_bind _ R_trans); [|intros ?] ].
Qed.

Lemma respects_plot_dataset_bkfigure (dataset : XYDataSet) (residual : bool)
    (data_color : string) :
  respects R (plot_dataset_bkfigure dataset residual data_color).
Proof.
  unfold plot_dataset_bkfigure.
  apply (respects_bind _ R_trans); [apply respects_the_bkfigure|].
  intros f. apply respects_assign. intros. apply R_bkfigure.
Qed.

Lemma respects_plot_dataset_bkres (dataset : XYDataSet) (residual : bool)
    (data_color : string) :
  respects R (plot_dataset_bkres dataset residual data_color).
Proof.
  unfold plot_dataset_bkres.
  apply (respects_bind _ R_trans); [apply respects_the_bkres|].
  intros f. apply respects_assign. intros. apply R_bkres.
Qed.

Lemma respects_plot_function_bkfigure (function : Callable) (xdata : list Q)
    (pars : Pars) (n : Z) (legend_name color : string) (errorbandfactor : Q) :
  respects R (plot_function_bkfigure function xdata pars n legend_name color
                                     errorbandfactor).
Proof.
  unfold plot_function_bkfigure.
  apply (respects_bind _ R_trans); [apply respects_the_bkfigure|].
  intros f. apply (respects_bind _ R_trans).
  - apply respects_assign. intros. apply R_bkfigure.
  - intros _. apply (respects_ret _ R_refl).
Qed.

End Respects_bokeh.

Lemma py_getitem_map {A B : Type} (f : A -> B) (l : list A) (i : Z) :
  py_getitem (map f l) i =
  match py_getitem l i with
  | Ok a => Ok (f a)
  | Raise e => Raise e
  end.
Proof.
  unfold py_getitem. rewrite length_map.
  destruct ((_ <? 0) || (_ <=? _)); [reflexivity|].
  rewrite nth_error_map. destruct (nth_error l _); reflexivity.
Qed.

(** The dataset at an index, once the object [d'] it is bound to has
    changed. *)
Lemma py_getitem_write_dataset (d d' : XYDataSet) (ds : list XYDataSet) (i : Z) :
  py_getitem ds i = Ok d ->
  dataset_id d' = dataset_id d ->
  py_getitem (write_dataset d' ds) i = Ok d'.
Proof.
  intros H Hid. unfold write_dataset. rewrite py_getitem_map, H, Hid.
  rewrite Nat.eqb_refl. reflexivity.
Qed.

Lemma write_dataset_length (d : XYDataSet) (ds : list XYDataSet) :
  length (write_dataset d ds) = length ds.
Proof. apply length_map. Qed.

Lemma fit_dataset_id (model : string) (d : XYDataSet) :
  dataset_id (snd (fit_dataset model d)) = dataset_id d.
Proof.
  unfold fit_dataset. destruct (fit_result d model) as [[[f ps] fname]|];
    reflexivity.
Qed.

Ltac setitem_step H :=
  match type of H with
  | bind (range_setitem ?r ?i ?v) _ ?s ?h = _ =>
      let Hs := fresh "Hs" in
      pose proof (range_setitem_run r i v s h (or_introl eq_refl)) as Hs;
      revert Hs; destruct (kind r); intros Hs;
      rewrite (bind_run _ _ _ _ _ _ _ Hs) in H; clear Hs;
      try discriminate H
  end.

(** With two distinct lists of floats as ranges,
    [p.set_plot_range([0, 10], [0, 5]); p.show_linear_fit()] moves the lower
    bound of the x-range to -0.5 and the lower bound of the y-range to the
    value of the fit there. *)
Example show_linear_fit_reaches_lower_bound :
  let r := and_then ranged_plot (show_linear_fit "inline") in
  result r = Ok tt /\
  interval (x_range (self_after r)) = ((- (1 # 2))%Q, 10%Q) /\
  (lo (y_range (self_after r)) == 5 # 2)%Q.
Proof. vm_compute. repeat split; reflexivity. Qed.

(** C9.  The claim fails on the code in two cases, both from
    [set_plot_range] keeping the caller's object as the stored range.

    When both ranges are one list, after
    [r = [0, 10]; p.set_plot_range(r, r); p.show_linear_fit()], the
    assignment [self.x_range[0] = -0.5] is made, and the assignment to
    [self.y_range[0]] that follows lands in the same list: the lower bound
    of the x-range ends at the value of the fit at -0.5, here
    3 + 1 * (-0.5) = 2.5.

    When the x-range is an array of integers, after
    [p.set_plot_range(np.array([0, 10])); p.show_linear_fit()], the array
    keeps the integer part of the -0.5 written into it: the lower bound of
    the x-range is still 0.

    In both cases [show_linear_fit] returns, and the lower bound of the
    x-range is above -0.5. *)
Theorem show_linear_fit_misses_lower_bound :
  let shared := and_then shared_range_plot (show_linear_fit "inline") in
  let integer := and_then integer_range_plot (show_linear_fit "inline") in
  (result shared_range_plot = Ok tt /\
   result shared = Ok tt /\
   (lo (x_range (self_after shared)) == 5 # 2)%Q /\
   ~ (lo (x_range (self_after shared)) <= - (1 # 2))%Q) /\
  (result integer_range_plot = Ok tt /\
   result integer = Ok tt /\
   (lo (x_range (self_after integer)) == 0)%Q /\
   ~ (lo (x_range (self_after integer)) <= - (1 # 2))%Q).
Proof.
  vm_compute. repeat split; try reflexivity;
    intros H; apply H; reflexivity.
Qed.

(** *** Construction and the first colours *)

(** The dataset a construction plots: the one passed, or else the one the
    constructor builds from the arrays, when that construction returns. *)
Lemma init_returns (wrapped : Result XYDataSet) (data_name : option string)
    (dataset : option XYDataSet) (g : Globals) :
  result (__init__ wrapped data_name dataset g) = Ok tt ->
  exists d, match dataset with Some d => Ok d | None => wrapped end = Ok d.
Proof.
  unfold __init__.
  destruct (match dataset with Some d => Ok d | None => wrapped end) as [d|e].
  - intros _. exists d. reflexivity.
  - intros H. discriminate H.
Qed.

(** [__init__] returns once it has a dataset.  The plot it builds holds the
    one dataset with the first colour of the palette, the cursor stands at
    1, no function has been added, and the two ranges are two new lists. *)
Lemma init_run (wrapped : Result XYDataSet) (data_name : option string)
    (dataset : option XYDataSet) (g : Globals) (d : XYDataSet) :
  match dataset with Some d => Ok d | None => wrapped end = Ok d ->
  let r := __init__ wrapped data_name dataset g in
  result r = Ok tt /\
  color_palette (self_after r) = Set1_9 /\
  color_count (self_after r) = 1 /\
  datasets (self_after r) = [d] /\
  datasets_colors (self_after r) = ["#e41a1c"] /\
  user_functions_colors (self_after r) = [] /\
  user_functions_count (self_after r) = 0 /\
  show_residuals (self_after r) = false /\
  x_range (self_after r) =
    mkRange (next_id g) TList (fst (x_extent d) - (1 # 2))%Q
            (snd (x_extent d) + (1 # 2))%Q /\
  y_range (self_after r) =
    mkRange (S (next_id g)) TList (fst (y_extent d) - (1 # 2))%Q
            (snd (y_extent d) + (1 # 2))%Q /\
  labels (self_after r) !! "data" = Some data_name /\
  globals_after r = bump_id (bump_id g).
Proof.
  intros E. cbv zeta. unfold __init__. rewrite E.
  repeat split; reflexivity.
Qed.

Lemma init_sound (wrapped : Result XYDataSet) (data_name : option string)
    (dataset : option XYDataSet) (g : Globals) :
  result (__init__ wrapped data_name dataset g) = Ok tt ->
  sound (self_after (__init__ wrapped data_name dataset g)).
Proof.
  intros H. destruct (init_returns _ _ _ _ H) as (d & E).
  destruct (init_run wrapped data_name dataset g d E)
    as (_ & _ & _ & _ & _ & _ & _ & _ & Hx & Hy & _).
  unfold sound, coherent, exact. rewrite Hx, Hy. cbn [oid kind].
  split; [|split; discriminate].
  intros E'. exfalso. exact (Nat.neq_succ_diag_r _ E').
Qed.

(** [add_function] without a colour, for a recognized [pars], when it
    returns: the function received the colour at the cursor, and the cursor
    moved by one. *)
Lemma add_function_colour (function : UserFunction) (pars : Pars)
    (name : option string) (p : Plot) (g : Globals) (p' : Plot) (g' : Globals) :
  sound p ->
  recognized pars = true ->
  add_function function pars name None p g = mkRun (Ok tt) p' g' ->
  exists c,
    py_getitem (color_palette p) (color_count p) = Ok c /\
    user_functions_colors p' = (user_functions_colors p ++ [c])%list /\
    color_count p' = color_count p + 1 /\
    color_palette p' = color_palette p /\
    sound p'.
Proof.
  intros Hc Hrec H. rewrite add_function_run, Hrec in H.
  destruct (sample function pars p g) as [[fvals | e] g1]; [|discriminate H].
  apply (add_function_record_returns _ _ _ _ _ _ _ _ _ Hc) in H.
  destruct H as (_ & Hc' & _ & _ & (c & Hgiven & Hcolors) & Hcount & Hpal & _).
  exists c. cbn [colour_given cursor_after] in *.
  replace (color_count p + 1 - 1) with (color_count p) in Hgiven by lia.
  split; [exact Hgiven|]. split; [exact Hcolors|]. split; [exact Hcount|].
  split; [exact Hpal|exact Hc'].
Qed.

(** C6 (as amended).  On a freshly constructed Plot (the constructor has
    returned) the first dataset has taken palette[0]; two consecutive [add_function] calls with no colour
    (and parameters of a recognized form), when they return, are given two
    distinct colours: palette[1] and then palette[2]. *)
Theorem first_function_colours (wrapped : Result XYDataSet)
    (data_name : option string)
    (dataset : option XYDataSet) (g0 : Globals)
    (f1 f2 : UserFunction) (pars1 pars2 : Pars) (name1 name2 : option string)
    (p1 p2 : Plot) (g1 g2 : Globals) :
  let r0 := __init__ wrapped data_name dataset g0 in
  result r0 = Ok tt ->
  recognized pars1 = true ->
  recognized pars2 = true ->
  add_function f1 pars1 name1 None (self_after r0) (globals_after r0) =
    mkRun (Ok tt) p1 g1 ->
  add_function f2 pars2 name2 None p1 g1 = mkRun (Ok tt) p2 g2 ->
  datasets_colors (self_after r0) = ["#e41a1c"] /\
  exists c1 c2,
    user_functions_colors p1 = [c1] /\
    user_functions_colors p2 = [c1; c2] /\
    py_getitem Set1_9 1 = Ok c1 /\
    py_getitem Set1_9 2 = Ok c2 /\
    c1 <> c2.
Proof.
  intros r0 H0 Hrec1 Hrec2 H1 H2.
  destruct (init_returns _ _ _ _ H0) as (d & E).
  destruct (init_run wrapped data_name dataset g0 d E)
    as (_ & Hpal & Hcount & _ & Hdc & Hfc & _).
  fold r0 in Hpal, Hcount, Hdc, Hfc.
  pose proof (init_sound wrapped data_name dataset g0 H0) as Hc0. fold r0 in Hc0.
  destruct (add_function_colour f1 pars1 name1 _ _ _ _ Hc0 Hrec1 H1)
    as (c1 & Hg1 & Hcol1 & Hcnt1 & Hpal1 & Hc1).
  destruct (add_function_colour f2 pars2 name2 _ _ _ _ Hc1 Hrec2 H2)
    as (c2 & Hg2 & Hcol2 & Hcnt2 & Hpal2 & Hc2).
  rewrite Hpal, Hcount in Hg1.
  rewrite Hpal1, Hpal, Hcnt1, Hcount in Hg2.
  rewrite Hfc in Hcol1. rewrite Hcol1 in Hcol2.
  split; [exact Hdc|].
  exists c1, c2. repeat split; try assumption.
  vm_compute in Hg1, Hg2. congruence.
Qed.

Lemma first_function_colours_witness :
  let r1 := and_then fresh_plot (add_function identity_function ParsNone None None) in
  let r2 := and_then r1 (add_function identity_function (ParsList []) None None) in
  result r1 = Ok tt /\
  result r2 = Ok tt /\
  user_functions_colors (self_after r2) = ["#377eb8"; "#4daf4a"].
Proof.
  cbv zeta. unfold and_then, fresh_plot.
  match goal with
  | |- result ?r1 = _ /\ result ?r2 = _ /\ _ =>
      assert (H1 : result r1 = Ok tt) by (vm_compute; reflexivity);
      assert (H2 : result r2 = Ok tt) by (vm_compute; reflexivity);
      pose proof (first_function_colours no_arrays None (Some run_A) notebook
                    identity_function identity_function ParsNone (ParsList [])
                    None None (self_after r1) (self_after r2)
                    (globals_after r1) (globals_after r2)
                    eq_refl eq_refl eq_refl
                    (run_eta r1 tt H1) (run_eta r2 tt H2)) as H
  end.
  destruct H as (_ & c1 & c2 & _ & Hcols & Hc1 & Hc2 & _).
  split; [exact H1|]. split; [exact H2|].
  rewrite Hcols.
  change (py_getitem Set1_9 1) with (@Ok string "#377eb8") in Hc1.
  change (py_getitem Set1_9 2) with (@Ok string "#4daf4a") in Hc2.
  congruence.
Defined.

(** C6, the claim as stated fails: the first of two functions added to a
    fresh plot is given palette[1], not palette[0], which the constructor
    gave to the first dataset. *)
Lemma first_function_colour_is_not_palette_0 :
  let r1 := and_then fresh_plot (add_function identity_function ParsNone None None) in
  let r2 := and_then r1 (add_function identity_function ParsNone None None) in
  result r2 = Ok tt /\
  py_getitem Set1_9 0 = Ok "#e41a1c" /\
  py_getitem Set1_9 1 = Ok "#377eb8" /\
  datasets_colors (self_after r2) = ["#e41a1c"] /\
  user_functions_colors (self_after r2) = ["#377eb8"; "#4daf4a"] /\
  user_functions_colors (self_after r2) <> ["#e41a1c"; "#377eb8"].
Proof. vm_compute. repeat split; try reflexivity. discriminate. Qed.

(** *** Rendering *)

Lemma rendering_frame_refl (p : Plot) (g : Globals) : rendering_frame p g p g.
Proof. repeat split. apply Nat.le_refl. Qed.

Lemma rendering_frame_trans (p1 : Plot) (g1 : Globals) (p2 : Plot) (g2 : Globals)
    (p3 : Plot) (g3 : Globals) :
  rendering_frame p1 g1 p2 g2 -> rendering_frame p2 g2 p3 g3 ->
  rendering_frame p1 g1 p3 g3.
Proof.
  intros (H1 & H2 & H3) (H4 & H5 & H6).
  split; [congruence|]. split; [congruence|]. eapply Nat.le_trans; eassumption.
Qed.

Lemma rendering_frame_bump (p : Plot) (g : Globals) :
  rendering_frame p g p (bump_id g).
Proof. repeat split. cbn [next_id bump_id]. apply Nat.le_succ_diag_r. Qed.

Lemma rendering_frame_bkfigure (v : option BkObject) (p : Plot) (g : Globals) :
  rendering_frame p g (with_bkfigure v p) g.
Proof. repeat split. apply Nat.le_refl. Qed.

Lemma rendering_frame_bkres (v : option Figure) (p : Plot) (g : Globals) :
  rendering_frame p g (with_bkres v p) g.
Proof. repeat split. apply Nat.le_refl. Qed.

Section Respects_rendering.

Variable R : Plot -> Globals -> Plot -> Globals -> Prop.
Hypothesis R_refl : forall p g, R p g p g.
Hypothesis R_trans :
  forall p1 g1 p2 g2 p3 g3, R p1 g1 p2 g2 -> R p2 g2 p3 g3 -> R p1 g1 p3 g3.
Hypothesis R_bump : forall p g, R p g p (bump_id g).
Hypothesis R_bkfigure : forall v p g, R p g (with_bkfigure v p) g.
Hypothesis R_bkres : forall v p g, R p g (with_bkres v p) g.

Ltac respects_rendering :=
  repeat first
    [ apply (respects_ret _ R_refl)
    | apply (respects_raise _ R_refl)
    | apply (respects_lift _ R_refl)
    | apply (respects_self _ R_refl)
    | apply (respects_the_bkfigure _ R_refl R_trans)
    | apply (respects_the_bkres _ R_refl R_trans)
    | apply (respects_initialize_bokeh_figure _ R_refl R_trans R_bump)
    | apply (respects_plot_dataset_bkfigure _ R_refl R_trans R_bkfigure)
    | apply (respects_plot_dataset_bkres _ R_refl R_trans R_bkres)
    | apply (respects_plot_function_bkfigure _ R_refl R_trans R_bkfigure)
    | apply (respects_bi_gridplot _ R_bump)
    | apply respects_assign; intros; first [apply R_bkfigure | apply R_bkres]
    | apply (respects_bind _ R_trans); [|intros ?]
    | match goal with
      | |- respects _ (if ?b then _ else _) => destruct b
      | |- respects _ (match ?x with Some _ => _ | None => _ end) => destruct x
      end ].

Lemma respects_draw_fit_parameters (dataset : XYDataSet) (indices : list Z) :
  respects R (draw_fit_parameters dataset indices).
Proof.
  induction indices as [|i rest IH]; cbn [draw_fit_parameters];
    respects_rendering. exact IH.
Qed.

Lemma respects_draw_datasets (remaining : list XYDataSet) (count : Z) :
  respects R (draw_datasets remaining count).
Proof.
  revert count. induction remaining as [|dataset rest IH]; intros count;
    cbn [draw_datasets]; respects_rendering;
    first [apply respects_draw_fit_parameters | apply IH].
Qed.

Lemma respects_draw_functions (remaining : list (UserFunction * Pars * string))
    (xvals : list Q) (count : Z) :
  respects R (draw_functions remaining xvals count).
Proof.
  revert count. induction remaining as [|[[func pars] fname] rest IH];
    intros count; cbn [draw_functions]; respects_rendering. apply IH.
Qed.

Lemma respects_populate_bokeh_figure : respects R populate_bokeh_figure.
Proof.
  unfold populate_bokeh_figure.
  repeat first
    [ apply respects_draw_datasets
    | apply respects_draw_functions
    | progress respects_rendering ].
Qed.

End Respects_rendering.

(** Rendering leaves the configuration and the module-level state as they
    were, whether it returns or raises. *)
Lemma populate_bokeh_figure_frame :
  respects rendering_frame populate_bokeh_figure.
Proof.
  apply (respects_populate_bokeh_figure _ rendering_frame_refl
           rendering_frame_trans rendering_frame_bump
           rendering_frame_bkfigure rendering_frame_bkres).
Qed.

(** *** Two renderings of one configuration *)

(** Plots with the same configuration agree on every attribute that
    rendering reads. *)
Lemma same_configuration_fields (p p' : Plot) :
  configuration p' = configuration p ->
  datasets p' = datasets p /\
  datasets_colors p' = datasets_colors p /\
  errorband_sigma p' = errorband_sigma p /\
  show_residuals p' = show_residuals p /\
  x_range p' = x_range p /\
  y_range p' = y_range p /\
  x_range_margin p' = x_range_margin p /\
  dimensions p' = dimensions p /\
  user_functions p' = user_functions p /\
  user_functions_pars p' = user_functions_pars p /\
  user_functions_names p' = user_functions_names p /\
  user_functions_colors p' = user_functions_colors p /\
  axes p' = axes p /\
  legend_location p' = legend_location p /\
  labels p' = labels p.
Proof.
  intros H.
  repeat split;
    match goal with
    | |- ?f p' = ?f p => exact (f_equal f H)
    end.
Qed.

Lemma shift_add_mark (k : nat) (m : Mark) (f : Figure) :
  shift_figure k (add_mark m f) = add_mark m (shift_figure k f).
Proof. reflexivity. Qed.

Lemma shift_add_layout (k : nat) (l : Label) (f : Figure) :
  shift_figure k (add_layout l f) = add_layout l (shift_figure k f).
Proof. reflexivity. Qed.

Lemma shift_set_legend_location (k : nat) (loc : string) (f : Figure) :
  shift_figure k (set_legend_location loc f) =
  set_legend_location loc (shift_figure k f).
Proof. reflexivity. Qed.

Lemma renders_alike_with_bkfigure (k : nat) (obj : BkObject) (p p' : Plot) :
  renders_alike k p p' ->
  renders_alike k (with_bkfigure (Some obj) p)
                (with_bkfigure (Some (shift_object k obj)) p').
Proof.
  intros (Hc & Hf & Hr). split; [|split].
  - change (configuration p' = configuration p). exact Hc.
  - reflexivity.
  - exact Hr.
Qed.

Lemma renders_alike_with_bkres (k : nat) (f : Figure) (p p' : Plot) :
  renders_alike k p p' ->
  renders_alike k (with_bkres (Some f) p)
                (with_bkres (Some (shift_figure k f)) p').
Proof.
  intros (Hc & Hf & Hr). split; [|split].
  - change (configuration p' = configuration p). exact Hc.
  - exact Hf.
  - intros _. reflexivity.
Qed.

Lemma allocates_alike_bump (k : nat) (g g' : Globals) :
  allocates_alike k g g' -> allocates_alike k (bump_id g) (bump_id g').
Proof.
  intros [Ha Hn]. split.
  - exact Ha.
  - cbn [next_id bump_id]. rewrite Hn. symmetry. apply Nat.add_succ_r.
Qed.

(** Sequencing two pairs of runs that end alike. *)
Lemma ends_alike_bind (k : nat) {A B : Type} (V : A -> A -> Prop)
    (W : B -> B -> Prop) (c c' : M A) (f f' : A -> M B)
    (p p' : Plot) (g g' : Globals) :
  ends_alike k V (c p g) (c' p' g') ->
  (forall a a' q h q' h',
      V a a' -> renders_alike k q q' -> allocates_alike k h h' ->
      ends_alike k W (f a q h) (f' a' q' h')) ->
  ends_alike k W (bind c f p g) (bind c' f' p' g').
Proof.
  intros Hres Hk. unfold bind, ends_alike in *.
  destruct (c p g) as [[a | e] q h], (c' p' g') as [[a' | e'] q' h'];
    cbn [result self_after globals_after] in *; try contradiction.
  - destruct Hres as (Hv & Hp & Hg). apply Hk; assumption.
  - exact Hres.
Qed.

Lemma ends_alike_lift (k : nat) {A : Type} (r : Result A)
    (p p' : Plot) (g g' : Globals) :
  renders_alike k p p' -> allocates_alike k g g' ->
  ends_alike k eq (lift r p g) (lift r p' g').
Proof.
  intros Hp Hg. unfold ends_alike, lift.
  cbn [result self_after globals_after].
  destruct r; [split; [reflexivity | split; assumption] | reflexivity].
Qed.

Lemma ends_alike_ret (k : nat) {A : Type} (V : A -> A -> Prop) (a a' : A)
    (p p' : Plot) (g g' : Globals) :
  V a a' -> renders_alike k p p' -> allocates_alike k g g' ->
  ends_alike k V (ret a p g) (ret a' p' g').
Proof. intros Hv Hp Hg. split; [exact Hv|]. split; assumption. Qed.

Lemma ends_alike_the_bkfigure (k : nat) (p p' : Plot) (g g' : Globals) :
  renders_alike k p p' -> allocates_alike k g g' ->
  ends_alike k (fun f f' => f' = shift_figure k f)
             (the_bkfigure p g) (the_bkfigure p' g').
Proof.
  intros Hp Hg. pose proof Hp as (_ & Hf & _).
  unfold the_bkfigure. rewrite !bind_self. rewrite Hf.
  destruct (bkfigure p) as [[f | id rows]|]; cbn [option_map shift_object];
    first [ reflexivity | split; [reflexivity | split; assumption] ].
Qed.

Lemma ends_alike_the_bkres (k : nat) (p p' : Plot) (g g' : Globals) :
  show_residuals p = true ->
  renders_alike k p p' -> allocates_alike k g g' ->
  ends_alike k (fun f f' => f' = shift_figure k f)
             (the_bkres p g) (the_bkres p' g').
Proof.
  intros Hshow Hp Hg. pose proof Hp as (_ & _ & Hr).
  unfold the_bkres. rewrite !bind_self. rewrite (Hr Hshow).
  destruct (bkres p) as [f|]; cbn [option_map];
    first [ reflexivity | split; [reflexivity | split; assumption] ].
Qed.

Ltac forget_states :=
  repeat match goal with
         | H : renders_alike _ _ _ |- _ => clear H
         | H : allocates_alike _ _ _ |- _ => clear H
         end.

Ltac alike_bind L :=
  eapply ends_alike_bind;
  [ eapply L; eassumption
  | forget_states; intros ? ? ? ? ? ? ? ? ?; cbv beta in *; subst ].

Ltac use_configuration :=
  match goal with
  | Hp : renders_alike _ ?p ?p' |- _ =>
      let F := fresh "F" in
      pose proof (same_configuration_fields p p' (proj1 Hp)) as F;
      decompose [and] F; clear F;
      repeat match goal with
             | E : ?f p' = ?f p |- _ => rewrite ?E; clear E
             end
  end.

Lemma ends_alike_plot_dataset_bkfigure (k : nat) (dataset : XYDataSet)
    (residual : bool) (data_color : string) (p p' : Plot) (g g' : Globals) :
  renders_alike k p p' -> allocates_alike k g g' ->
  ends_alike k any_value
             (plot_dataset_bkfigure dataset residual data_color p g)
             (plot_dataset_bkfigure dataset residual data_color p' g').
Proof.
  intros Hp Hg. unfold plot_dataset_bkfigure.
  alike_bind ends_alike_the_bkfigure.
  split; [exact I|]. split; [|assumption].
  match goal with
  | Hq : renders_alike _ ?q ?q' |- _ =>
      exact (renders_alike_with_bkfigure k
               (BkFigure (add_mark (DatasetMark dataset residual data_color) a))
               q q' Hq)
  end.
Qed.

Lemma ends_alike_plot_dataset_bkres (k : nat) (dataset : XYDataSet)
    (residual : bool) (data_color : string) (p p' : Plot) (g g' : Globals) :
  show_residuals p = true ->
  renders_alike k p p' -> allocates_alike k g g' ->
  ends_alike k any_value
             (plot_dataset_bkres dataset residual data_color p g)
             (plot_dataset_bkres dataset residual data_color p' g').
Proof.
  intros Hshow Hp Hg. unfold plot_dataset_bkres.
  eapply ends_alike_bind;
    [ apply ends_alike_the_bkres; assumption
    | forget_states; intros ? ? ? ? ? ? ? ? ?; cbv beta in *; subst ].
  split; [exact I|]. split; [|assumption].
  match goal with
  | Hq : renders_alike _ ?q ?q' |- _ =>
      exact (renders_alike_with_bkres k
               (add_mark (DatasetMark dataset residual data_color) a) q q' Hq)
  end.
Qed.

Lemma ends_alike_plot_function_bkfigure (k : nat) (function : Callable)
    (xdata : list Q) (pars : Pars) (n : Z) (legend_name color : string)
    (errorbandfactor : Q) (p p' : Plot) (g g' : Globals) :
  renders_alike k p p' -> allocates_alike k g g' ->
  ends_alike k any_value
    (plot_function_bkfigure function xdata pars n legend_name color
                            errorbandfactor p g)
    (plot_function_bkfigure function xdata pars n legend_name color
                            errorbandfactor p' g').
Proof.
  intros Hp Hg. unfold plot_function_bkfigure.
  alike_bind ends_alike_the_bkfigure.
  rewrite !bind_assign.
  split; [exact I|]. split; [|assumption].
  match goal with
  | Hq : renders_alike _ ?q ?q' |- _ =>
      exact (renders_alike_with_bkfigure k
               (BkFigure (add_mark (FunctionMark function xdata pars n legend_name
                                                 color errorbandfactor) a))
               q q' Hq)
  end.
Qed.

Lemma ends_alike_draw_fit_parameters (k : nat) (dataset : XYDataSet)
    (indices : list Z) (p p' : Plot) (g g' : Globals) :
  renders_alike k p p' -> allocates_alike k g g' ->
  ends_alike k any_value (draw_fit_parameters dataset indices p g)
             (draw_fit_parameters dataset indices p' g').
Proof.
  revert p p' g g'. induction indices as [|i rest IH]; intros p p' g g' Hp Hg;
    cbn [draw_fit_parameters].
  - apply ends_alike_ret; [exact I | assumption | assumption].
  - alike_bind @ends_alike_lift.
    alike_bind @ends_alike_lift.
    alike_bind @ends_alike_lift.
    alike_bind @ends_alike_lift.
    alike_bind ends_alike_the_bkfigure.
    rewrite !bind_assign.
    apply IH; [|assumption].
    match goal with
    | Hq : renders_alike _ ?q ?q' |- _ =>
        exact (renders_alike_with_bkfigure k (BkFigure (add_layout _ a)) q q' Hq)
    end.
Qed.

Ltac alike_ret := apply ends_alike_ret; [exact I | assumption | assumption].

Lemma ends_alike_draw_datasets (k : nat) (remaining : list XYDataSet)
    (count : Z) (p p' : Plot) (g g' : Globals) :
  renders_alike k p p' -> allocates_alike k g g' ->
  ends_alike k any_value (draw_datasets remaining count p g)
             (draw_datasets remaining count p' g').
Proof.
  revert count p p' g g'.
  induction remaining as [|dataset rest IH]; intros count p p' g g' Hp Hg;
    cbn [draw_datasets].
  - alike_ret.
  - rewrite !bind_self. use_configuration.
    alike_bind @ends_alike_lift.
    alike_bind ends_alike_plot_dataset_bkfigure.
    eapply ends_alike_bind with (V := any_value).
    + destruct (0 <? nfits dataset); [|alike_ret].
      alike_bind @ends_alike_lift.
      alike_bind @ends_alike_lift.
      alike_bind @ends_alike_lift.
      rewrite !bind_self. use_configuration.
      alike_bind ends_alike_plot_function_bkfigure.
      eapply ends_alike_bind with (V := any_value).
      * destruct (count <? 1); [|alike_ret].
        alike_bind @ends_alike_lift.
        apply ends_alike_draw_fit_parameters; assumption.
      * forget_states. intros ? ? ? ? ? ? _ ? ?.
        rewrite !bind_self. use_configuration.
        match goal with
        | Hq : renders_alike _ ?q _ |- _ =>
            destruct (show_residuals q) eqn:Hshow; [|alike_ret]
        end.
        apply ends_alike_plot_dataset_bkres; assumption.
    + forget_states. intros ? ? ? ? ? ? _ ? ?.
      apply IH; assumption.
Qed.

Lemma ends_alike_draw_functions (k : nat)
    (remaining : list (UserFunction * Pars * string)) (xvals : list Q)
    (count : Z) (p p' : Plot) (g g' : Globals) :
  renders_alike k p p' -> allocates_alike k g g' ->
  ends_alike k any_value (draw_functions remaining xvals count p g)
             (draw_functions remaining xvals count p' g').
Proof.
  revert count p p' g g'.
  induction remaining as [|[[func pars] fname] rest IH];
    intros count p p' g g' Hp Hg; cbn [draw_functions].
  - alike_ret.
  - rewrite !bind_self. use_configuration.
    alike_bind @ends_alike_lift.
    alike_bind ends_alike_plot_function_bkfigure.
    apply IH; assumption.
Qed.

Lemma bind_raise {A B : Type} (e : PyExc) (k : A -> M B) (p : Plot) (g : Globals) :
  bind (raise e) k p g = mkRun (Raise e) p g.
Proof. reflexivity. Qed.

Lemma bind_dict_getitem {V B : Type} (d : gmap string V) (key : string)
    (k : V -> M B) (p : Plot) (g : Globals) :
  bind (dict_getitem d key) k p g =
  match d !! key with
  | Some v => k v p g
  | None => mkRun (Raise KeyError) p g
  end.
Proof. unfold dict_getitem. destruct (d !! key); reflexivity. Qed.

Ltac same_raise Hg :=
  split; [reflexivity | split; [reflexivity | split; [exact Hg | reflexivity]]].

(** A new figure is built from the configuration alone (the residual
    figure also from the x-range of the figure under construction); two
    plots that agree on those build the same figure up to identities, and
    neither changes. *)
Lemma initialize_bokeh_figure_alike (k : nat) (residuals : bool)
    (p p' : Plot) (g g' : Globals) :
  configuration p' = configuration p ->
  bkfigure p' = option_map (shift_object k) (bkfigure p) \/ residuals = false ->
  allocates_alike k g g' ->
  let r := initialize_bokeh_figure residuals p g in
  let r' := initialize_bokeh_figure residuals p' g' in
  self_after r = p /\
  self_after r' = p' /\
  allocates_alike k (globals_after r) (globals_after r') /\
  result r' = map_result (shift_figure k) (result r).
Proof.
  intros Hc Hfig Hg. cbv zeta. unfold initialize_bokeh_figure.
  rewrite !bind_self.
  destruct (same_configuration_fields p p' Hc)
    as (Fd & _ & _ & _ & Fx & Fy & _ & Fdim & _ & _ & _ & _ & Fax & _ & Flab).
  rewrite Fd, Fx, Fy, Fdim, Fax, Flab.
  destruct residuals; cbn [negb]; cbv iota.
  - (* the residual figure *)
    destruct Hfig as [Hfig | Hfig]; [|discriminate Hfig].
    rewrite !bind_lift.
    destruct (py_getitem (dimensions p) 0) as [w|e]; [|same_raise Hg].
    rewrite !bind_lift.
    destruct (py_getitem (dimensions p) 1) as [h|e]; [|same_raise Hg].
    rewrite !bind_lift.
    destruct (py_getitem (datasets p) (-1)) as [last|e]; [|same_raise Hg].
    unfold get_yres_range. rewrite !bind_new_list.
    unfold the_bkfigure. rewrite !bind_bind, !bind_self. rewrite Hfig.
    pose proof (allocates_alike_bump k g g' Hg) as Hg1.
    destruct (bkfigure p) as [[main | id rows]|]; cbn [option_map shift_object];
      rewrite ?bind_ret, ?bind_raise; try same_raise Hg1.
    rewrite !bind_dict_getitem.
    destruct (labels p !! "xtitle") as [xl|]; [|same_raise Hg1].
    unfold bp_figure. cbn [result self_after globals_after map_result].
    split; [reflexivity|]. split; [reflexivity|].
    split; [apply allocates_alike_bump; exact Hg1|].
    destruct Hg1 as [_ Hn]. rewrite Hn. reflexivity.
  - (* the main figure *)
    rewrite !bind_lift.
    destruct (py_getitem (dimensions p) 0) as [w|e]; [|same_raise Hg].
    rewrite !bind_lift.
    destruct (py_getitem (dimensions p) 1) as [h|e]; [|same_raise Hg].
    rewrite !bind_dict_getitem.
    destruct (axes p !! "yscale") as [ys|]; [|same_raise Hg].
    rewrite !bind_dict_getitem.
    destruct (axes p !! "xscale") as [xs|]; [|same_raise Hg].
    rewrite !bind_dict_getitem.
    destruct (labels p !! "title") as [t|]; [|same_raise Hg].
    rewrite !bind_dict_getitem.
    destruct (labels p !! "xtitle") as [xl|]; [|same_raise Hg].
    rewrite !bind_dict_getitem.
    destruct (labels p !! "ytitle") as [yl|]; [|same_raise Hg].
    unfold bp_figure. cbn [result self_after globals_after map_result].
    split; [reflexivity|]. split; [reflexivity|].
    split; [apply allocates_alike_bump; exact Hg|].
    destruct Hg as [_ Hn]. rewrite Hn. reflexivity.
Qed.

Lemma bind_bi_gridplot {B : Type} (rows : list (list Figure))
    (k : BkObject -> M B) (p : Plot) (g : Globals) :
  bind (bi_gridplot rows) k p g = k (BkGrid (next_id g) rows) p (bump_id g).
Proof. reflexivity. Qed.

Lemma run_split {A : Type} (r : Run A) :
  r = mkRun (result r) (self_after r) (globals_after r).
Proof. destruct r; reflexivity. Qed.

(** Rendering twice: from two states with the same configuration, and
    allocators [k] apart, [populate_bokeh_figure] raises the same exception
    or returns the same object up to identities, which are [k] apart.
    Whatever [bkfigure] and [bkres] held before plays no part. *)
Lemma populate_bokeh_figure_alike (k : nat) (p p' : Plot) (g g' : Globals) :
  configuration p' = configuration p ->
  allocates_alike k g g' ->
  result (populate_bokeh_figure p' g') =
  shift_result k (result (populate_bokeh_figure p g)).
Proof.
  intros Hc Hg.
  assert (Hends : ends_alike k (fun obj obj' => obj' = shift_object k obj)
                    (populate_bokeh_figure p g) (populate_bokeh_figure p' g')).
  { unfold populate_bokeh_figure.
    destruct (initialize_bokeh_figure_alike k false p p' g g' Hc
                (or_intror eq_refl) Hg) as (Hs & Hs' & Hg1 & Hr).
    cbv zeta in Hs, Hs', Hg1, Hr.
    rewrite (bind_run _ _ _ _ _ _ _ (run_split (initialize_bokeh_figure false p g))).
    rewrite (bind_run _ _ _ _ _ _ _ (run_split (initialize_bokeh_figure false p' g'))).
    rewrite Hr, Hs, Hs'.
    set (gA := globals_after (initialize_bokeh_figure false p g)) in *.
    set (gA' := globals_after (initialize_bokeh_figure false p' g')) in *.
    clearbody gA gA'.
    destruct (result (initialize_bokeh_figure false p g)) as [fig|e];
      cbn [map_result]; [|reflexivity].
    rewrite !bind_assign. rewrite !bind_self. norm.
    destruct (same_configuration_fields p p' Hc)
      as (_ & _ & _ & Fshow & _).
    rewrite Fshow.
    set (pA := with_bkfigure (Some (BkFigure fig)) p).
    set (pA' := with_bkfigure (Some (BkFigure (shift_figure k fig))) p').
    assert (HcA : configuration pA' = configuration pA) by exact Hc.
    assert (HfA : bkfigure pA' = option_map (shift_object k) (bkfigure pA))
      by reflexivity.
    eapply ends_alike_bind with (V := any_value).
    - (* the residual figure, when residuals are shown *)
      destruct (show_residuals p) eqn:Hshow.
      + destruct (initialize_bokeh_figure_alike k true pA pA' gA gA' HcA
                    (or_introl HfA) Hg1) as (Ht & Ht' & Hg2 & Hr2).
        cbv zeta in Ht, Ht', Hg2, Hr2.
        rewrite (bind_run _ _ _ _ _ _ _
                   (run_split (initialize_bokeh_figure true pA gA))).
        rewrite (bind_run _ _ _ _ _ _ _
                   (run_split (initialize_bokeh_figure true pA' gA'))).
        rewrite Hr2, Ht, Ht'.
        destruct (result (initialize_bokeh_figure true pA gA)) as [res|e];
          cbn [map_result]; [|reflexivity].
        split; [exact I|]. split; [|exact Hg2].
        split; [exact Hc|]. split; [reflexivity|]. intros _. reflexivity.
      + split; [exact I|]. split; [|exact Hg1].
        split; [exact Hc|]. split; [reflexivity|].
        intros Habs. exfalso.
        change (show_residuals p = true) in Habs. congruence.
    - forget_states. intros ? ? ? ? ? ? _ ? ?.
      rewrite !bind_self. use_configuration.
      alike_bind ends_alike_draw_datasets.
      rewrite !bind_self. use_configuration.
      rewrite !bind_lift, !range_getitem_0. cbv beta iota.
      rewrite !bind_lift, !range_getitem_1. cbv beta iota.
      alike_bind ends_alike_draw_functions.
      alike_bind ends_alike_the_bkfigure.
      rewrite !bind_self. use_configuration.
      rewrite !bind_assign. rewrite !bind_self. norm. use_configuration.
      match goal with
      | Hq : renders_alike _ ?q ?q' |- context [set_legend_location ?loc ?f] =>
          pose proof (renders_alike_with_bkfigure k
                        (BkFigure (set_legend_location loc f)) q q' Hq) as HS;
          cbn [shift_object] in HS; rewrite shift_set_legend_location in HS;
          pose proof (proj1 (proj2 (proj2 (proj2 (same_configuration_fields q q'
                        (proj1 Hq)))))) as Fshow';
          clear Hq
      end.
      match goal with
      | HS : renders_alike _ ?s ?s' |- _ => set (S := s) in *; set (S' := s') in *
      end.
      eapply ends_alike_bind with (V := any_value).
      + match goal with
        | |- context [show_residuals ?q] => destruct (show_residuals q) eqn:Hshow
        end; [|alike_ret].
        unfold the_bkfigure. rewrite !bind_bind, !bind_self.
        subst S S'. norm. cbv beta iota. rewrite !bind_ret.
        eapply ends_alike_bind;
          [ apply ends_alike_the_bkres; [exact Hshow | exact HS | assumption]
          | forget_states; intros ? ? ? ? ? ? ? ? ?; cbv beta in *; subst ].
        rewrite !bind_bi_gridplot. cbv beta.
        match goal with
        | Hh : allocates_alike _ ?h ?h' |- _ =>
            rewrite (proj2 Hh);
            pose proof (allocates_alike_bump k h h' Hh) as Hb
        end.
        split; [exact I|]. split; [|exact Hb].
        match goal with
        | Hq : renders_alike _ ?q ?q' |- context [BkGrid ?id ?rows] =>
            exact (renders_alike_with_bkfigure k (BkGrid id rows) q q' Hq)
        end.
      + forget_states. intros ? ? ? ? ? ? _ ? ?.
        rewrite !bind_self.
        match goal with
        | Hq : renders_alike _ ?q ?q' |- _ =>
            rewrite (proj1 (proj2 Hq));
            destruct (bkfigure q) as [obj|]; cbn [option_map];
            [ apply ends_alike_ret; [reflexivity | assumption | assumption]
            | reflexivity ]
        end. }
  unfold ends_alike in Hends.
  destruct (result (populate_bokeh_figure p g)) as [obj|e],
    (result (populate_bokeh_figure p' g')) as [obj'|e']; try contradiction.
  - destruct Hends as (-> & _). reflexivity.
  - subst. reflexivity.
Qed.

Ltac frame_rendering :=
  repeat first
    [ apply (respects_ret _ rendering_frame_refl)
    | apply (respects_raise _ rendering_frame_refl)
    | apply (respects_lift _ rendering_frame_refl)
    | apply (respects_self _ rendering_frame_refl)
    | apply (respects_the_bkfigure _ rendering_frame_refl rendering_frame_trans)
    | apply (respects_the_bkres _ rendering_frame_refl rendering_frame_trans)
    | apply (respects_initialize_bokeh_figure _ rendering_frame_refl
               rendering_frame_trans rendering_frame_bump)
    | apply (respects_draw_datasets _ rendering_frame_refl rendering_frame_trans
               rendering_frame_bkfigure rendering_frame_bkres)
    | apply (respects_draw_functions _ rendering_frame_refl rendering_frame_trans
               rendering_frame_bkfigure)
    | apply (respects_bi_gridplot _ rendering_frame_bump)
    | apply respects_assign; intros;
      first [apply rendering_frame_bkfigure | apply rendering_frame_bkres]
    | apply (respects_bind _ rendering_frame_trans); [|intros ?]
    | match goal with
      | |- respects _ (if ?b then _ else _) => destruct b
      | |- respects _ (match ?x with Some _ => _ | None => _ end) => destruct x
      end ].

(** The main figure, when it is built, takes the next identity. *)
Lemma initialize_main_figure_allocates (p : Plot) (g : Globals) (fig : Figure) :
  result (initialize_bokeh_figure false p g) = Ok fig ->
  globals_after (initialize_bokeh_figure false p g) = bump_id g /\
  figure_id fig = next_id g.
Proof.
  unfold initialize_bokeh_figure. rewrite bind_self. cbn [negb]. cbv iota.
  rewrite bind_lift.
  destruct (py_getitem (dimensions p) 0) as [w|e]; [|discriminate].
  rewrite bind_lift.
  destruct (py_getitem (dimensions p) 1) as [h|e]; [|discriminate].
  rewrite bind_dict_getitem.
  destruct (axes p !! "yscale") as [ys|]; [|discriminate].
  rewrite bind_dict_getitem.
  destruct (axes p !! "xscale") as [xs|]; [|discriminate].
  rewrite bind_dict_getitem.
  destruct (labels p !! "title") as [t|]; [|discriminate].
  rewrite bind_dict_getitem.
  destruct (labels p !! "xtitle") as [xl|]; [|discriminate].
  rewrite bind_dict_getitem.
  destruct (labels p !! "ytitle") as [yl|]; [|discriminate].
  unfold bp_figure. cbn [result globals_after].
  intros [= <-]. split; reflexivity.
Qed.

(** A rendering that returns has taken at least one new identity. *)
Lemma populate_bokeh_figure_allocates (p : Plot) (g : Globals) (obj : BkObject) :
  result (populate_bokeh_figure p g) = Ok obj ->
  (next_id g < next_id (globals_after (populate_bokeh_figure p g)))%nat.
Proof.
  unfold populate_bokeh_figure.
  rewrite (bind_run _ _ _ _ _ _ _ (run_split (initialize_bokeh_figure false p g))).
  destruct (result (initialize_bokeh_figure false p g)) as [fig|e] eqn:E;
    [|discriminate].
  destruct (initialize_main_figure_allocates p g fig E) as [Hg _].
  rewrite Hg. intros _.
  match goal with
  | |- (_ < next_id (globals_after (?c ?q ?h)))%nat =>
      assert (Hframe : respects rendering_frame c) by frame_rendering;
      destruct (Hframe q h) as (_ & _ & Hle)
  end.
  eapply Nat.lt_le_trans; [|exact Hle].
  cbn [next_id bump_id]. apply Nat.lt_succ_diag_r.
Qed.

(** C8.  [populate_bokeh_figure] reads the plot: whether it returns or
    raises, it leaves the accumulated configuration (every attribute but
    the two that hold the figures it builds) and the module-level state as
    they were, taking only new object identities.  Called again on the
    state it left, it raises the same exception or returns the same figure
    up to object identities; the identities of the second figure are those
    of the first moved up by the number [k] of objects the first call
    created, at least one: the second figure is built anew, nothing is
    kept from the first call. *)
Theorem rendering_is_a_repeatable_read (p : Plot) (g : Globals) :
  let r1 := populate_bokeh_figure p g in
  let r2 := populate_bokeh_figure (self_after r1) (globals_after r1) in
  configuration (self_after r1) = configuration p /\
  configuration (self_after r2) = configuration p /\
  ambient (globals_after r1) = ambient g /\
  ambient (globals_after r2) = ambient g /\
  exists k,
    next_id (globals_after r1) = (k + next_id g)%nat /\
    result r2 = shift_result k (result r1) /\
    (forall obj, result r1 = Ok obj -> (1 <= k)%nat).
Proof.
  intros r1 r2.
  destruct (populate_bokeh_figure_frame p g) as (Hc1 & Ha1 & Hn1).
  destruct (populate_bokeh_figure_frame (self_after r1) (globals_after r1))
    as (Hc2 & Ha2 & Hn2).
  fold r1 in Hc1, Ha1, Hn1. fold r2 in Hc2, Ha2, Hn2.
  split; [exact Hc1|]. split; [congruence|].
  split; [exact Ha1|]. split; [congruence|].
  exists (next_id (globals_after r1) - next_id g)%nat.
  assert (Hk : next_id (globals_after r1) =
               (next_id (globals_after r1) - next_id g + next_id g)%nat)
    by (symmetry; apply Nat.sub_add; exact Hn1).
  split; [exact Hk|]. split.
  - apply populate_bokeh_figure_alike; [exact Hc1|].
    split; [exact Ha1 | exact Hk].
  - intros obj Hobj.
    pose proof (populate_bokeh_figure_allocates p g obj Hobj) as Hlt.
    fold r1 in Hlt. lia.
Qed.

Lemma rendering_is_a_repeatable_read_witness :
  let r1 := and_then fitted_plot populate_bokeh_figure in
  let r2 := and_then r1 populate_bokeh_figure in
  show_residuals (self_after fitted_plot) = true /\
  (exists id rows, result r1 = Ok (BkGrid id rows)) /\
  result r2 = shift_result 4 (result r1).
Proof.
  cbv zeta. unfold and_then.
  set (p := self_after fitted_plot). set (g := globals_after fitted_plot).
  destruct (rendering_is_a_repeatable_read p g)
    as (_ & _ & _ & _ & k & Hk & Hres & _).
  cbv zeta in Hk, Hres.
  assert (Hn : next_id (globals_after (populate_bokeh_figure p g)) =
               (4 + next_id g)%nat) by (vm_compute; reflexivity).
  assert (Hk4 : k = 4%nat) by lia.
  rewrite Hk4 in Hres.
  split; [vm_compute; reflexivity|].
  split; [|exact Hres].
  vm_compute. eexists _, _. reflexivity.
Defined.

(** ** Further properties of the class *)

(** *** Construction and ranges *)

(** X1.  A dataset passed explicitly is used in preference to the raw
    arrays, and then the constructor returns.  With no dataset passed the
    constructor wraps the raw arrays in a new dataset: when that raises, the
    constructor raises the same exception; when it returns, so does the
    constructor.  Whenever the constructor returns, the dataset is the only
    one and has the first palette colour; the ranges are its x and y extents
    widened by the margin 0.5, held in two distinct new lists; no function
    is recorded, residuals are off, and the labels are derived from the
    dataset. *)
Theorem constructor_state (wrapped : Result XYDataSet) (data_name : option string)
    (dataset : option XYDataSet) (g : Globals) :
  let r := __init__ wrapped data_name dataset g in
  match (match dataset with Some d => Ok d | None => wrapped end) with
  | Raise e => result r = Raise e
  | Ok d =>
      result r = Ok tt /\
      datasets (self_after r) = [d] /\
      datasets_colors (self_after r) = ["#e41a1c"] /\
      color_count (self_after r) = 1 /\
      interval (x_range (self_after r)) = padded (x_extent d) (1 # 2) /\
      interval (y_range (self_after r)) = padded (y_extent d) (1 # 2) /\
      oid (x_range (self_after r)) <> oid (y_range (self_after r)) /\
      user_functions (self_after r) = [] /\
      user_functions_count (self_after r) = 0 /\
      show_residuals (self_after r) = false /\
      dimensions (self_after r) = [600; 400] /\
      labels (self_after r) !! "title" = Some (Some (name d)) /\
      labels (self_after r) !! "xtitle" =
        Some (Some (xname d ++ " [" ++ xunits d ++ "]")) /\
      labels (self_after r) !! "ytitle" =
        Some (Some (yname d ++ " [" ++ yunits d ++ "]")) /\
      labels (self_after r) !! "data" = Some data_name
  end.
Proof.
  cbv zeta. unfold __init__.
  destruct (match dataset with Some d => Ok d | None => wrapped end) as [d|e].
  - repeat split; try reflexivity;
      cbn [oid x_range y_range]; apply Nat.neq_succ_diag_r.
  - reflexivity.
Qed.

(** X2.  [set_range_from_dataset] rebinds both ranges to new lists holding
    the extents of the dataset widened by the current margins: whatever the
    ranges were, and whether or not they were one shared list, they are two
    distinct lists afterwards, and no other attribute changes. *)
Theorem set_range_from_dataset_rebinds (dataset : XYDataSet) (p : Plot) (g : Globals) :
  let r := set_range_from_dataset dataset p g in
  result r = Ok tt /\
  x_range (self_after r) =
    mkRange (next_id g) TList (fst (x_extent dataset) - x_range_margin p)%Q
            (snd (x_extent dataset) + x_range_margin p)%Q /\
  y_range (self_after r) =
    mkRange (S (next_id g)) TList (fst (y_extent dataset) - y_range_margin p)%Q
            (snd (y_extent dataset) + y_range_margin p)%Q /\
  coherent (self_after r) /\
  outside_ranges (self_after r) = outside_ranges p /\
  globals_after r = bump_id (bump_id g).
Proof.
  cbv zeta. split; [reflexivity|]. split; [reflexivity|]. split; [reflexivity|].
  split; [|split; reflexivity].
  intros E. exfalso. cbn [oid] in E.
  change (next_id g = S (next_id g)) in E.
  exact (Nat.neq_succ_diag_r _ E).
Qed.

(** *** Showing *)

(** X3.  In a notebook, and for an output other than 'file',
    [set_bokeh_output] never raises and never touches the plot; it calls
    [bokeh.io.output_notebook] exactly when the module-level flag is not
    yet set, and sets the flag.  A second call therefore changes nothing:
    the notebook output is initialised once. *)
Theorem output_notebook_is_called_once (output : string) (p : Plot) (g : Globals) :
  String.eqb output "file" = false ->
  in_notebook g = true ->
  let r1 := set_bokeh_output output p g in
  let r2 := set_bokeh_output output (self_after r1) (globals_after r1) in
  result r1 = Ok tt /\
  self_after r1 = p /\
  bokeh_ouput_notebook_called (globals_after r1) = true /\
  bokeh_calls (globals_after r1) =
    (bokeh_calls g ++
     (if bokeh_ouput_notebook_called g then [] else [OutputNotebook]))%list /\
  r2 = mkRun (Ok tt) p (globals_after r1).
Proof.
  intros Hfile Hnb. cbv zeta. unfold set_bokeh_output.
  rewrite bind_globals, Hfile, Hnb. cbn [negb orb]. cbv iota.
  destruct (bokeh_ouput_notebook_called g) eqn:Hflag; cbn [negb]; cbv iota.
  - cbn [ret result self_after globals_after].
    rewrite bind_globals, ?Hfile, Hnb, Hflag. cbn [negb orb]. cbv iota.
    rewrite app_nil_r. repeat split.
  - rewrite bind_assign_global. unfold assign_global.
    cbn [result self_after globals_after].
    rewrite bind_globals, ?Hfile.
    cbn [in_notebook bokeh_ouput_notebook_called set_bokeh_ouput_notebook_called
         log_bokeh bokeh_calls].
    rewrite Hnb. cbn [negb orb]. cbv iota. repeat split.
Qed.

Lemma output_notebook_is_called_once_witness :
  let g := globals_after fresh_plot in
  let r1 := set_bokeh_output "inline" (self_after fresh_plot) g in
  bokeh_calls (globals_after r1) = [OutputNotebook] /\
  set_bokeh_output "inline" (self_after r1) (globals_after r1) =
    mkRun (Ok tt) (self_after fresh_plot) (globals_after r1).
Proof.
  cbv zeta.
  destruct (output_notebook_is_called_once "inline" (self_after fresh_plot)
              (globals_after fresh_plot) eq_refl eq_refl)
    as (_ & Hself & _ & Hcalls & Hsecond).
  split; [exact Hcalls|]. exact Hsecond.
Defined.

(** X4.  [show] with output 'file', or outside a notebook, cannot work:
    [set_bokeh_output] reads [self.attributes], which the class never
    creates.  With the file name present in [plot_para] the call raises
    AttributeError before anything is rendered or shown; the plot and the
    module-level state are as they were. *)
Theorem show_to_file_raises (output : string) (populate_figure : bool)
    (p : Plot) (g : Globals) (filename : string) :
  String.eqb output "file" || negb (in_notebook g) = true ->
  plot_para p !! "filename" = Some filename ->
  show output populate_figure p g = mkRun (Raise AttributeError) p g.
Proof.
  intros Hout Hname. unfold show, set_bokeh_output.
  rewrite bind_bind, bind_globals, Hout.
  rewrite bind_bind, bind_self. rewrite bind_bind, bind_dict_getitem, Hname.
  reflexivity.
Qed.

Lemma show_to_file_raises_witness :
  show "file" true (self_after fresh_plot) (globals_after fresh_plot) =
  mkRun (Raise AttributeError) (self_after fresh_plot) (globals_after fresh_plot).
Proof.
  apply (show_to_file_raises "file" true (self_after fresh_plot)
           (globals_after fresh_plot) "Plot").
  - reflexivity.
  - reflexivity.
Defined.

(** X5.  [show] asked not to populate the figure, on a plot that has never
    been rendered, raises AttributeError ([self.bkfigure] does not exist);
    in a notebook the output channel has been initialised by then. *)
Theorem show_without_figure_raises (output : string) (p : Plot) (g : Globals) :
  String.eqb output "file" = false ->
  in_notebook g = true ->
  bkfigure p = None ->
  let r := show output false p g in
  result r = Raise AttributeError /\
  self_after r = p /\
  bokeh_ouput_notebook_called (globals_after r) = true /\
  Forall (fun c => c = OutputNotebook)
         (skipn (length (bokeh_calls g)) (bokeh_calls (globals_after r))).
Proof.
  intros Hfile Hnb Hfig. cbv zeta. unfold show, set_bokeh_output.
  rewrite bind_bind, bind_globals, Hfile, Hnb. cbn [negb orb]. cbv iota.
  destruct (bokeh_ouput_notebook_called g) eqn:Hflag; cbn [negb]; cbv iota.
  - rewrite bind_ret, bind_self, Hfig.
    cbn [raise result self_after globals_after].
    repeat split; [exact Hflag|].
    rewrite skipn_all. constructor.
  - rewrite bind_bind, bind_assign_global. rewrite bind_assign_global.
    rewrite bind_self, Hfig.
    cbn [raise result self_after globals_after bokeh_ouput_notebook_called
         set_bokeh_ouput_notebook_called log_bokeh bokeh_calls].
    repeat split.
    rewrite skipn_app, skipn_all, Nat.sub_diag. cbn [skipn app].
    constructor; [reflexivity | constructor].
Qed.

Lemma show_without_figure_raises_witness :
  result (show "inline" false (self_after fresh_plot) (globals_after fresh_plot)) =
  Raise AttributeError.
Proof.
  exact (proj1 (show_without_figure_raises "inline" (self_after fresh_plot)
                  (globals_after fresh_plot) eq_refl eq_refl eq_refl)).
Defined.

Lemma never_returns_bind_l {A B : Type} (c : M A) (k : A -> M B) :
  never_returns c -> never_returns (bind c k).
Proof.
  intros H p g. destruct (H p g) as [e He]. unfold bind.
  destruct (c p g) as [[a | e'] q h]; cbn [result] in *;
    [discriminate He | eexists; reflexivity].
Qed.

Lemma never_returns_bind_r {A B : Type} (c : M A) (k : A -> M B) :
  (forall a, never_returns (k a)) -> never_returns (bind c k).
Proof.
  intros H p g. unfold bind.
  destruct (c p g) as [[a | e] q h]; [apply H | eexists; reflexivity].
Qed.

Lemma set_bokeh_output_file_never_returns : never_returns (set_bokeh_output "file").
Proof.
  intros p g. unfold set_bokeh_output.
  rewrite bind_globals. cbn [String.eqb Ascii.eqb Bool.eqb orb]. cbv iota.
  rewrite bind_self, bind_dict_getitem.
  destruct (plot_para p !! "filename"); eexists; reflexivity.
Qed.

(** X6.  [show_linear_fit] with output 'file' always raises: every path
    through the method ends in [show], which cannot write to a file (see
    X4).  The same holds for [show] itself, whatever it is asked to
    populate. *)
Theorem show_linear_fit_to_file_never_returns :
  never_returns (show_linear_fit "file") /\
  forall populate_figure, never_returns (show "file" populate_figure).
Proof.
  assert (Hshow : forall b, never_returns (show "file" b)).
  { intros b. unfold show. apply never_returns_bind_l.
    apply set_bokeh_output_file_never_returns. }
  split; [|exact Hshow].
  unfold show_linear_fit.
  repeat lazymatch goal with
         | |- never_returns (show _ _) => fail
         | |- _ => apply never_returns_bind_r; intros ?
         end.
  apply Hshow.
Qed.

(** *** Figures *)

(** The main figure, when it is built, is made of the stored dimensions,
    scales, ranges and labels. *)
Lemma initialize_main_figure_fields (p : Plot) (g : Globals) (fig : Figure) :
  result (initialize_bokeh_figure false p g) = Ok fig ->
  py_getitem (dimensions p) 0 = Ok (width fig) /\
  py_getitem (dimensions p) 1 = Ok (height fig) /\
  axes p !! "yscale" = Some (y_axis_type fig) /\
  axes p !! "xscale" = x_axis_type fig /\
  labels p !! "title" = title fig /\
  labels p !! "xtitle" = Some (x_axis_label fig) /\
  labels p !! "ytitle" = Some (y_axis_label fig) /\
  f_y_range fig = interval (y_range p) /\
  f_x_range fig = mkRange1d (next_id g) (lo (x_range p)) (hi (x_range p)) /\
  figure_id fig = next_id g /\
  renderers fig = [] /\
  layouts fig = [].
Proof.
  unfold initialize_bokeh_figure. rewrite bind_self. cbn [negb]. cbv iota.
  rewrite bind_lift.
  destruct (py_getitem (dimensions p) 0) as [w|e]; [|discriminate].
  rewrite bind_lift.
  destruct (py_getitem (dimensions p) 1) as [h|e]; [|discriminate].
  rewrite bind_dict_getitem.
  destruct (axes p !! "yscale") as [ys|]; [|discriminate].
  rewrite bind_dict_getitem.
  destruct (axes p !! "xscale") as [xs|]; [|discriminate].
  rewrite bind_dict_getitem.
  destruct (labels p !! "title") as [t|]; [|discriminate].
  rewrite bind_dict_getitem.
  destruct (labels p !! "xtitle") as [xl|]; [|discriminate].
  rewrite bind_dict_getitem.
  destruct (labels p !! "ytitle") as [yl|]; [|discriminate].
  unfold bp_figure. cbn [result].
  intros [= <-]. repeat split.
Qed.

(** X7.  A main figure built after [resize_plot(width, height)] has that
    width and height, 600 and 400 standing in for an argument left out; it
    shows exactly the stored ranges and carries no mark yet. *)
Theorem resize_plot_sets_figure_size (w h : option Z)
    (p : Plot) (g : Globals) (fig : Figure) :
  result (and_then (resize_plot w h p g)
                   (initialize_bokeh_figure false)) = Ok fig ->
  width fig = or_default 600 w /\
  height fig = or_default 400 h /\
  f_y_range fig = interval (y_range p) /\
  (r_start (f_x_range fig), r_end (f_x_range fig)) = interval (x_range p) /\
  renderers fig = [].
Proof.
  intros H. unfold and_then in H.
  apply initialize_main_figure_fields in H.
  destruct H as (Hw & Hh & _ & _ & _ & _ & _ & Hy & Hx & _ & Hr & _).
  change (Ok (or_default 600 w) = Ok (width fig)) in Hw.
  change (Ok (or_default 400 h) = Ok (height fig)) in Hh.
  change (f_y_range fig = interval (y_range p)) in Hy.
  change (f_x_range fig = mkRange1d (next_id g) (lo (x_range p)) (hi (x_range p)))
    in Hx.
  injection Hw as Hw. injection Hh as Hh.
  rewrite Hx. repeat split; try assumption; symmetry; assumption.
Qed.

Lemma resize_plot_sets_figure_size_witness :
  exists fig,
    result (and_then (resize_plot (Some 800) None (self_after fresh_plot)
                                  (globals_after fresh_plot))
                     (initialize_bokeh_figure false)) = Ok fig /\
    width fig = 800 /\ height fig = 400.
Proof.
  eexists. split; [vm_compute; reflexivity|].
  refine (let H := resize_plot_sets_figure_size (Some 800) None
                     (self_after fresh_plot) (globals_after fresh_plot) _ _ in
          conj (proj1 H) (proj1 (proj2 H))).
  vm_compute. reflexivity.
Defined.

(** X8.  The residual figure can only be built after the main one: with
    [self.bkfigure] absent, or bound to the grid a rendering with residuals
    leaves there, [initialize_bokeh_figure(residuals=True)] raises
    AttributeError.  When [self.bkfigure] is a figure, the residual figure
    shares its x-range object, is a third as high (rounded down), spans the
    residuals of the most recently added dataset and is labelled
    'Residuals'; the plot is not changed. *)
Theorem residual_figure_follows_main (p : Plot) (g : Globals) (w h : Z)
    (last : XYDataSet) (xl : option string) :
  py_getitem (dimensions p) 0 = Ok w ->
  py_getitem (dimensions p) 1 = Ok h ->
  py_getitem (datasets p) (-1) = Ok last ->
  labels p !! "xtitle" = Some xl ->
  let r := initialize_bokeh_figure true p g in
  self_after r = p /\
  result r =
    match bkfigure p with
    | Some (BkFigure main) =>
        Ok (mkFigure (S (next_id g)) "save, pan, box_zoom, wheel_zoom, reset"
                     w (h / 3) "linear" (yres_extent last) None (f_x_range main)
                     None xl (Some "Residuals") [] [] None)
    | Some (BkGrid _ _) | None => Raise AttributeError
    end.
Proof.
  intros Hw Hh Hlast Hxl. cbv zeta. unfold initialize_bokeh_figure.
  rewrite bind_self. cbn [negb]. cbv iota.
  rewrite bind_lift, Hw. rewrite bind_lift, Hh. rewrite bind_lift, Hlast.
  unfold get_yres_range. rewrite bind_new_list.
  unfold the_bkfigure. rewrite bind_bind, bind_self.
  destruct (bkfigure p) as [[main | id rows]|];
    rewrite ?bind_ret, ?bind_raise; try (split; reflexivity).
  rewrite bind_dict_getitem, Hxl. unfold bp_figure.
  cbn [result self_after lo hi next_id bump_id].
  destruct (yres_extent last) as [a b]. split; reflexivity.
Qed.

Lemma residual_figure_follows_main_witness :
  let p := self_after (and_then fitted_plot populate_bokeh_figure) in
  let g := globals_after (and_then fitted_plot populate_bokeh_figure) in
  (exists id rows, bkfigure p = Some (BkGrid id rows)) /\
  result (initialize_bokeh_figure true p g) = Raise AttributeError.
Proof.
  cbv zeta.
  set (p := self_after (and_then fitted_plot populate_bokeh_figure)).
  set (g := globals_after (and_then fitted_plot populate_bokeh_figure)).
  assert (Hgrid : exists id rows, bkfigure p = Some (BkGrid id rows))
    by (vm_compute; eexists _, _; reflexivity).
  split; [exact Hgrid|].
  destruct Hgrid as (id & rows & Hgrid).
  assert (Hw : py_getitem (dimensions p) 0 = Ok 600) by (vm_compute; reflexivity).
  assert (Hh : py_getitem (dimensions p) 1 = Ok 400) by (vm_compute; reflexivity).
  assert (Hlast : exists last, py_getitem (datasets p) (-1) = Ok last)
    by (vm_compute; eexists; reflexivity).
  destruct Hlast as [last Hlast].
  assert (Hxl : labels p !! "xtitle" = Some (Some "t [s]"))
    by (vm_compute; reflexivity).
  pose proof (residual_figure_follows_main p g 600 400 last (Some "t [s]")
                Hw Hh Hlast Hxl) as H.
  cbv zeta in H. destruct H as [_ H]. rewrite H, Hgrid. reflexivity.
Defined.

(** *** Labels *)

(** X9.  [set_labels] never raises and changes no attribute but the labels
    dictionary.  There, 'title', 'xtitle' and 'ytitle' take the values
    given and keep theirs when the argument is left out; a data name goes
    under the key 'Data'; every other key, 'data' included, keeps its
    value. *)
Theorem set_labels_entries (title xtitle ytitle data_name : option string)
    (p : Plot) (g : Globals) :
  let r := set_labels title xtitle ytitle data_name p g in
  result r = Ok tt /\
  globals_after r = g /\
  with_labels (labels p) (self_after r) = p /\
  forall key,
    labels (self_after r) !! key =
    label_after title xtitle ytitle data_name (labels p) key.
Proof.
  cbv zeta.
  assert (Hkey : forall (k key : string) (v : option string)
                   (m : gmap string (option string)),
            <[k := v]> m !! key = if String.eqb key k then Some v else m !! key).
  { intros k key v m. destruct (String.eqb_spec key k) as [-> | Hne].
    - apply lookup_insert_eq.
    - apply lookup_insert_ne. congruence. }
  destruct p; destruct title, xtitle, ytitle, data_name;
    (split; [reflexivity|]); (split; [reflexivity|]); (split; [reflexivity|]);
    intros key; unfold label_after;
    cbn [set_labels labels self_after with_labels];
    unfold set_labels, bind, assign, ret; cbn [self_after labels with_labels];
    repeat rewrite Hkey;
    repeat match goal with
           | |- context [String.eqb key ?k] =>
               destruct (String.eqb_spec key k) as [-> | ?]
           end; reflexivity.
Qed.

(** *** Fit parameters *)

(** X10.  [print_fit_parameters] never changes the plot, and decides what
    to print from the most recently added dataset alone, whichever dataset
    it is asked about.  When the last dataset has no fit it prints
    "Datasets have not been fit", even if the dataset asked about has one.
    When the last dataset has a fit, it prints the latest parameters of the
    dataset asked about, and raises IndexError, printing nothing, if that
    dataset has none. *)
Theorem print_fit_parameters_tests_last_dataset
    (array_str : list Measurement -> string) (dataset : Z)
    (p : Plot) (g : Globals) (last : XYDataSet) :
  py_getitem (datasets p) (-1) = Ok last ->
  let r := print_fit_parameters array_str dataset p g in
  self_after r = p /\
  (nfits last <= 0 ->
   r = mkRun (Ok tt) p (write_stdout "Datasets have not been fit" g)) /\
  (0 < nfits last ->
   forall d, py_getitem (datasets p) dataset = Ok d ->
     match py_getitem (fit_pars d) (-1) with
     | Ok pars =>
         r = mkRun (Ok tt) p
               (write_stdout ("Fit parameters:
" ++ array_str pars) g)
     | Raise _ => fit_pars d = [] /\ r = mkRun (Raise IndexError) p g
     end).
Proof.
  intros Hlast. cbv zeta. unfold print_fit_parameters.
  rewrite bind_self, bind_lift, Hlast.
  destruct (0 <? nfits last) eqn:E.
  - apply Z.ltb_lt in E. rewrite bind_self, bind_lift.
    split; [|split].
    + destruct (py_getitem (datasets p) dataset) as [d|e]; [|reflexivity].
      rewrite bind_lift. destruct (py_getitem (fit_pars d) (-1)); reflexivity.
    + intros Hle. lia.
    + intros _ d Hd. rewrite Hd, bind_lift.
      destruct (fit_pars d) as [|ps rest] eqn:Hpars.
      * split; reflexivity.
      * destruct (py_getitem_in_range (ps :: rest)
                    (Z.of_nat (length (ps :: rest)) - 1)) as (a & Ha & _).
        { cbn [length]. lia. }
        assert (Hlastpar : py_getitem (ps :: rest) (-1) = Ok a).
        { revert Ha. unfold py_getitem.
          replace (-1 <? 0) with true by reflexivity.
          replace (Z.of_nat (length (ps :: rest)) - 1 <? 0) with false
            by (symmetry; apply Z.ltb_ge; cbn [length]; lia).
          replace (Z.of_nat (length (ps :: rest)) + -1)
            with (Z.of_nat (length (ps :: rest)) - 1) by lia.
          trivial. }
        rewrite Hlastpar. reflexivity.
  - apply Z.ltb_ge in E. split; [reflexivity|]. split; [reflexivity|].
    intros Hlt. lia.
Qed.

(** The fitted dataset is asked about (index 0 here is the unfitted one):
    asking about the unfitted dataset raises, since the last one is
    fitted. *)
Lemma print_fit_parameters_tests_last_dataset_witness :
  let p := self_after mixed_plot in
  let g := globals_after mixed_plot in
  py_getitem (datasets p) (-1) = Ok run_C_fitted /\
  0 < nfits run_C_fitted /\
  print_fit_parameters show_means 0 p g = mkRun (Raise IndexError) p g.
Proof.
  cbv zeta.
  assert (Hlast : py_getitem (datasets (self_after mixed_plot)) (-1) =
                  Ok run_C_fitted) by (vm_compute; reflexivity).
  assert (Hfit : 0 < nfits run_C_fitted) by (vm_compute; reflexivity).
  split; [exact Hlast|]. split; [exact Hfit|].
  pose proof (print_fit_parameters_tests_last_dataset show_means 0
                (self_after mixed_plot) (globals_after mixed_plot)
                run_C_fitted Hlast) as H.
  cbv zeta in H. destruct H as (_ & _ & H).
  assert (Hd : py_getitem (datasets (self_after mixed_plot)) 0 = Ok run_A)
    by (vm_compute; reflexivity).
  specialize (H Hfit run_A Hd).
  change (py_getitem (fit_pars run_A) (-1)) with (@Raise (list Measurement) IndexError)
    in H.
  exact (proj2 H).
Defined.

(** *** The sliders of the interactive fit *)

Lemma same_linear_fit_refl (p : Plot) (g : Globals) : same_linear_fit p g p g.
Proof. reflexivity. Qed.

Lemma same_linear_fit_trans (p1 : Plot) (g1 : Globals) (p2 : Plot) (g2 : Globals)
    (p3 : Plot) (g3 : Globals) :
  same_linear_fit p1 g1 p2 g2 -> same_linear_fit p2 g2 p3 g3 ->
  same_linear_fit p1 g1 p3 g3.
Proof. unfold same_linear_fit. congruence. Qed.

Ltac same_linear_fit_steps :=
  respects_with same_linear_fit_refl same_linear_fit_trans;
  try (intros; reflexivity).

Lemma show_same_linear_fit (output : string) (populate_figure : bool) :
  respects same_linear_fit (show output populate_figure).
Proof.
  unfold show.
  apply (respects_bind _ same_linear_fit_trans);
    [unfold set_bokeh_output; same_linear_fit_steps | intros _].
  destruct populate_figure.
  - apply (respects_bind _ same_linear_fit_trans).
    + apply (respects_populate_bokeh_figure _ same_linear_fit_refl
               same_linear_fit_trans);
        intros; reflexivity.
    + intros obj. unfold bp_show. same_linear_fit_steps.
  - unfold bp_show. same_linear_fit_steps.
Qed.

Lemma run_method_same_linear_fit (ARRAY : list SeqType)
    (array_str : list Measurement -> string) (m : Method) :
  respects same_linear_fit (run_method ARRAY array_str m).
Proof.
  destruct m; cbn [run_method].
  - same_linear_fit_steps.
  - unfold fit, print_lines. same_linear_fit_steps.
  - unfold print_fit_parameters. same_linear_fit_steps.
  - unfold add_residuals. same_linear_fit_steps.
  - unfold add_function, add_function_record, evaluate_with_measurements.
    same_linear_fit_steps.
  - unfold add_dataset. same_linear_fit_steps.
  - unfold set_range_from_dataset. same_linear_fit_steps.
  - unfold set_plot_range, is_range, print. same_linear_fit_steps.
  - unfold set_labels. same_linear_fit_steps.
  - unfold resize_plot. same_linear_fit_steps.
  - unfold set_errorband_sigma. same_linear_fit_steps.
  - apply show_same_linear_fit.
  - unfold set_bokeh_output. same_linear_fit_steps.
  - apply (respects_bind _ same_linear_fit_trans).
    + apply (respects_populate_bokeh_figure _ same_linear_fit_refl
               same_linear_fit_trans);
        intros; reflexivity.
    + intros obj. same_linear_fit_steps.
  - apply (respects_bind _ same_linear_fit_trans).
    + apply (respects_initialize_bokeh_figure _ same_linear_fit_refl
               same_linear_fit_trans);
        intros; reflexivity.
    + intros fig. same_linear_fit_steps.
Qed.

Lemma session_same_linear_fit (ARRAY : list SeqType)
    (array_str : list Measurement -> string) (ms : list Method)
    (p : Plot) (g : Globals) :
  linear_fit_pars (fst (session ARRAY array_str ms p g)) = linear_fit_pars p.
Proof.
  revert p g. induction ms as [|m rest IH]; intros p g; [reflexivity|].
  cbn [session]. rewrite IH.
  exact (run_method_same_linear_fit ARRAY array_str m p g).
Qed.

(** X11.  The parameters that [interact_linear_fit] reads are bound by
    [show_linear_fit] alone: on a plot that was constructed and then used
    through any sequence of the other methods, whether the calls returned
    or raised, [interact_linear_fit] raises AttributeError before any
    widget is built and changes nothing. *)
Theorem interact_linear_fit_needs_show_linear_fit (ARRAY : list SeqType)
    (array_str : list Measurement -> string) (interact : Sliders -> M unit)
    (wrapped : Result XYDataSet) (data_name : option string)
    (dataset : option XYDataSet) (g : Globals) (ms : list Method)
    (error_range : Q) :
  let r := __init__ wrapped data_name dataset g in
  let s := session ARRAY array_str ms (self_after r) (globals_after r) in
  interact_linear_fit interact error_range (fst s) (snd s) =
  mkRun (Raise AttributeError) (fst s) (snd s).
Proof.
  cbv zeta.
  pose proof (session_same_linear_fit ARRAY array_str ms
                (self_after (__init__ wrapped data_name dataset g))
                (globals_after (__init__ wrapped data_name dataset g))) as H.
  assert (H0 : linear_fit_pars (self_after (__init__ wrapped data_name dataset g))
               = None).
  { unfold __init__.
    destruct (match dataset with Some d => Ok d | None => wrapped end);
      reflexivity. }
  rewrite H0 in H.
  unfold interact_linear_fit. rewrite bind_self. cbv beta. rewrite H.
  reflexivity.
Qed.

(** *** Datasets, functions and their colours *)

Lemma bind_returns {A B : Type} (c : M A) (k : A -> M B) (p : Plot) (g : Globals)
    (b : B) :
  result (bind c k p g) = Ok b ->
  exists a, result (c p g) = Ok a /\
            result (k a (self_after (c p g)) (globals_after (c p g))) = Ok b.
Proof.
  unfold bind. destruct (c p g) as [[a|e] p1 g1];
    cbn [result self_after globals_after]; intros H; [|discriminate H].
  exists a. split; [reflexivity | exact H].
Qed.

(** A computation that returns only after a prefix that respects [R]
    continues from a state related to the one it started from. *)
Lemma bind_returns_from {A B : Type}
    (R : Plot -> Globals -> Plot -> Globals -> Prop)
    (c : M A) (k : A -> M B) (p : Plot) (g : Globals) (b : B) :
  respects R c ->
  result (bind c k p g) = Ok b ->
  exists a p1 g1, R p g p1 g1 /\ result (k a p1 g1) = Ok b.
Proof.
  intros Hc H. apply bind_returns in H. destruct H as (a & _ & H).
  exists a, (self_after (c p g)), (globals_after (c p g)).
  split; [apply Hc | exact H].
Qed.

(** The same, keeping the state the computation ends in. *)
Lemma bind_run_from {A B : Type}
    (R : Plot -> Globals -> Plot -> Globals -> Prop)
    (c : M A) (k : A -> M B) (p : Plot) (g : Globals) (b : B)
    (p' : Plot) (g' : Globals) :
  respects R c ->
  bind c k p g = mkRun (Ok b) p' g' ->
  exists a p1 g1, R p g p1 g1 /\ k a p1 g1 = mkRun (Ok b) p' g'.
Proof.
  intros Hc H. specialize (Hc p g). unfold bind in H.
  destruct (c p g) as [[a|e] p1 g1]; cbn [self_after globals_after] in Hc;
    [|discriminate H].
  exists a, p1, g1. split; [exact Hc | exact H].
Qed.

Lemma py_getitem_returns {A : Type} (l : list A) (i : Z) (a : A) :
  0 <= i -> py_getitem l i = Ok a -> i < Z.of_nat (length l).
Proof.
  intros Hi H. destruct (Z_lt_le_dec i (Z.of_nat (length l))) as [Hlt|Hle];
    [exact Hlt|].
  rewrite (py_getitem_past_end l i Hle) in H. discriminate H.
Qed.

Lemma same_colours_refl (p : Plot) (g : Globals) : same_colours p g p g.
Proof. split; reflexivity. Qed.

Lemma same_colours_trans (p1 : Plot) (g1 : Globals) (p2 : Plot) (g2 : Globals)
    (p3 : Plot) (g3 : Globals) :
  same_colours p1 g1 p2 g2 -> same_colours p2 g2 p3 g3 -> same_colours p1 g1 p3 g3.
Proof. unfold same_colours. intros [? ?] [? ?]. split; congruence. Qed.

Ltac same_colours_steps :=
  repeat first
    [ apply (respects_ret _ same_colours_refl)
    | apply (respects_raise _ same_colours_refl)
    | apply (respects_lift _ same_colours_refl)
    | apply (respects_self _ same_colours_refl)
    | apply (respects_the_bkfigure _ same_colours_refl same_colours_trans)
    | apply (respects_the_bkres _ same_colours_refl same_colours_trans)
    | apply (respects_initialize_bokeh_figure _ same_colours_refl
               same_colours_trans); intros; split; reflexivity
    | apply (respects_plot_dataset_bkfigure _ same_colours_refl
               same_colours_trans); intros; split; reflexivity
    | apply (respects_plot_dataset_bkres _ same_colours_refl
               same_colours_trans); intros; split; reflexivity
    | apply (respects_plot_function_bkfigure _ same_colours_refl
               same_colours_trans); intros; split; reflexivity
    | apply (respects_draw_fit_parameters _ same_colours_refl
               same_colours_trans); intros; split; reflexivity
    | apply respects_assign; intros; split; reflexivity
    | apply (respects_bind _ same_colours_trans); [|intros ?]
    | match goal with
      | |- respects _ (if ?b then _ else _) => destruct b
      | |- respects _ (match ?x with Some _ => _ | None => _ end) => destruct x
      end ].

(** The loop over the datasets returns only if there is a colour at every
    index it reaches. *)
Lemma draw_datasets_returns (remaining : list XYDataSet) (count : Z)
    (p : Plot) (g : Globals) :
  0 <= count ->
  result (draw_datasets remaining count p g) = Ok tt ->
  remaining = [] \/
  count + Z.of_nat (length remaining) <= Z.of_nat (length (datasets_colors p)).
Proof.
  revert count p g. induction remaining as [|dataset rest IH];
    intros count p g Hcount H; [left; reflexivity | right].
  cbn [draw_datasets] in H. rewrite bind_self, bind_lift in H. cbv beta in H.
  destruct (py_getitem (datasets_colors p) count) as [color|e] eqn:Ecol;
    [|discriminate H].
  apply py_getitem_returns in Ecol; [|exact Hcount].
  apply (bind_returns_from same_colours) in H; [|same_colours_steps].
  destruct H as (_ & p1 & g1 & [Hc1 _] & H).
  apply (bind_returns_from same_colours) in H; [|same_colours_steps].
  destruct H as (_ & p2 & g2 & [Hc2 _] & H).
  apply IH in H; [|lia].
  rewrite Hc2, Hc1 in H. cbn [length]. rewrite Nat2Z.inj_succ.
  destruct H as [-> | H]; [cbn [length]|]; lia.
Qed.

(** So does the loop over the functions. *)
Lemma draw_functions_returns (remaining : list (UserFunction * Pars * string))
    (xvals : list Q) (count : Z) (p : Plot) (g : Globals) :
  0 <= count ->
  result (draw_functions remaining xvals count p g) = Ok tt ->
  remaining = [] \/
  count + Z.of_nat (length remaining)
    <= Z.of_nat (length (user_functions_colors p)).
Proof.
  revert count p g. induction remaining as [|[[func pars] fname] rest IH];
    intros count p g Hcount H; [left; reflexivity | right].
  cbn [draw_functions] in H. rewrite bind_self, bind_lift in H. cbv beta in H.
  destruct (py_getitem (user_functions_colors p) count) as [color|e] eqn:Ecol;
    [|discriminate H].
  apply py_getitem_returns in Ecol; [|exact Hcount].
  apply (bind_returns_from same_colours) in H; [|same_colours_steps].
  destruct H as (_ & p1 & g1 & [_ Hc1] & H).
  apply IH in H; [|lia].
  rewrite Hc1 in H. cbn [length]. rewrite Nat2Z.inj_succ.
  destruct H as [-> | H]; [cbn [length]|]; lia.
Qed.

Lemma zip3_length {A B C : Type} (a : list A) (b : list B) (c : list C) :
  length (zip3 a b c) = Nat.min (length a) (Nat.min (length b) (length c)).
Proof.
  revert b c. induction a as [|x a IH]; intros [|y b] [|z c]; cbn [zip3 length];
    try reflexivity.
  rewrite IH. reflexivity.
Qed.

(** [populate_bokeh_figure] returns only on a plot that has a colour for
    every dataset and for every function it draws. *)
Lemma populate_bokeh_figure_returns (p : Plot) (g : Globals) (obj : BkObject) :
  result (populate_bokeh_figure p g) = Ok obj ->
  (length (datasets p) <= length (datasets_colors p))%nat /\
  (length (zip3 (user_functions p) (user_functions_pars p)
                (user_functions_names p))
     <= length (user_functions_colors p))%nat.
Proof.
  intros H. unfold populate_bokeh_figure in H.
  apply (bind_returns_from rendering_frame) in H;
    [|apply (respects_initialize_bokeh_figure _ rendering_frame_refl
               rendering_frame_trans rendering_frame_bump)].
  destruct H as (fig & p1 & g1 & [Hp1 _] & H).
  rewrite bind_assign, bind_self in H. cbv beta in H.
  apply (bind_returns_from rendering_frame) in H.
  2:{ destruct (show_residuals _);
        [|apply (respects_ret _ rendering_frame_refl)].
      apply (respects_bind _ rendering_frame_trans);
        [apply (respects_initialize_bokeh_figure _ rendering_frame_refl
                  rendering_frame_trans rendering_frame_bump)|].
      intros res. apply respects_assign. intros. apply rendering_frame_bkres. }
  destruct H as (_ & p2 & g2 & [Hp2 _] & H).
  assert (Hconf : configuration p2 = configuration p).
  { rewrite Hp2. unfold configuration at 1. norm. exact Hp1. }
  clear Hp1 Hp2.
  rewrite bind_self in H. cbv beta in H.
  pose proof H as Hd. apply bind_returns in Hd. destruct Hd as ([] & Hd & _).
  apply draw_datasets_returns in Hd; [|lia].
  apply (bind_returns_from rendering_frame) in H;
    [|apply (respects_draw_datasets _ rendering_frame_refl
               rendering_frame_trans
               rendering_frame_bkfigure rendering_frame_bkres)].
  destruct H as (_ & p3 & g3 & [Hp3 _] & H).
  rewrite bind_self, bind_lift, range_getitem_0 in H. cbv beta iota in H.
  rewrite bind_lift, range_getitem_1 in H. cbv beta iota zeta in H.
  apply bind_returns in H. destruct H as ([] & Hf & _).
  apply draw_functions_returns in Hf; [|lia].
  assert (E2 : datasets p2 = datasets p /\ datasets_colors p2 = datasets_colors p).
  { split.
    - change (datasets (configuration p2) = datasets (configuration p)).
      rewrite Hconf. reflexivity.
    - change (datasets_colors (configuration p2) = datasets_colors (configuration p)).
      rewrite Hconf. reflexivity. }
  assert (Hconf3 : configuration p3 = configuration p) by congruence.
  assert (E3 : user_functions p3 = user_functions p /\
               user_functions_pars p3 = user_functions_pars p /\
               user_functions_names p3 = user_functions_names p /\
               user_functions_colors p3 = user_functions_colors p).
  { repeat split.
    - change (user_functions (configuration p3) = user_functions (configuration p)).
      rewrite Hconf3. reflexivity.
    - change (user_functions_pars (configuration p3)
              = user_functions_pars (configuration p)).
      rewrite Hconf3. reflexivity.
    - change (user_functions_names (configuration p3)
              = user_functions_names (configuration p)).
      rewrite Hconf3. reflexivity.
    - change (user_functions_colors (configuration p3)
              = user_functions_colors (configuration p)).
      rewrite Hconf3. reflexivity. }
  destruct E2 as [Ed Edc]. destruct E3 as (Ef & Efp & Efn & Efc).
  rewrite Ed, Edc in Hd. rewrite Ef, Efp, Efn, Efc in Hf.
  split.
  - destruct Hd as [-> | Hd]; [cbn [length]|]; lia.
  - destruct Hf as [-> | Hf]; [cbn [length]|]; lia.
Qed.

Lemma same_plot_refl (p : Plot) (g : Globals) : same_plot p g p g.
Proof. reflexivity. Qed.

Lemma same_plot_trans (p1 : Plot) (g1 : Globals) (p2 : Plot) (g2 : Globals)
    (p3 : Plot) (g3 : Globals) :
  same_plot p1 g1 p2 g2 -> same_plot p2 g2 p3 g3 -> same_plot p1 g1 p3 g3.
Proof. unfold same_plot. congruence. Qed.

Lemma set_bokeh_output_same_plot (output : string) :
  respects same_plot (set_bokeh_output output).
Proof.
  unfold set_bokeh_output.
  respects_with same_plot_refl same_plot_trans; intros; reflexivity.
Qed.

(** X13.  [add_dataset] appends the dataset before it asks the palette for
    a colour.  Once the palette is used up, a call without a colour raises
    IndexError and leaves the dataset in the plot without a colour: the
    list of datasets is one longer, the list of colours is not, the cursor
    has moved, the name was not applied and the ranges were not widened. *)
Theorem add_dataset_palette_exhausted (dataset : XYDataSet) (name : option string)
    (p : Plot) (g : Globals) :
  Z.of_nat (length (color_palette p)) <= color_count p ->
  add_dataset dataset None name p g =
  mkRun (Raise IndexError)
        (with_color_count (color_count p + 1)
           (with_datasets (datasets p ++ [dataset]) p)) g.
Proof.
  intros Hfull. unfold add_dataset.
  rewrite bind_assign. cbv beta.
  rewrite bind_bind, bind_get_color. norm.
  rewrite (py_getitem_past_end (color_palette p) (color_count p + 1 - 1))
    by lia.
  reflexivity.
Qed.

Lemma add_dataset_palette_exhausted_witness :
  Z.of_nat (length (color_palette (self_after nine_colours)))
    <= color_count (self_after nine_colours) /\
  result tenth_dataset = Raise IndexError /\
  length (datasets (self_after tenth_dataset)) = 10%nat /\
  length (datasets_colors (self_after tenth_dataset)) = 9%nat.
Proof.
  assert (Hfull : Z.of_nat (length (color_palette (self_after nine_colours)))
                  <= color_count (self_after nine_colours))
    by (vm_compute; discriminate).
  split; [exact Hfull|].
  unfold tenth_dataset, and_then.
  rewrite (add_dataset_palette_exhausted run_B (Some "tenth")
             (self_after nine_colours) (globals_after nine_colours) Hfull).
  split; [reflexivity|]. split; vm_compute; reflexivity.
Defined.

(** X14.  Rendering indexes the colours by position.  On a plot with fewer
    colours than datasets, as a failed [add_dataset] leaves it,
    [populate_bokeh_figure] cannot return, and neither can [show] when it
    populates the figure ([populate_figure=True], the default). *)
Theorem rendering_needs_a_colour_per_dataset (output : string)
    (p : Plot) (g : Globals) :
  (length (datasets_colors p) < length (datasets p))%nat ->
  (exists e, result (populate_bokeh_figure p g) = Raise e) /\
  (exists e, result (show output true p g) = Raise e).
Proof.
  intros Hshort. split.
  - destruct (result (populate_bokeh_figure p g)) as [obj|e] eqn:E;
      [|exists e; reflexivity].
    apply populate_bokeh_figure_returns in E. lia.
  - destruct (result (show output true p g)) as [[]|e] eqn:E;
      [|exists e; reflexivity].
    unfold show in E.
    apply (bind_returns_from same_plot) in E;
      [|apply set_bokeh_output_same_plot].
    destruct E as (_ & p1 & g1 & Hp1 & E). unfold same_plot in Hp1. subst p1.
    apply bind_returns in E. destruct E as (obj & E & _).
    apply populate_bokeh_figure_returns in E. lia.
Qed.

Lemma rendering_needs_a_colour_per_dataset_witness :
  (length (datasets_colors (self_after tenth_dataset))
     < length (datasets (self_after tenth_dataset)))%nat /\
  exists e, result (and_then tenth_dataset (show "inline" true)) = Raise e.
Proof.
  assert (Hshort : (length (datasets_colors (self_after tenth_dataset))
                    < length (datasets (self_after tenth_dataset)))%nat)
    by (vm_compute; lia).
  split; [exact Hshort|].
  exact (proj2 (rendering_needs_a_colour_per_dataset "inline"
                  (self_after tenth_dataset) (globals_after tenth_dataset)
                  Hshort)).
Defined.

Lemma only_ranges_refl (p : Plot) (g : Globals) : only_ranges p g p g.
Proof. split; reflexivity. Qed.

Lemma only_ranges_trans (p1 : Plot) (g1 : Globals) (p2 : Plot) (g2 : Globals)
    (p3 : Plot) (g3 : Globals) :
  only_ranges p1 g1 p2 g2 -> only_ranges p2 g2 p3 g3 -> only_ranges p1 g1 p3 g3.
Proof. unfold only_ranges. intros [? ?] [? ?]. split; congruence. Qed.

Lemma rename_last_app (n : string) (ds : list XYDataSet) (d : XYDataSet) :
  rename_last n (ds ++ [d])%list = write_dataset (set_name n d) (ds ++ [d])%list.
Proof.
  unfold rename_last. rewrite rev_app_distr. reflexivity.
Qed.

Lemma datasets_added_last (name : option string) (dataset : XYDataSet)
    (ds : list XYDataSet) :
  py_getitem (datasets_added name dataset ds) (-1) = Ok (as_added name dataset).
Proof.
  destruct name as [n|]; cbn [datasets_added as_added].
  - apply (py_getitem_write_dataset dataset); [apply py_getitem_last|reflexivity].
  - apply py_getitem_last.
Qed.

Lemma datasets_added_length (name : option string) (dataset : XYDataSet)
    (ds : list XYDataSet) :
  length (datasets_added name dataset ds) = S (length ds).
Proof.
  destruct name as [n|]; cbn [datasets_added];
    rewrite ?write_dataset_length, length_app; cbn [length]; lia.
Qed.

(** The end of [add_dataset], from the request for the dataset's ranges
    on, touches the two ranges only. *)
Lemma expand_ranges_only_ranges (xr yr : PyRange) :
  respects only_ranges
    (let* p1 := self in
     let* sx0 := lift (range_getitem (x_range p1) 0) in
     let* _ := if py_lt (lo xr) sx0 then range_setitem (x_range p1) 0 (lo xr)
               else ret tt in
     let* p2 := self in
     let* sx1 := lift (range_getitem (x_range p2) 1) in
     let* _ := if py_gt (hi xr) sx1 then range_setitem (x_range p2) 1 (hi xr)
               else ret tt in
     let* p3 := self in
     let* sy0 := lift (range_getitem (y_range p3) 0) in
     let* _ := if py_lt (lo yr) sy0 then range_setitem (y_range p3) 0 (lo yr)
               else ret tt in
     let* p4 := self in
     let* sy1 := lift (range_getitem (y_range p4) 1) in
     if py_gt (hi yr) sy1 then range_setitem (y_range p4) 1 (hi yr) else ret tt).
Proof.
  respects_with only_ranges_refl only_ranges_trans;
    intros; split; reflexivity.
Qed.

(** X15.  [add_dataset], when it returns, has appended one dataset and one
    colour: the last dataset is the one passed, under the new name if one
    was given (the name is given to the dataset object, so it shows at
    every position of the list bound to that object); its colour is the
    explicit one, which leaves the palette cursor where it was, or else the
    next of the palette, which moves the cursor by one.  Apart from these
    and the ranges the plot is unchanged; the two lists the dataset reports
    its ranges in are the only objects created. *)
Theorem add_dataset_records (dataset : XYDataSet) (color name : option string)
    (p : Plot) (g : Globals) (p' : Plot) (g' : Globals) :
  add_dataset dataset color name p g = mkRun (Ok tt) p' g' ->
  (exists c, colour_given color p = Ok c /\
             datasets_colors p' = (datasets_colors p ++ [c])%list) /\
  color_count p' = cursor_after color p /\
  length (datasets p') = S (length (datasets p)) /\
  py_getitem (datasets p') (-1) = Ok (as_added name dataset) /\
  (name = None -> datasets p' = (datasets p ++ [dataset])%list) /\
  datasets p' = datasets_added name dataset (datasets p) /\
  outside_datasets_and_ranges p' = outside_datasets_and_ranges p /\
  g' = bump_id (bump_id g).
Proof.
  intros H. unfold add_dataset in H.
  rewrite bind_assign in H. cbv beta in H.
  assert (Hcol : exists c, colour_given color p = Ok c /\
            (let* _ := match name with
                       | Some n =>
                           let* p := self in
                           let* _ := lift (py_getitem (datasets p) (-1)) in
                           assign (fun p => with_datasets
                                              (rename_last n (datasets p)) p)
                       | None => ret tt
                       end in
             let* p := self in
             let* xr := get_x_range dataset (x_range_margin p) in
             let* p := self in
             let* yr := get_y_range dataset (y_range_margin p) in
             let* p := self in
             let* sx0 := lift (range_getitem (x_range p) 0) in
             let* _ := if py_lt (lo xr) sx0
                       then range_setitem (x_range p) 0 (lo xr) else ret tt in
             let* p := self in
             let* sx1 := lift (range_getitem (x_range p) 1) in
             let* _ := if py_gt (hi xr) sx1
                       then range_setitem (x_range p) 1 (hi xr) else ret tt in
             let* p := self in
             let* sy0 := lift (range_getitem (y_range p) 0) in
             let* _ := if py_lt (lo yr) sy0
                       then range_setitem (y_range p) 0 (lo yr) else ret tt in
             let* p := self in
             let* sy1 := lift (range_getitem (y_range p) 1) in
             if py_gt (hi yr) sy1 then range_setitem (y_range p) 1 (hi yr)
             else ret tt)
              (with_datasets_colors (datasets_colors p ++ [c])
                 (with_color_count (cursor_after color p)
                    (with_datasets (datasets p ++ [dataset]) p))) g
            = mkRun (Ok tt) p' g').
  { destruct color as [c|].
    - rewrite bind_assign in H. cbv beta in H.
      exists c. split; [reflexivity|]. rewrite <- H. destruct p; reflexivity.
    - rewrite bind_bind, bind_get_color in H. norm_in H.
      cbn [colour_given cursor_after].
      destruct (py_getitem (color_palette p) (color_count p + 1 - 1))
        as [c|e]; [|discriminate H].
      rewrite bind_assign in H. cbv beta in H.
      exists c. split; [reflexivity|]. exact H. }
  clear H. destruct Hcol as (c & Hc & H).
  set (q := with_datasets_colors _ _) in H.
  assert (Hq : exists q', 
             datasets q' = datasets_added name dataset (datasets p) /\
             with_datasets [] q' = with_datasets [] q /\
             only_ranges q' (bump_id (bump_id g)) p' g').
  { destruct name as [n|].
    - rewrite bind_bind, bind_self in H. cbv beta in H.
      rewrite bind_bind, bind_lift in H.
      change (datasets q) with (datasets p ++ [dataset])%list in H.
      rewrite py_getitem_last in H. cbv beta iota in H.
      rewrite bind_assign in H. cbv beta in H.
      change (datasets q) with (datasets p ++ [dataset])%list in H.
      rewrite rename_last_app in H.
      exists (with_datasets
                (write_dataset (set_name n dataset) (datasets p ++ [dataset])) q).
      split; [reflexivity|]. split; [reflexivity|].
      unfold get_x_range, get_y_range in H.
      rewrite bind_self in H. cbv beta in H.
      rewrite bind_new_list in H. cbv beta in H.
      rewrite bind_self in H. cbv beta in H.
      rewrite bind_new_list in H. cbv beta in H.
      match type of H with
      | ?c ?s ?h = _ =>
          match goal with
          | |- only_ranges ?s' ?h' _ _ =>
              change (only_ranges s' h' (self_after (mkRun (Ok tt) p' g'))
                                  (globals_after (mkRun (Ok tt) p' g')))
          end;
          rewrite <- H
      end.
      apply expand_ranges_only_ranges.
    - rewrite bind_ret in H.
      exists q. split; [reflexivity|]. split; [reflexivity|].
      unfold get_x_range, get_y_range in H.
      rewrite bind_self in H. cbv beta in H.
      rewrite bind_new_list in H. cbv beta in H.
      rewrite bind_self in H. cbv beta in H.
      rewrite bind_new_list in H. cbv beta in H.
      match type of H with
      | ?c ?s ?h = _ =>
          match goal with
          | |- only_ranges ?s' ?h' _ _ =>
              change (only_ranges s' h' (self_after (mkRun (Ok tt) p' g'))
                                  (globals_after (mkRun (Ok tt) p' g')))
          end;
          rewrite <- H
      end.
      apply expand_ranges_only_ranges. }
  clear H. destruct Hq as (q' & Hds & Hrest & [Hout ->]).
  assert (Hdc : datasets_colors p' = (datasets_colors p ++ [c])%list).
  { change (datasets_colors (outside_ranges p') = (datasets_colors p ++ [c])%list).
    rewrite Hout.
    change (datasets_colors (with_datasets [] q') = (datasets_colors p ++ [c])%list).
    rewrite Hrest. reflexivity. }
  assert (Hcc : color_count p' = cursor_after color p).
  { change (color_count (outside_ranges p') = cursor_after color p).
    rewrite Hout.
    change (color_count (with_datasets [] q') = cursor_after color p).
    rewrite Hrest. reflexivity. }
  assert (Hd : datasets p' = datasets_added name dataset (datasets p)).
  { change (datasets (outside_ranges p') = datasets_added name dataset (datasets p)).
    rewrite Hout. exact Hds. }
  split; [exists c; split; [exact Hc | exact Hdc]|].
  split; [exact Hcc|].
  split; [rewrite Hd; apply datasets_added_length|].
  split; [rewrite Hd; apply datasets_added_last|].
  split; [intros ->; exact Hd|].
  split; [exact Hd|].
  split; [|reflexivity].
  unfold outside_datasets_and_ranges. rewrite Hout.
  change (with_datasets [] (with_datasets_colors []
            (with_color_count 0 (outside_ranges (with_datasets [] q')))) =
          with_datasets [] (with_datasets_colors []
            (with_color_count 0 (outside_ranges p)))).
  rewrite Hrest. subst q. destruct p; reflexivity.
Qed.

Lemma add_dataset_records_witness :
  let r := and_then fresh_plot (add_dataset run_B (Some "blue") (Some "second")) in
  result r = Ok tt /\
  datasets_colors (self_after r) = ["#e41a1c"; "blue"] /\
  color_count (self_after r) = 1 /\
  py_getitem (datasets (self_after r)) (-1) = Ok (set_name "second" run_B).
Proof.
  cbv zeta. unfold and_then.
  set (p := self_after fresh_plot). set (g := globals_after fresh_plot).
  assert (Hres : result (add_dataset run_B (Some "blue") (Some "second") p g)
                 = Ok tt) by (vm_compute; reflexivity).
  split; [exact Hres|].
  destruct (add_dataset_records run_B (Some "blue") (Some "second") p g _ _
              (run_eta (add_dataset run_B (Some "blue") (Some "second") p g)
                       tt Hres))
    as ((c & Hc & Hdc) & Hcc & _ & Hlast & _).
  cbn [colour_given] in Hc. injection Hc as <-.
  split; [exact Hdc|]. split; [exact Hcc | exact Hlast].
Defined.

Lemma outside_functions_recorded (p : Plot) (fs : list UserFunction)
    (ps : list Pars) (ns cs : list string) (n cc : Z) :
  outside_functions
    (with_user_functions_colors cs
       (with_color_count cc
          (with_user_functions_count n
             (with_user_functions_names ns
                (with_user_functions_pars ps (with_user_functions fs p))))))
  = outside_functions p.
Proof. destruct p; reflexivity. Qed.

Lemma outside_ranges_functions (p : Plot) :
  outside_functions (outside_ranges p) = outside_ranges (outside_functions p).
Proof. destruct p; reflexivity. Qed.

(** The two conditional assignments to the y-range in [add_function]
    touch the ranges only. *)
Lemma widen_only_ranges (b : bool) (r : PyRange) (i : Z) (v : Q) :
  respects only_ranges (if b then range_setitem r i v else ret tt).
Proof.
  respects_with only_ranges_refl only_ranges_trans; intros; split; reflexivity.
Qed.

(** [add_function] from the computation of [fmax] on, when it returns. *)
Lemma add_function_record_records (function : UserFunction) (pars : Pars)
    (name color : option string) (fvals : FValue)
    (p : Plot) (g : Globals) (p' : Plot) (g' : Globals) :
  add_function_record function pars name color fvals p g = mkRun (Ok tt) p' g' ->
  user_functions p' = (user_functions p ++ [function])%list /\
  user_functions_pars p' = (user_functions_pars p ++ [pars])%list /\
  user_functions_names p' = (user_functions_names p ++ [name_given name p])%list /\
  user_functions_count p' = user_functions_count p + 1 /\
  (exists c, colour_given color p = Ok c /\
             user_functions_colors p' = (user_functions_colors p ++ [c])%list) /\
  color_count p' = cursor_after color p /\
  outside_functions_and_ranges p' = outside_functions_and_ranges p /\
  g' = g.
Proof.
  intros H. unfold add_function_record in H.
  rewrite bind_self, bind_lift in H. cbv beta in H.
  destruct (fvalue_max fvals) as [vmax|e]; [|discriminate H].
  rewrite bind_self, bind_lift in H. cbv beta in H.
  destruct (fvalue_min fvals) as [vmin|e]; [|discriminate H].
  rewrite bind_self, bind_lift, range_getitem_1 in H. cbv beta iota in H.
  apply (bind_run_from only_ranges) in H; [|apply widen_only_ranges].
  destruct H as (_ & p1 & g1 & [Hp1 ->] & H).
  rewrite bind_self, bind_lift, range_getitem_0 in H. cbv beta iota in H.
  apply (bind_run_from only_ranges) in H; [|apply widen_only_ranges].
  destruct H as (_ & p2 & g2 & [Hp2 ->] & H).
  assert (Hout : outside_ranges p2 = outside_ranges p) by congruence.
  clear Hp1 Hp2 p1.
  rewrite bind_assign in H. cbv beta in H.
  rewrite bind_assign in H. cbv beta in H.
  rewrite bind_self in H. cbv beta in H.
  rewrite bind_assign in H. cbv beta in H.
  rewrite bind_assign in H. cbv beta in H.
  norm_in H.
  assert (Hf : user_functions p2 = user_functions p)
    by (change (user_functions (outside_ranges p2) = user_functions (outside_ranges p));
        rewrite Hout; reflexivity).
  assert (Hfp : user_functions_pars p2 = user_functions_pars p)
    by (change (user_functions_pars (outside_ranges p2)
                = user_functions_pars (outside_ranges p));
        rewrite Hout; reflexivity).
  assert (Hfn : user_functions_names p2 = user_functions_names p)
    by (change (user_functions_names (outside_ranges p2)
                = user_functions_names (outside_ranges p));
        rewrite Hout; reflexivity).
  assert (Hfc : user_functions_count p2 = user_functions_count p)
    by (change (user_functions_count (outside_ranges p2)
                = user_functions_count (outside_ranges p));
        rewrite Hout; reflexivity).
  assert (Hcol : user_functions_colors p2 = user_functions_colors p)
    by (change (user_functions_colors (outside_ranges p2)
                = user_functions_colors (outside_ranges p));
        rewrite Hout; reflexivity).
  assert (Hcc : color_count p2 = color_count p)
    by (change (color_count (outside_ranges p2) = color_count (outside_ranges p));
        rewrite Hout; reflexivity).
  assert (Hpal : color_palette p2 = color_palette p)
    by (change (color_palette (outside_ranges p2) = color_palette (outside_ranges p));
        rewrite Hout; reflexivity).
  assert (Hrest : forall cs cc,
            outside_functions_and_ranges
              (with_user_functions_colors cs
                 (with_color_count cc
                    (with_user_functions_count (user_functions_count p2 + 1)
                       (with_user_functions_names
                          (user_functions_names p2 ++ [name_given name p2])
                          (with_user_functions_pars (user_functions_pars p2 ++ [pars])
                             (with_user_functions (user_functions p2 ++ [function])
                                p2))))))
            = outside_functions_and_ranges p).
  { intros cs cc. unfold outside_functions_and_ranges.
    rewrite !outside_ranges_functions, outside_functions_recorded.
    rewrite <- !outside_ranges_functions, Hout. reflexivity. }
  unfold name_given in Hrest |- *.
  destruct color as [c|].
  - unfold assign in H. apply run_inj in H. destruct H as (_ & <- & <-).
    norm. rewrite Hf, Hfp, Hfn, Hfc, Hcol, Hcc.
    repeat split; try reflexivity.
    + exists c. split; reflexivity.
    + rewrite <- (Hrest (user_functions_colors p2 ++ [c])%list (color_count p2)).
      rewrite Hf, Hfp, Hfn, Hfc. destruct p2; reflexivity.
  - rewrite bind_get_color in H. norm_in H.
    destruct (py_getitem (color_palette p2) (color_count p2 + 1 - 1))
      as [c|e] eqn:Ec; [|discriminate H].
    unfold assign in H. apply run_inj in H. destruct H as (_ & <- & <-).
    norm. rewrite Hf, Hfp, Hfn, Hfc, Hcol, Hcc.
    repeat split; try reflexivity.
    + exists c. split; [|reflexivity].
      cbn [colour_given]. rewrite <- Hpal, <- Hcc. exact Ec.
    + rewrite <- (Hrest (user_functions_colors p2 ++ [c])%list (color_count p2 + 1)).
      rewrite Hf, Hfp, Hfn, Hfc. destruct p2; reflexivity.
Qed.

(** X16.  [add_function] with parameters of a recognized form, when it
    returns, has appended the function, its parameters, a name and a
    colour to the four lists and counted the function.  The name is the
    one given, or else "userf_" followed by the number of functions
    counted before the call, named ones included.  The colour is the
    explicit one, which leaves the palette cursor where it was, or else
    the next of the palette.  Apart from these and the ranges the plot is
    unchanged. *)
Theorem add_function_records (function : UserFunction) (pars : Pars)
    (name color : option string) (p : Plot) (g : Globals)
    (p' : Plot) (g' : Globals) :
  recognized pars = true ->
  add_function function pars name color p g = mkRun (Ok tt) p' g' ->
  user_functions p' = (user_functions p ++ [function])%list /\
  user_functions_pars p' = (user_functions_pars p ++ [pars])%list /\
  user_functions_names p' = (user_functions_names p ++ [name_given name p])%list /\
  user_functions_count p' = user_functions_count p + 1 /\
  (exists c, colour_given color p = Ok c /\
             user_functions_colors p' = (user_functions_colors p ++ [c])%list) /\
  color_count p' = cursor_after color p /\
  outside_functions_and_ranges p' = outside_functions_and_ranges p /\
  g' = snd (sample function pars p g).
Proof.
  intros Hrec H. rewrite add_function_run, Hrec in H.
  destruct (sample function pars p g) as [[fvals|e] g1]; [|discriminate H].
  apply add_function_record_records in H.
  destruct H as (H1 & H2 & H3 & H4 & H5 & H6 & H7 & ->).
  repeat split; assumption.
Qed.

Lemma add_function_records_witness :
  recognized ParsNone = true /\
  result named_then_unnamed = Ok tt /\
  user_functions_names (self_after named_then_unnamed) = ["mine"; "userf_1"] /\
  user_functions_colors (self_after named_then_unnamed) = ["#377eb8"; "green"] /\
  color_count (self_after named_then_unnamed) = 2.
Proof.
  split; [reflexivity|].
  unfold named_then_unnamed, and_then.
  set (r := add_function identity_function ParsNone (Some "mine") None
              (self_after fresh_plot) (globals_after fresh_plot)).
  assert (Hnames : user_functions_names (self_after r) = ["mine"])
    by (vm_compute; reflexivity).
  assert (Hcols : user_functions_colors (self_after r) = ["#377eb8"])
    by (vm_compute; reflexivity).
  assert (Hcount : user_functions_count (self_after r) = 1)
    by (vm_compute; reflexivity).
  assert (Hcursor : color_count (self_after r) = 2)
    by (vm_compute; reflexivity).
  set (p := self_after r) in *. set (g := globals_after r).
  assert (Hres : result (add_function identity_function ParsNone None
                           (Some "green") p g) = Ok tt)
    by (vm_compute; reflexivity).
  split; [exact Hres|].
  destruct (add_function_records identity_function ParsNone None (Some "green")
              p g _ _ eq_refl
              (run_eta (add_function identity_function ParsNone None
                          (Some "green") p g) tt Hres))
    as (_ & _ & Hn & _ & (c & Hc & Hcs) & Hcc & _).
  cbn [colour_given] in Hc. injection Hc as <-.
  rewrite Hn, Hcs, Hcc, Hnames, Hcols.
  unfold name_given, cursor_after. rewrite Hcount, Hcursor.
  repeat split; reflexivity.
Defined.

(** *** A dataset without a colour stays without one *)

Lemma no_colour_gained_refl (p : Plot) (g : Globals) : no_colour_gained p g p g.
Proof. unfold no_colour_gained. lia. Qed.

Lemma no_colour_gained_trans (p1 : Plot) (g1 : Globals) (p2 : Plot) (g2 : Globals)
    (p3 : Plot) (g3 : Globals) :
  no_colour_gained p1 g1 p2 g2 -> no_colour_gained p2 g2 p3 g3 ->
  no_colour_gained p1 g1 p3 g3.
Proof. unfold no_colour_gained. lia. Qed.

Lemma same_lengths_refl (p : Plot) (g : Globals) : same_lengths p g p g.
Proof. split; reflexivity. Qed.

Lemma same_lengths_trans (p1 : Plot) (g1 : Globals) (p2 : Plot) (g2 : Globals)
    (p3 : Plot) (g3 : Globals) :
  same_lengths p1 g1 p2 g2 -> same_lengths p2 g2 p3 g3 -> same_lengths p1 g1 p3 g3.
Proof. unfold same_lengths. intros [? ?] [? ?]. split; congruence. Qed.

Lemma same_lengths_no_colour_gained {A : Type} (c : M A) :
  respects same_lengths c -> respects no_colour_gained c.
Proof.
  intros H p g. destruct (H p g) as [Hd Hc]. unfold no_colour_gained. lia.
Qed.

Lemma rename_last_length (n : string) (ds : list XYDataSet) :
  length (rename_last n ds) = length ds.
Proof.
  unfold rename_last. destruct (rev ds) as [|d front] eqn:E.
  - apply (f_equal (@length _)) in E. rewrite length_rev in E. cbn [length] in *.
    lia.
  - apply write_dataset_length.
Qed.

Ltac same_lengths_steps :=
  repeat first
    [ apply (respects_new_list _ (fun p g => same_lengths_refl p (bump_id g)))
    | apply (respects_ret _ same_lengths_refl)
    | apply (respects_raise _ same_lengths_refl)
    | apply (respects_lift _ same_lengths_refl)
    | apply (respects_self _ same_lengths_refl)
    | apply (respects_globals _ same_lengths_refl)
    | apply (respects_dict_getitem _ same_lengths_refl)
    | apply (respects_range_setitem _ same_lengths_refl same_lengths_trans);
      intros; split; reflexivity
    | apply (respects_get_color _ same_lengths_refl same_lengths_trans);
      intros; split; reflexivity
    | apply respects_assign; intros; split; norm;
      rewrite ?rename_last_length, ?write_dataset_length; reflexivity
    | apply respects_assign_global; intros; split; reflexivity
    | apply (respects_initialize_bokeh_figure _ same_lengths_refl
               same_lengths_trans); intros; split; reflexivity
    | apply (respects_plot_dataset_bkfigure _ same_lengths_refl
               same_lengths_trans); intros; split; reflexivity
    | apply (respects_plot_function_bkfigure _ same_lengths_refl
               same_lengths_trans); intros; split; reflexivity
    | apply (respects_the_bkfigure _ same_lengths_refl same_lengths_trans)
    | apply (respects_populate_bokeh_figure _ same_lengths_refl
               same_lengths_trans); intros; split; reflexivity
    | apply (respects_bind _ same_lengths_trans); [|intros ?]
    | match goal with
      | |- respects _ (if ?b then _ else _) => destruct b
      | |- respects _ (match ?x with Some _ => _ | None => _ end) => destruct x
      end ].

Lemma add_dataset_no_colour_gained (dataset : XYDataSet) (color name : option string) :
  respects no_colour_gained (add_dataset dataset color name).
Proof.
  intros p g. unfold add_dataset. rewrite bind_assign. cbv beta.
  assert (Hrest : forall q h (c : M unit),
            respects same_lengths c ->
            (length (datasets p) + length (datasets_colors q)
             <= length (datasets q) + length (datasets_colors p))%nat ->
            no_colour_gained p g (self_after (c q h)) (globals_after (c q h))).
  { intros q h c Hc Hq. destruct (Hc q h) as [Hd Hcs].
    unfold no_colour_gained. lia. }
  destruct color as [c|].
  - rewrite bind_assign. cbv beta.
    apply Hrest.
    + unfold get_x_range, get_y_range. same_lengths_steps.
    + norm. rewrite !length_app. cbn [length]. lia.
  - rewrite bind_bind, bind_get_color. norm.
    destruct (py_getitem (color_palette p) (color_count p + 1 - 1)) as [c|e].
    + rewrite bind_assign. cbv beta.
      apply Hrest.
      * unfold get_x_range, get_y_range. same_lengths_steps.
      * norm. rewrite !length_app. cbn [length]. lia.
    + unfold no_colour_gained. cbn. rewrite !length_app. cbn [length]. lia.
Qed.

Lemma show_same_lengths (output : string) (populate_figure : bool) :
  respects same_lengths (show output populate_figure).
Proof.
  unfold show, set_bokeh_output, bp_show. same_lengths_steps.
  all: destruct b; same_lengths_steps.
Qed.

Lemma show_linear_fit_same_lengths (output : string) :
  respects same_lengths (show_linear_fit output).
Proof.
  unfold show_linear_fit, clear_fits_last, fit_last, print, print_lines.
  same_lengths_steps.
  all: apply show_same_lengths.
Qed.

Lemma interact_linear_fit_same_lengths (interact : Sliders -> M unit)
    (error_range : Q) :
  writes_glyph_data interact ->
  respects same_lengths (interact_linear_fit interact error_range).
Proof.
  intros Hw. unfold interact_linear_fit. same_lengths_steps.
  intros p g.
  match goal with
  | |- same_lengths _ _ (self_after (interact ?s _ _)) _ =>
      pose proof (Hw s p g) as H; set (p' := self_after (interact s p g)) in *
  end.
  split.
  - change (length (datasets (outside_linear_fit p')) = length (datasets p)).
    rewrite H. reflexivity.
  - change (length (datasets_colors (outside_linear_fit p'))
            = length (datasets_colors p)).
    rewrite H. reflexivity.
Qed.

Lemma run_method_no_colour_gained (ARRAY : list SeqType)
    (array_str : list Measurement -> string) (m : Method) :
  respects no_colour_gained (run_method ARRAY array_str m).
Proof.
  destruct m; cbn [run_method];
    try (apply add_dataset_no_colour_gained);
    apply same_lengths_no_colour_gained.
  - same_lengths_steps.
  - unfold fit, print_lines. same_lengths_steps.
  - unfold print_fit_parameters, print. same_lengths_steps.
  - unfold add_residuals. same_lengths_steps.
  - unfold add_function, add_function_record, evaluate_with_measurements, call,
      print.
    same_lengths_steps.
    all: intros p g; split; reflexivity.
  - unfold set_range_from_dataset, get_x_range, get_y_range. same_lengths_steps.
  - unfold set_plot_range, is_range, print. same_lengths_steps.
  - unfold set_labels. same_lengths_steps.
  - unfold resize_plot. same_lengths_steps.
  - unfold set_errorband_sigma. same_lengths_steps.
  - apply show_same_lengths.
  - unfold set_bokeh_output. same_lengths_steps.
  - same_lengths_steps.
  - same_lengths_steps.
Qed.

Lemma run_any_no_colour_gained (ARRAY : list SeqType)
    (array_str : list Measurement -> string) (interact : Sliders -> M unit)
    (m : AnyMethod) :
  writes_glyph_data interact ->
  respects no_colour_gained (run_any ARRAY array_str interact m).
Proof.
  intros Hw. destruct m as [m | output | error_range]; cbn [run_any].
  - apply run_method_no_colour_gained.
  - apply same_lengths_no_colour_gained, show_linear_fit_same_lengths.
  - apply same_lengths_no_colour_gained, interact_linear_fit_same_lengths, Hw.
Qed.

Lemma long_session_no_colour_gained (ARRAY : list SeqType)
    (array_str : list Measurement -> string) (interact : Sliders -> M unit)
    (ms : list AnyMethod) (p : Plot) (g : Globals) :
  writes_glyph_data interact ->
  lacks_a_colour p ->
  lacks_a_colour (fst (long_session ARRAY array_str interact ms p g)).
Proof.
  intros Hw. revert p g.
  induction ms as [|m rest IH]; intros p g Hp; [exact Hp|].
  cbn [long_session]. apply IH.
  pose proof (run_any_no_colour_gained ARRAY array_str interact m Hw p g) as H.
  unfold no_colour_gained in H. unfold lacks_a_colour in *. lia.
Qed.

(** X17.  No method gives a colour to a dataset that lacks one: every
    method of the class adds at least as many datasets as colours, whether
    it returns or raises ([interact_linear_fit] as long as the callback of
    its widgets writes the data of the two glyphs only).  So a plot with
    fewer colours than datasets, as a failed [add_dataset] leaves it, is
    never rendered again, whatever methods are called on it in between:
    [populate_bokeh_figure] raises, and so does [show] when it populates
    the figure ([populate_figure=True], the default). *)
Theorem colourless_dataset_is_never_shown (ARRAY : list SeqType)
    (array_str : list Measurement -> string) (interact : Sliders -> M unit)
    (ms : list AnyMethod) (output : string) (p : Plot) (g : Globals) :
  writes_glyph_data interact ->
  lacks_a_colour p ->
  let s := long_session ARRAY array_str interact ms p g in
  lacks_a_colour (fst s) /\
  (exists e, result (populate_bokeh_figure (fst s) (snd s)) = Raise e) /\
  exists e, result (show output true (fst s) (snd s)) = Raise e.
Proof.
  intros Hw Hp. cbv zeta.
  pose proof (long_session_no_colour_gained ARRAY array_str interact ms p g Hw Hp)
    as Hs.
  set (s := long_session ARRAY array_str interact ms p g) in *.
  split; [exact Hs|]. split.
  - destruct (result (populate_bokeh_figure (fst s) (snd s))) as [obj|e] eqn:E;
      [|exists e; reflexivity].
    apply populate_bokeh_figure_returns in E. unfold lacks_a_colour in Hs. lia.
  - destruct (result (show output true (fst s) (snd s)))
      as [[]|e] eqn:E; [|exists e; reflexivity].
    unfold show in E.
    apply (bind_returns_from same_plot) in E; [|apply set_bokeh_output_same_plot].
    destruct E as (_ & p1 & g1 & Hp1 & E). unfold same_plot in Hp1. subst p1.
    apply bind_returns in E. destruct E as (obj & E & _).
    apply populate_bokeh_figure_returns in E. unfold lacks_a_colour in Hs. lia.
Qed.

Lemma colourless_dataset_is_never_shown_witness :
  writes_glyph_data silent_widgets /\
  lacks_a_colour (self_after tenth_dataset) /\
  let s := long_session array_types show_means silent_widgets repair_attempt
             (self_after tenth_dataset) (globals_after tenth_dataset) in
  exists e, result (show "inline" true (fst s) (snd s)) = Raise e.
Proof.
  assert (Hp : lacks_a_colour (self_after tenth_dataset))
    by (unfold lacks_a_colour; vm_compute; lia).
  assert (Hw : writes_glyph_data silent_widgets)
    by (intros s p g; reflexivity).
  split; [exact Hw|].
  split; [exact Hp|].
  exact (proj2 (proj2 (colourless_dataset_is_never_shown array_types show_means
                  silent_widgets repair_attempt "inline"
                  (self_after tenth_dataset) (globals_after tenth_dataset)
                  Hw Hp))).
Defined.

(** *** What [show_linear_fit] draws *)

Lemma quiet_refl (p : Plot) (g : Globals) : quiet p g p g.
Proof. split; reflexivity. Qed.

Lemma quiet_trans (p1 : Plot) (g1 : Globals) (p2 : Plot) (g2 : Globals)
    (p3 : Plot) (g3 : Globals) :
  quiet p1 g1 p2 g2 -> quiet p2 g2 p3 g3 -> quiet p1 g1 p3 g3.
Proof. unfold quiet. intros [? ?] [? ?]. split; congruence. Qed.

Lemma initialize_main_figure_quiet :
  respects quiet (initialize_bokeh_figure false).
Proof.
  apply (respects_initialize_bokeh_figure _ quiet_refl quiet_trans).
  intros; split; reflexivity.
Qed.

Lemma set_bokeh_output_quiet (output : string) :
  respects quiet (set_bokeh_output output).
Proof.
  unfold set_bokeh_output.
  respects_with quiet_refl quiet_trans; intros; split; reflexivity.
Qed.

(** What remains of [show_linear_fit] once the ranges are settled, when
    it returns: the figure holds the data and the fitted line and nothing
    else, it is the object shown, and the parameters are kept. *)
Lemma show_linear_fit_drawing (output : string)
    (dataset : XYDataSet) (color : string) (func : FitFunction)
    (pars : list Measurement) (q : Plot) (h : Globals) (p' : Plot) (g' : Globals) :
  (let* fig := initialize_bokeh_figure false in
   let* _ := assign (with_bkfigure (Some (BkFigure fig))) in
   let* _ := plot_dataset_bkfigure dataset false color in
   let* p := self in
   let* x0 := lift (range_getitem (x_range p) 0) in
   let* x1 := lift (range_getitem (x_range p) 1) in
   let xvals := [(x0 + x_range_margin p)%Q; (x1 - x_range_margin p)%Q] in
   let* p := self in
   let* drawn := plot_function_bkfigure (FitModel func) xvals
                   (ParsMeasurementArray pars) 100 "linear" color
                   (errorband_sigma p) in
   let* _ := assign (with_linear_fit_line (Some (fst drawn))) in
   let* _ := assign (with_linear_fit_patches (Some (snd drawn))) in
   let* _ := assign (with_linear_fit_pars (Some pars)) in
   let* f := the_bkfigure in
   let* p := self in
   let* _ := assign (with_bkfigure
               (Some (BkFigure (set_legend_location (legend_location p) f)))) in
   show output false) q h = mkRun (Ok tt) p' g' ->
  exists f,
    bkfigure p' = Some (BkFigure f) /\
    renderers f = linear_fit_marks dataset color func pars q /\
    layouts f = [] /\
    legend_location_ f = Some (legend_location q) /\
    f_y_range f = interval (y_range q) /\
    linear_fit_pars p' = Some pars /\
    outside_linear_fit p' = outside_linear_fit q /\
    stdout g' = stdout h /\
    (exists calls, bokeh_calls g' = (calls ++ [Show (figure_id f)])%list).
Proof.
  intros H.
  rewrite (bind_run _ _ _ _ _ _ _ (run_split (initialize_bokeh_figure false q h)))
    in H.
  destruct (result (initialize_bokeh_figure false q h)) as [fig|e] eqn:E;
    [|discriminate H].
  destruct (initialize_main_figure_quiet q h) as [Hself Hout1].
  rewrite Hself in H. clear Hself.
  destruct (initialize_main_figure_fields q h fig E)
    as (_ & _ & _ & _ & _ & _ & _ & Hy & _ & _ & Hr & Hl).
  match type of H with
  | _ _ ?h1 = _ => set (g1 := h1) in H, Hout1; clearbody g1
  end.
  clear E.
  rewrite bind_assign in H. cbv beta in H.
  unfold plot_dataset_bkfigure, plot_function_bkfigure, the_bkfigure in H.
  rewrite bind_bind, bind_bind, bind_self in H. norm_in H. cbv beta iota in H.
  rewrite bind_ret, bind_assign in H. cbv beta in H.
  rewrite bind_self, bind_lift, range_getitem_0 in H. cbv beta iota in H.
  rewrite bind_lift, range_getitem_1 in H. cbv beta iota zeta in H.
  rewrite bind_self in H. cbv beta in H.
  rewrite bind_bind, bind_bind, bind_self in H. norm_in H. cbv beta iota in H.
  rewrite bind_ret, bind_bind, bind_assign in H. cbv beta in H.
  rewrite bind_ret in H. norm_in H.
  rewrite bind_assign in H. cbv beta in H.
  rewrite bind_assign in H. cbv beta in H.
  rewrite bind_assign in H. cbv beta in H.
  rewrite bind_bind, bind_self in H. norm_in H. cbv beta iota in H.
  rewrite bind_ret, bind_self in H. cbv beta in H.
  rewrite bind_assign in H. cbv beta in H. norm_in H.
  unfold show in H.
  apply (bind_run_from quiet) in H; [|apply set_bokeh_output_quiet].
  destruct H as (_ & p1 & g2 & [-> Hout2] & H).
  cbv iota in H. rewrite bind_self in H. norm_in H. cbv beta iota in H.
  unfold bp_show, assign_global in H. apply run_inj in H.
  destruct H as (_ & <- & <-).
  eexists. split; [reflexivity|].
  cbn [renderers layouts legend_location_ f_y_range figure_id
       set_legend_location add_mark].
  rewrite Hr, Hl, Hy. unfold linear_fit_marks.
  split; [reflexivity|]. split; [reflexivity|]. split; [reflexivity|].
  split; [reflexivity|]. split; [reflexivity|].
  split; [destruct q; reflexivity|].
  split; [cbn [stdout log_bokeh]; congruence|].
  eexists. reflexivity.
Qed.

(** X18.  [show_linear_fit], when it returns, has drawn a new figure that
    holds two marks and no label: the most recently added dataset in its
    colour, and the line of its latest fit, drawn in the same colour
    between the ends of the x-range moved inwards by the margin.  No other
    dataset, no user function and no residual figure is drawn, whatever
    the plot holds.  That figure is the object shown last, it carries the
    plot's legend location, and the fitted parameters are kept for
    [interact_linear_fit].  When the plot has more than one dataset the
    warning is the first line the call prints; with one dataset, and after
    the warning, the lines printed are those of the collaborators (the fit
    of the dataset prints its results).  The number of datasets does not
    change. *)
Theorem show_linear_fit_draws_last_dataset (output : string)
    (p : Plot) (g : Globals) (p' : Plot) (g' : Globals) :
  show_linear_fit output p g = mkRun (Ok tt) p' g' ->
  exists dataset color func pars f,
    py_getitem (datasets p') (-1) = Ok dataset /\
    py_getitem (datasets_colors p) (-1) = Ok color /\
    py_getitem (fit_function dataset) (-1) = Ok func /\
    py_getitem (fit_pars dataset) (-1) = Ok pars /\
    bkfigure p' = Some (BkFigure f) /\
    renderers f = linear_fit_marks dataset color func pars p' /\
    layouts f = [] /\
    legend_location_ f = Some (legend_location p) /\
    linear_fit_pars p' = Some pars /\
    bkres p' = bkres p /\
    length (datasets p') = length (datasets p) /\
    (exists printed,
       stdout g' =
       (stdout g
        ++ (if 1 <? Z.of_nat (length (datasets p)) then [linear_fit_warning] else [])
        ++ printed)%list) /\
    (exists calls, bokeh_calls g' = (calls ++ [Show (figure_id f)])%list).
Proof.
  intros H. unfold show_linear_fit in H.
  rewrite bind_self in H. cbv beta in H.
  assert (Hwarn : forall (b : bool) (m : string) (k : unit -> M unit),
            bind (if b then print m else ret tt) k p g =
            k tt p (if b then write_stdout m g else g))
    by (intros [|] m k; reflexivity).
  rewrite Hwarn in H. clear Hwarn. cbv beta in H.
  fold linear_fit_warning in H.
  match type of H with ?f ?h = _ => set (g0 := h) in H |- * end.
  assert (Hg0 : stdout g0 =
                (stdout g ++ (if 1 <? Z.of_nat (length (datasets p))
                              then [linear_fit_warning] else []))%list).
  { subst g0. destruct (1 <? Z.of_nat (length (datasets p)));
      [reflexivity | symmetry; apply app_nil_r]. }
  clearbody g0.
  rewrite bind_self, bind_lift in H. cbv beta in H.
  destruct (py_getitem (datasets p) (-1)) as [d|e] eqn:Ed; [|discriminate H].
  rewrite bind_lift in H.
  destruct (py_getitem (datasets_colors p) (-1)) as [color|e] eqn:Ecol;
    [|discriminate H].
  unfold clear_fits_last in H.
  rewrite bind_bind, bind_self in H. cbv beta in H.
  rewrite bind_bind, bind_lift, Ed in H.
  rewrite bind_assign in H. cbv beta in H.
  unfold fit_last in H.
  rewrite bind_bind, bind_self in H. cbv beta in H.
  rewrite bind_bind, bind_lift in H. norm_in H.
  rewrite (py_getitem_write_dataset d (clear_fits d) _ _ Ed eq_refl) in H.
  unfold print_lines in H.
  rewrite bind_bind, bind_assign_global in H. cbv beta in H.
  change (fit_report (clear_fits d)) with (fit_report d) in H.
  match type of H with ?f ?s ?h = _ => set (g1 := h) in H end.
  assert (Hg1 : stdout g1 =
                (stdout g ++ (if 1 <? Z.of_nat (length (datasets p))
                              then [linear_fit_warning] else [])
                 ++ fit_report d "linear")%list).
  { subst g1. cbn [write_lines stdout]. rewrite Hg0, <- app_assoc. reflexivity. }
  clearbody g1.
  rewrite bind_bind, bind_assign in H. cbv beta in H.
  rewrite bind_lift in H. norm_in H.
  destruct (fit_dataset "linear" (clear_fits d)).1 as [fitted|e]; [|discriminate H].
  rewrite bind_self, bind_lift in H. norm_in H.
  destruct (py_getitem (write_dataset _ _) (-1)) as [dataset|e] eqn:Edata;
    [|discriminate H].
  rewrite bind_lift in H.
  destruct (py_getitem (fit_function dataset) (-1)) as [func|e] eqn:Efunc;
    [|discriminate H].
  rewrite bind_lift in H.
  destruct (py_getitem (fit_pars dataset) (-1)) as [pars|e] eqn:Epars;
    [|discriminate H].
  rewrite bind_lift, range_getitem_0 in H. cbv beta iota in H.
  match type of H with ?f ?s ?h = _ => set (q := s) in H end.
  assert (Hq : x_range q = x_range p /\ y_range q = y_range p /\
               x_range_margin q = x_range_margin p /\
               errorband_sigma q = errorband_sigma p /\
               legend_location q = legend_location p /\
               bkres q = bkres p /\
               py_getitem (datasets q) (-1) = Ok dataset /\
               length (datasets q) = length (datasets p)).
  { repeat split; try reflexivity.
    - exact Edata.
    - subst q. norm. rewrite !write_dataset_length. reflexivity. }
  clearbody q. destruct Hq as (Hqx & Hqy & Hqm & Hqs & Hql & Hqr & Hqd & Hqn).
  assert (Htail : forall s h,
            outside_ranges s = outside_ranges q ->
            (let* fig := initialize_bokeh_figure false in
             let* _ := assign (with_bkfigure (Some (BkFigure fig))) in
             let* _ := plot_dataset_bkfigure dataset false color in
             let* p := self in
             let* x0 := lift (range_getitem (x_range p) 0) in
             let* x1 := lift (range_getitem (x_range p) 1) in
             let xvals := [(x0 + x_range_margin p)%Q; (x1 - x_range_margin p)%Q] in
             let* p := self in
             let* drawn := plot_function_bkfigure (FitModel func) xvals
                             (ParsMeasurementArray pars) 100 "linear" color
                             (errorband_sigma p) in
             let* _ := assign (with_linear_fit_line (Some (fst drawn))) in
             let* _ := assign (with_linear_fit_patches (Some (snd drawn))) in
             let* _ := assign (with_linear_fit_pars (Some pars)) in
             let* f := the_bkfigure in
             let* p := self in
             let* _ := assign (with_bkfigure
                         (Some (BkFigure (set_legend_location (legend_location p) f)))) in
             show output false) s h = mkRun (Ok tt) p' g' ->
            stdout h = stdout g1 ->
            exists f,
              py_getitem (datasets p') (-1) = Ok dataset /\
              bkfigure p' = Some (BkFigure f) /\
              renderers f = linear_fit_marks dataset color func pars p' /\
              layouts f = [] /\
              legend_location_ f = Some (legend_location p) /\
              linear_fit_pars p' = Some pars /\
              bkres p' = bkres p /\
              length (datasets p') = length (datasets p) /\
              stdout g' = stdout g1 /\
              (exists calls, bokeh_calls g' = (calls ++ [Show (figure_id f)])%list)).
  { intros s h Hs Hrun Hh.
    apply show_linear_fit_drawing in Hrun.
    destruct Hrun as (f & Hf & Hr & Hl & Hloc & _ & Hp & Hout & Hstd & Hcalls).
    exists f.
    assert (Hd : datasets p' = datasets q).
    { change (datasets (outside_linear_fit p') = datasets (outside_ranges q)).
      rewrite Hout, <- Hs. reflexivity. }
    assert (Hm : linear_fit_marks dataset color func pars p' =
                 linear_fit_marks dataset color func pars s).
    { unfold linear_fit_marks.
      change (x_range p') with (x_range (outside_linear_fit p')).
      change (x_range_margin p') with (x_range_margin (outside_linear_fit p')).
      change (errorband_sigma p') with (errorband_sigma (outside_linear_fit p')).
      rewrite Hout. reflexivity. }
    split; [rewrite Hd; exact Hqd|].
    split; [exact Hf|].
    split; [rewrite Hm; exact Hr|].
    split; [exact Hl|].
    split.
    { rewrite Hloc, <- Hql.
      change (Some (legend_location (outside_ranges s))
              = Some (legend_location (outside_ranges q))).
      rewrite Hs. reflexivity. }
    split; [exact Hp|].
    split.
    { rewrite <- Hqr.
      change (bkres (outside_linear_fit p') = bkres (outside_ranges q)).
      rewrite Hout, <- Hs. reflexivity. }
    split; [rewrite Hd; exact Hqn|].
    split; [congruence | exact Hcalls]. }
  assert (Hgoal : (exists f,
              py_getitem (datasets p') (-1) = Ok dataset /\
              bkfigure p' = Some (BkFigure f) /\
              renderers f = linear_fit_marks dataset color func pars p' /\
              layouts f = [] /\
              legend_location_ f = Some (legend_location p) /\
              linear_fit_pars p' = Some pars /\
              bkres p' = bkres p /\
              length (datasets p') = length (datasets p) /\
              stdout g' = stdout g1 /\
              (exists calls, bokeh_calls g' = (calls ++ [Show (figure_id f)])%list))).
  { destruct (py_gt (lo (x_range p)) (- (1 # 2))%Q).
    - rewrite bind_bind in H.
      setitem_step H.
      all: rewrite bind_bind, bind_self in H; cbv beta in H.
      all: rewrite bind_bind, bind_lift in H; norm_in H.
      all: destruct (py_getitem (datasets q) (-1)) as [ds|e]; [|discriminate H].
      all: rewrite bind_bind, bind_lift in H.
      all: destruct (py_getitem (fit_function ds) (-1)) as [f0|e]; [|discriminate H].
      all: rewrite bind_bind, bind_lift, range_getitem_0 in H; cbv beta iota in H.
      all: setitem_step H.
      all: apply Htail in H; [exact H | destruct q; reflexivity | reflexivity].
    - rewrite bind_ret in H.
      apply Htail in H; [exact H | reflexivity | reflexivity]. }
  destruct Hgoal as (f & H1 & H2 & H3 & H4 & H5 & H6 & H7 & H8 & H9 & H10).
  exists dataset, color, func, pars, f.
  rewrite Hg1 in H9.
  repeat (split; [first [assumption | reflexivity]|]).
  split; [|exact H10].
  exists (fit_report d "linear"). exact H9.
Qed.

Lemma show_linear_fit_draws_last_dataset_witness :
  let r := and_then busy_plot (show_linear_fit "inline") in
  result r = Ok tt /\
  length (datasets (self_after busy_plot)) = 2%nat /\
  length (user_functions (self_after busy_plot)) = 1%nat /\
  show_residuals (self_after busy_plot) = true /\
  exists f, bkfigure (self_after r) = Some (BkFigure f) /\
            length (renderers f) = 2%nat /\
            layouts f = [].
Proof.
  cbv zeta. unfold and_then.
  set (p := self_after busy_plot). set (g := globals_after busy_plot).
  assert (Hres : result (show_linear_fit "inline" p g) = Ok tt)
    by (vm_compute; reflexivity).
  split; [exact Hres|].
  split; [vm_compute; reflexivity|].
  split; [vm_compute; reflexivity|].
  split; [vm_compute; reflexivity|].
  destruct (show_linear_fit_draws_last_dataset "inline" p g _ _
              (run_eta (show_linear_fit "inline" p g) tt Hres))
    as (dataset & color & func & pars & f & _ & _ & _ & _ & Hf & Hr & Hl & _).
  exists f. split; [exact Hf|]. split; [rewrite Hr; reflexivity | exact Hl].
Defined.

(** *** Ranges that cannot be widened *)

(** X19.  [add_dataset] widens the stored ranges by item assignment.  When
    the x-range is a tuple, as [set_plot_range] stores it if tuples are
    among the accepted types, and the new dataset reaches below it, the
    call raises TypeError after the dataset and its colour were appended
    and before the name is looked at again or any range is changed. *)
Theorem add_dataset_cannot_widen_a_tuple (dataset : XYDataSet) (c : string)
    (p : Plot) (g : Globals) :
  kind (x_range p) = TTuple ->
  (fst (x_extent dataset) - x_range_margin p < lo (x_range p))%Q ->
  add_dataset dataset (Some c) None p g =
  mkRun (Raise TypeError)
        (with_datasets_colors (datasets_colors p ++ [c])
           (with_datasets (datasets p ++ [dataset]) p))
        (bump_id (bump_id g)).
Proof.
  intros Hkind Hlow. unfold add_dataset.
  rewrite bind_assign. cbv beta.
  rewrite bind_assign. cbv beta.
  rewrite bind_ret.
  unfold get_x_range, get_y_range.
  rewrite bind_self. cbv beta. rewrite bind_new_list. cbv beta.
  rewrite bind_self. cbv beta. rewrite bind_new_list. cbv beta.
  rewrite bind_self, bind_lift, range_getitem_0. cbv beta iota. norm.
  apply py_lt_true in Hlow. rewrite Hlow.
  unfold range_setitem. rewrite Hkind. reflexivity.
Qed.

Lemma add_dataset_cannot_widen_a_tuple_witness :
  let r := and_then tuple_range_plot (add_dataset run_B (Some "blue") None) in
  result tuple_range_plot = Ok tt /\
  result r = Raise TypeError /\
  length (datasets (self_after r)) = 2%nat /\
  interval (x_range (self_after r)) = (0%Q, 10%Q).
Proof.
  cbv zeta. unfold and_then.
  split; [vm_compute; reflexivity|].
  rewrite (add_dataset_cannot_widen_a_tuple run_B "blue"
             (self_after tuple_range_plot) (globals_after tuple_range_plot)).
  - split; [reflexivity|]. split; vm_compute; reflexivity.
  - vm_compute. reflexivity.
  - vm_compute. reflexivity.
Defined.

(** *** What a rendering returns *)

(** The object a rendering returns, and what it leaves in
    [self.bkfigure]. *)
Lemma populate_bokeh_figure_returns_object (p : Plot) (g : Globals)
    (obj : BkObject) :
  result (populate_bokeh_figure p g) = Ok obj ->
  bkfigure (self_after (populate_bokeh_figure p g)) = Some obj /\
  match obj with
  | BkFigure f =>
      show_residuals p = false /\
      legend_location_ f = Some (legend_location p)
  | BkGrid id rows =>
      show_residuals p = true /\
      exists main res,
        rows = [[main]; [res]] /\
        legend_location_ main = Some (legend_location p) /\
        bkres (self_after (populate_bokeh_figure p g)) = Some res
  end.
Proof.
  intros Hres. pose proof (run_eta _ _ Hres) as H.
  set (p' := self_after (populate_bokeh_figure p g)) in *.
  set (g' := globals_after (populate_bokeh_figure p g)) in *.
  clearbody p' g'. clear Hres.
  unfold populate_bokeh_figure in H.
  apply (bind_run_from rendering_frame) in H;
    [|apply (respects_initialize_bokeh_figure _ rendering_frame_refl
               rendering_frame_trans rendering_frame_bump)].
  destruct H as (fig & p1 & g1 & [Hp1 _] & H).
  rewrite bind_assign, bind_self in H. cbv beta in H.
  apply (bind_run_from rendering_frame) in H.
  2:{ destruct (show_residuals _);
        [|apply (respects_ret _ rendering_frame_refl)].
      apply (respects_bind _ rendering_frame_trans);
        [apply (respects_initialize_bokeh_figure _ rendering_frame_refl
                  rendering_frame_trans rendering_frame_bump)|].
      intros res. apply respects_assign. intros. apply rendering_frame_bkres. }
  destruct H as (_ & p2 & g2 & [Hp2 _] & H).
  assert (Hconf2 : configuration p2 = configuration p).
  { rewrite Hp2. unfold configuration at 1. norm. exact Hp1. }
  clear Hp1 Hp2 p1 g1.
  rewrite bind_self in H. cbv beta in H.
  apply (bind_run_from rendering_frame) in H;
    [|apply (respects_draw_datasets _ rendering_frame_refl
               rendering_frame_trans
               rendering_frame_bkfigure rendering_frame_bkres)].
  destruct H as (_ & p3 & g3 & [Hp3 _] & H).
  rewrite bind_self, bind_lift, range_getitem_0 in H. cbv beta iota in H.
  rewrite bind_lift, range_getitem_1 in H. cbv beta iota zeta in H.
  apply (bind_run_from rendering_frame) in H;
    [|apply (respects_draw_functions _ rendering_frame_refl
               rendering_frame_trans rendering_frame_bkfigure)].
  destruct H as (_ & p4 & g4 & [Hp4 _] & H).
  assert (Hconf : configuration p4 = configuration p) by congruence.
  clear Hconf2 Hp3 Hp4 p2 g2 p3 g3.
  assert (Hres : show_residuals p4 = show_residuals p).
  { change (show_residuals (configuration p4) = show_residuals (configuration p)).
    rewrite Hconf. reflexivity. }
  assert (Hloc : legend_location p4 = legend_location p).
  { change (legend_location (configuration p4) = legend_location (configuration p)).
    rewrite Hconf. reflexivity. }
  clear Hconf.
  unfold the_bkfigure in H at 1. rewrite bind_bind, bind_self in H.
  cbv beta in H.
  destruct (bkfigure p4) as [[f | id rows]|]; try discriminate H.
  rewrite bind_ret, bind_self in H. cbv beta in H.
  rewrite bind_assign, bind_self in H. cbv beta in H. norm_in H.
  rewrite Hres, Hloc in H.
  destruct (show_residuals p).
  - unfold the_bkfigure, the_bkres in H.
    rewrite bind_bind, bind_bind, bind_self in H. norm_in H. cbv beta iota in H.
    rewrite bind_ret, bind_bind, bind_bind, bind_self in H. norm_in H.
    cbv beta in H.
    destruct (bkres p4) as [res|] eqn:Eres; [|discriminate H].
    rewrite bind_ret, bind_bind, bind_bi_gridplot in H. cbv beta in H.
    rewrite bind_assign, bind_self in H. cbv beta in H. norm_in H.
    cbv iota in H. unfold ret in H. apply run_inj in H.
    destruct H as (Hobj & <- & _). injection Hobj as <-.
    split; [reflexivity|]. split; [reflexivity|].
    eexists _, res. split; [reflexivity|]. split; [reflexivity|].
    norm. exact Eres.
  - rewrite bind_ret, bind_self in H. cbv beta in H. norm_in H. cbv iota in H.
    unfold ret in H. apply run_inj in H.
    destruct H as (Hobj & <- & _). injection Hobj as <-.
    split; [reflexivity|]. split; reflexivity.
Qed.

(** X20.  [populate_bokeh_figure], when it returns, returns the object it
    leaves in [self.bkfigure].  Without residuals that is the main figure;
    with residuals it is a new grid of two rows, the main figure above the
    residual figure, and [self.bkfigure] no longer holds a figure.  The
    main figure carries the plot's legend location. *)
Theorem populate_bokeh_figure_result (p : Plot) (g : Globals) (obj : BkObject) :
  result (populate_bokeh_figure p g) = Ok obj ->
  bkfigure (self_after (populate_bokeh_figure p g)) = Some obj /\
  match obj with
  | BkFigure f =>
      show_residuals p = false /\
      legend_location_ f = Some (legend_location p)
  | BkGrid id rows =>
      show_residuals p = true /\
      exists main res,
        rows = [[main]; [res]] /\
        legend_location_ main = Some (legend_location p) /\
        bkres (self_after (populate_bokeh_figure p g)) = Some res
  end.
Proof. exact (populate_bokeh_figure_returns_object p g obj). Qed.

Lemma populate_bokeh_figure_result_witness :
  exists id main res,
    result (and_then fitted_plot populate_bokeh_figure)
      = Ok (BkGrid id [[main]; [res]]) /\
    show_residuals (self_after fitted_plot) = true /\
    legend_location_ main = Some (legend_location (self_after fitted_plot)).
Proof.
  unfold and_then.
  set (p := self_after fitted_plot). set (g := globals_after fitted_plot).
  assert (Hres : exists id main res,
            result (populate_bokeh_figure p g) = Ok (BkGrid id [[main]; [res]]))
    by (vm_compute; eexists _, _, _; reflexivity).
  destruct Hres as (id & main & res & Hres).
  exists id, main, res. split; [exact Hres|].
  destruct (populate_bokeh_figure_result p g _ Hres)
    as (_ & Hshow & main' & res' & Hrows & Hloc & _).
  injection Hrows as <- <-.
  split; [exact Hshow | exact Hloc].
Defined.

(** *** Fitting a dataset of the plot *)

(** X21.  [fit] hands the model to the dataset at [datasetindex], counted
    from the end when negative, and returns what that dataset's fit
    returns or raises.  The fit changes that one dataset object: every
    position of the list bound to it (a dataset can be added more than
    once) shows the fitted dataset, and every position bound to another
    object holds what it held.  No other attribute of the plot changes.  An
    index outside the list raises IndexError and changes nothing. *)
Theorem fit_acts_on_one_dataset (model : string) (datasetindex : Z)
    (p : Plot) (g : Globals) :
  let r := fit model datasetindex p g in
  match py_getitem (datasets p) datasetindex with
  | Raise e => r = mkRun (Raise e) p g
  | Ok d =>
      result r = fst (fit_dataset model d) /\
      outside_datasets (self_after r) = outside_datasets p /\
      length (datasets (self_after r)) = length (datasets p) /\
      py_getitem (datasets (self_after r)) datasetindex =
        Ok (snd (fit_dataset model d)) /\
      forall j,
        py_getitem (datasets (self_after r)) j =
        match py_getitem (datasets p) j with
        | Ok x =>
            Ok (if Nat.eqb (dataset_id x) (dataset_id d)
                then snd (fit_dataset model d) else x)
        | Raise e => Raise e
        end
  end.
Proof.
  cbv zeta. unfold fit, print_lines. rewrite bind_self, bind_lift. cbv beta.
  destruct (py_getitem (datasets p) datasetindex) as [d|e] eqn:Ed;
    [|reflexivity].
  rewrite bind_assign_global. cbv beta.
  rewrite bind_assign. cbv beta. unfold lift.
  cbn [result self_after globals_after].
  split; [reflexivity|].
  split; [destruct p; reflexivity|].
  split; [norm; apply write_dataset_length|].
  split.
  - norm. apply (py_getitem_write_dataset d); [exact Ed|apply fit_dataset_id].
  - intros j. norm. unfold write_dataset. rewrite py_getitem_map.
    rewrite (fit_dataset_id model d). reflexivity.
Qed.

(** *** A function without a colour stays without one *)

Lemma no_function_colour_gained_refl (p : Plot) (g : Globals) :
  no_function_colour_gained p g p g.
Proof. unfold no_function_colour_gained. lia. Qed.

Lemma no_function_colour_gained_trans (p1 : Plot) (g1 : Globals)
    (p2 : Plot) (g2 : Globals) (p3 : Plot) (g3 : Globals) :
  no_function_colour_gained p1 g1 p2 g2 -> no_function_colour_gained p2 g2 p3 g3 ->
  no_function_colour_gained p1 g1 p3 g3.
Proof. unfold no_function_colour_gained. lia. Qed.

Lemma same_function_lengths_refl (p : Plot) (g : Globals) :
  same_function_lengths p g p g.
Proof. repeat split; reflexivity. Qed.

Lemma same_function_lengths_trans (p1 : Plot) (g1 : Globals)
    (p2 : Plot) (g2 : Globals) (p3 : Plot) (g3 : Globals) :
  same_function_lengths p1 g1 p2 g2 -> same_function_lengths p2 g2 p3 g3 ->
  same_function_lengths p1 g1 p3 g3.
Proof.
  unfold same_function_lengths. intros (? & ? & ? & ?) (? & ? & ? & ?).
  repeat split; congruence.
Qed.

Lemma same_function_lengths_no_colour_gained {A : Type} (c : M A) :
  respects same_function_lengths c -> respects no_function_colour_gained c.
Proof.
  intros H p g. destruct (H p g) as (Hf & Hp & Hn & Hc).
  unfold no_function_colour_gained, drawn_functions.
  rewrite !zip3_length, Hf, Hp, Hn, Hc. lia.
Qed.

Ltac same_function_lengths_steps :=
  repeat first
    [ apply (respects_new_list _
               (fun p g => same_function_lengths_refl p (bump_id g)))
    | apply (respects_ret _ same_function_lengths_refl)
    | apply (respects_raise _ same_function_lengths_refl)
    | apply (respects_lift _ same_function_lengths_refl)
    | apply (respects_self _ same_function_lengths_refl)
    | apply (respects_globals _ same_function_lengths_refl)
    | apply (respects_dict_getitem _ same_function_lengths_refl)
    | apply (respects_range_setitem _ same_function_lengths_refl
               same_function_lengths_trans);
      intros; repeat split; reflexivity
    | apply (respects_get_color _ same_function_lengths_refl
               same_function_lengths_trans);
      intros; repeat split; reflexivity
    | apply respects_assign; intros; repeat split; reflexivity
    | apply respects_assign_global; intros; repeat split; reflexivity
    | apply (respects_initialize_bokeh_figure _ same_function_lengths_refl
               same_function_lengths_trans); intros; repeat split; reflexivity
    | apply (respects_plot_dataset_bkfigure _ same_function_lengths_refl
               same_function_lengths_trans); intros; repeat split; reflexivity
    | apply (respects_plot_function_bkfigure _ same_function_lengths_refl
               same_function_lengths_trans); intros; repeat split; reflexivity
    | apply (respects_the_bkfigure _ same_function_lengths_refl
               same_function_lengths_trans)
    | apply (respects_populate_bokeh_figure _ same_function_lengths_refl
               same_function_lengths_trans); intros; repeat split; reflexivity
    | apply (respects_bind _ same_function_lengths_trans); [|intros ?]
    | match goal with
      | |- respects _ (if ?b then _ else _) => destruct b
      | |- respects _ (match ?x with Some _ => _ | None => _ end) => destruct x
      end ].

Lemma add_function_record_no_colour_gained (function : UserFunction) (pars : Pars)
    (name color : option string) (fvals : FValue) :
  respects no_function_colour_gained
           (add_function_record function pars name color fvals).
Proof.
  unfold add_function_record.
  repeat lazymatch goal with
         | |- respects _ (bind (assign _) _) => fail
         | |- respects _ (bind _ _) =>
             apply (respects_bind _ no_function_colour_gained_trans);
             [apply same_function_lengths_no_colour_gained;
              same_function_lengths_steps
             | intros ?]
         end.
  intros q h.
  rewrite bind_assign. cbv beta. rewrite bind_assign. cbv beta.
  rewrite bind_self. cbv beta. rewrite bind_assign. cbv beta.
  rewrite bind_assign. cbv beta.
  destruct color as [c|].
  - unfold assign, no_function_colour_gained, drawn_functions. norm.
    rewrite !zip3_length, !length_app. cbn [length]. lia.
  - rewrite bind_get_color. norm.
    destruct (py_getitem (color_palette q) (color_count q + 1 - 1)) as [c|e].
    + unfold assign, no_function_colour_gained, drawn_functions. norm.
      rewrite !zip3_length, !length_app. cbn [length]. lia.
    + unfold no_function_colour_gained, drawn_functions. norm.
      rewrite !zip3_length, !length_app. cbn [length]. lia.
Qed.

Lemma add_function_no_colour_gained (function : UserFunction) (pars : Pars)
    (name color : option string) :
  respects no_function_colour_gained (add_function function pars name color).
Proof.
  intros p g. rewrite add_function_run.
  destruct (recognized pars); [|exact (no_function_colour_gained_refl p g)].
  destruct (sample function pars p g) as [[fvals|e] g1];
    [|exact (no_function_colour_gained_refl p g)].
  pose proof (add_function_record_no_colour_gained function pars name color
                fvals p g1) as H.
  exact H.
Qed.

Lemma show_same_function_lengths (output : string) (populate_figure : bool) :
  respects same_function_lengths (show output populate_figure).
Proof.
  unfold show, set_bokeh_output, bp_show. same_function_lengths_steps.
  all: destruct b; same_function_lengths_steps.
Qed.

Lemma show_linear_fit_same_function_lengths (output : string) :
  respects same_function_lengths (show_linear_fit output).
Proof.
  unfold show_linear_fit, clear_fits_last, fit_last, print, print_lines.
  same_function_lengths_steps.
  all: apply show_same_function_lengths.
Qed.

Lemma interact_linear_fit_same_function_lengths (interact : Sliders -> M unit)
    (error_range : Q) :
  writes_glyph_data interact ->
  respects same_function_lengths (interact_linear_fit interact error_range).
Proof.
  intros Hw. unfold interact_linear_fit. same_function_lengths_steps.
  intros p g.
  match goal with
  | |- same_function_lengths _ _ (self_after (interact ?s _ _)) _ =>
      pose proof (Hw s p g) as H; set (p' := self_after (interact s p g)) in *
  end.
  unfold same_function_lengths.
  change (user_functions p') with (user_functions (outside_linear_fit p')).
  change (user_functions_pars p')
    with (user_functions_pars (outside_linear_fit p')).
  change (user_functions_names p')
    with (user_functions_names (outside_linear_fit p')).
  change (user_functions_colors p')
    with (user_functions_colors (outside_linear_fit p')).
  rewrite H. repeat split; reflexivity.
Qed.

Lemma run_method_no_function_colour_gained (ARRAY : list SeqType)
    (array_str : list Measurement -> string) (m : Method) :
  respects no_function_colour_gained (run_method ARRAY array_str m).
Proof.
  destruct m; cbn [run_method];
    try (apply add_function_no_colour_gained);
    apply same_function_lengths_no_colour_gained.
  - same_function_lengths_steps.
  - unfold fit, print_lines. same_function_lengths_steps.
  - unfold print_fit_parameters, print. same_function_lengths_steps.
  - unfold add_residuals. same_function_lengths_steps.
  - unfold add_dataset, get_x_range, get_y_range. same_function_lengths_steps.
  - unfold set_range_from_dataset, get_x_range, get_y_range.
    same_function_lengths_steps.
  - unfold set_plot_range, is_range, print. same_function_lengths_steps.
  - unfold set_labels. same_function_lengths_steps.
  - unfold resize_plot. same_function_lengths_steps.
  - unfold set_errorband_sigma. same_function_lengths_steps.
  - apply show_same_function_lengths.
  - unfold set_bokeh_output. same_function_lengths_steps.
  - same_function_lengths_steps.
  - same_function_lengths_steps.
Qed.

Lemma run_any_no_function_colour_gained (ARRAY : list SeqType)
    (array_str : list Measurement -> string) (interact : Sliders -> M unit)
    (m : AnyMethod) :
  writes_glyph_data interact ->
  respects no_function_colour_gained (run_any ARRAY array_str interact m).
Proof.
  intros Hw. destruct m as [m | output | error_range]; cbn [run_any].
  - apply run_method_no_function_colour_gained.
  - apply same_function_lengths_no_colour_gained,
      show_linear_fit_same_function_lengths.
  - apply same_function_lengths_no_colour_gained,
      interact_linear_fit_same_function_lengths, Hw.
Qed.

Lemma long_session_no_function_colour_gained (ARRAY : list SeqType)
    (array_str : list Measurement -> string) (interact : Sliders -> M unit)
    (ms : list AnyMethod) (p : Plot) (g : Globals) :
  writes_glyph_data interact ->
  lacks_a_function_colour p ->
  lacks_a_function_colour (fst (long_session ARRAY array_str interact ms p g)).
Proof.
  intros Hw. revert p g.
  induction ms as [|m rest IH]; intros p g Hp; [exact Hp|].
  cbn [long_session]. apply IH.
  pose proof (run_any_no_function_colour_gained ARRAY array_str interact m Hw p g)
    as H.
  unfold no_function_colour_gained in H. unfold lacks_a_function_colour in *. lia.
Qed.

(** X22.  [add_function] records the function, its parameters and its name
    before it asks the palette for a colour, and no method records a
    colour without a function: every method of the class adds at least as
    many functions to those a rendering draws as it adds colours for them,
    whether it returns or raises ([interact_linear_fit] as long as the
    callback of its widgets writes the data of the two glyphs only).  So
    once a function is left without a colour, as by an [add_function] that
    found the palette used up, the plot is never rendered again, whatever
    methods are called on it in between: [populate_bokeh_figure] raises,
    and so does [show] when it populates the figure ([populate_figure=True],
    the default). *)
Theorem colourless_function_is_never_shown (ARRAY : list SeqType)
    (array_str : list Measurement -> string) (interact : Sliders -> M unit)
    (ms : list AnyMethod) (output : string) (p : Plot) (g : Globals) :
  writes_glyph_data interact ->
  lacks_a_function_colour p ->
  let s := long_session ARRAY array_str interact ms p g in
  lacks_a_function_colour (fst s) /\
  (exists e, result (populate_bokeh_figure (fst s) (snd s)) = Raise e) /\
  exists e, result (show output true (fst s) (snd s)) = Raise e.
Proof.
  intros Hw Hp. cbv zeta.
  pose proof (long_session_no_function_colour_gained ARRAY array_str interact
                ms p g Hw Hp) as Hs.
  set (s := long_session ARRAY array_str interact ms p g) in *.
  split; [exact Hs|]. split.
  - destruct (result (populate_bokeh_figure (fst s) (snd s))) as [obj|e] eqn:E;
      [|exists e; reflexivity].
    apply populate_bokeh_figure_returns in E.
    unfold lacks_a_function_colour, drawn_functions in Hs. lia.
  - destruct (result (show output true (fst s) (snd s)))
      as [[]|e] eqn:E; [|exists e; reflexivity].
    unfold show in E.
    apply (bind_returns_from same_plot) in E; [|apply set_bokeh_output_same_plot].
    destruct E as (_ & p1 & g1 & Hp1 & E). unfold same_plot in Hp1. subst p1.
    apply bind_returns in E. destruct E as (obj & E & _).
    apply populate_bokeh_figure_returns in E.
    unfold lacks_a_function_colour, drawn_functions in Hs. lia.
Qed.

Lemma colourless_function_is_never_shown_witness :
  writes_glyph_data silent_widgets /\
  lacks_a_function_colour (fst nine_functions) /\
  let s := long_session array_types show_means silent_widgets
             [Other (CallAddFunction identity_function ParsNone None (Some "blue"));
              CallShowLinearFit "inline";
              Other (CallShow "inline" false)]
             (fst nine_functions) (snd nine_functions) in
  exists e, result (show "inline" true (fst s) (snd s)) = Raise e.
Proof.
  assert (Hp : lacks_a_function_colour (fst nine_functions))
    by (unfold lacks_a_function_colour, drawn_functions; vm_compute; lia).
  assert (Hw : writes_glyph_data silent_widgets)
    by (intros s p g; reflexivity).
  split; [exact Hw|].
  split; [exact Hp|].
  exact (proj2 (proj2 (colourless_function_is_never_shown array_types show_means
                  silent_widgets
                  [Other (CallAddFunction identity_function ParsNone None
                                          (Some "blue"));
                   CallShowLinearFit "inline";
                   Other (CallShow "inline" false)]
                  "inline" (fst nine_functions) (snd nine_functions)
                  Hw Hp))).
Defined.

(** *** What [show] leaves behind *)

(** X23.  [show], when it returns after populating the figure, has worked
    in a notebook with an output other than 'file'.  It leaves the
    configuration of the plot as it was and prints nothing; the object in
    [self.bkfigure] is the one handed to bokeh, in the one call to
    [bokeh.plotting.show] that the method makes, preceded by the call to
    [output_notebook] if that had not been made before. *)
Theorem show_hands_the_figure_to_bokeh (output : string)
    (p : Plot) (g : Globals) (p' : Plot) (g' : Globals) :
  show output true p g = mkRun (Ok tt) p' g' ->
  String.eqb output "file" = false /\
  in_notebook g = true /\
  configuration p' = configuration p /\
  stdout g' = stdout g /\
  bokeh_ouput_notebook_called g' = true /\
  exists obj,
    bkfigure p' = Some obj /\
    bokeh_calls g' =
      (bokeh_calls g
       ++ (if bokeh_ouput_notebook_called g then [] else [OutputNotebook])
       ++ [Show (object_id obj)])%list.
Proof.
  intros H. unfold show in H.
  unfold set_bokeh_output in H.
  rewrite bind_bind, bind_globals in H. cbv beta in H.
  destruct (String.eqb output "file") eqn:Hfile.
  { exfalso. cbn [orb] in H. cbv iota in H.
    rewrite bind_bind, bind_self, bind_bind, bind_dict_getitem in H.
    destruct (plot_para p !! "filename"); discriminate H. }
  destruct (in_notebook g) eqn:Hnb.
  2:{ exfalso. cbn [orb negb] in H. cbv iota in H.
      rewrite bind_bind, bind_self, bind_bind, bind_dict_getitem in H.
      destruct (plot_para p !! "filename"); discriminate H. }
  cbn [orb negb] in H. cbv iota in H.
  split; [reflexivity|]. split; [reflexivity|].
  assert (Hshow : forall h,
            in_notebook h = true ->
            bokeh_ouput_notebook_called h = true ->
            (let* obj := populate_bokeh_figure in bp_show obj) p h
              = mkRun (Ok tt) p' g' ->
            configuration p' = configuration p /\
            stdout g' = stdout h /\
            bokeh_ouput_notebook_called g' = true /\
            exists obj,
              bkfigure p' = Some obj /\
              bokeh_calls g' = (bokeh_calls h ++ [Show (object_id obj)])%list).
  { intros h Hn Hflag Hrun.
    rewrite (bind_run _ _ _ _ _ _ _ (run_split (populate_bokeh_figure p h)))
      in Hrun.
    destruct (result (populate_bokeh_figure p h)) as [obj|e] eqn:E;
      [|discriminate Hrun].
    destruct (populate_bokeh_figure_returns_object p h obj E) as [Hobj _].
    destruct (populate_bokeh_figure_frame p h) as (Hconf & Hamb & _).
    unfold bp_show, assign_global in Hrun. apply run_inj in Hrun.
    destruct Hrun as (_ & <- & <-).
    split; [exact Hconf|].
    assert (Ha : forall a b, ambient a = ambient b ->
              stdout a = stdout b /\
              bokeh_ouput_notebook_called a = bokeh_ouput_notebook_called b /\
              bokeh_calls a = bokeh_calls b).
    { intros a b Hab.
      change (stdout (ambient a) = stdout (ambient b) /\
              bokeh_ouput_notebook_called (ambient a)
                = bokeh_ouput_notebook_called (ambient b) /\
              bokeh_calls (ambient a) = bokeh_calls (ambient b)).
      rewrite Hab. repeat split. }
    destruct (Ha _ _ Hamb) as (Hs & Hf & Hc).
    cbn [stdout bokeh_ouput_notebook_called bokeh_calls log_bokeh].
    split; [exact Hs|]. split; [rewrite Hf; exact Hflag|].
    exists obj. split; [exact Hobj|]. rewrite Hc. reflexivity. }
  destruct (bokeh_ouput_notebook_called g) eqn:Hflag; cbn [negb] in H;
    cbv iota in H.
  - rewrite bind_ret in H. apply Hshow in H; [|exact Hnb | exact Hflag].
    destruct H as (Hconf & Hs & Hf & obj & Hobj & Hcalls).
    split; [exact Hconf|]. split; [exact Hs|]. split; [exact Hf|].
    exists obj. split; [exact Hobj|]. rewrite Hcalls. reflexivity.
  - rewrite bind_bind, bind_assign_global in H. cbv beta in H.
    rewrite bind_assign_global in H. cbv beta in H.
    apply Hshow in H; [|exact Hnb | reflexivity].
    destruct H as (Hconf & Hs & Hf & obj & Hobj & Hcalls).
    split; [exact Hconf|]. split; [exact Hs|]. split; [exact Hf|].
    exists obj. split; [exact Hobj|]. rewrite Hcalls.
    cbn [bokeh_calls set_bokeh_ouput_notebook_called log_bokeh].
    rewrite <- app_assoc. reflexivity.
Qed.

Lemma show_hands_the_figure_to_bokeh_witness :
  let r := and_then fresh_plot (show "inline" true) in
  result r = Ok tt /\
  exists obj,
    bkfigure (self_after r) = Some obj /\
    bokeh_calls (globals_after r) = [OutputNotebook; Show (object_id obj)].
Proof.
  cbv zeta. unfold and_then.
  set (p := self_after fresh_plot). set (g := globals_after fresh_plot).
  assert (Hres : result (show "inline" true p g) = Ok tt)
    by (vm_compute; reflexivity).
  split; [exact Hres|].
  destruct (show_hands_the_figure_to_bokeh "inline" p g _ _
              (run_eta (show "inline" true p g) tt Hres))
    as (_ & _ & _ & _ & _ & obj & Hobj & Hcalls).
  exists obj. split; [exact Hobj|]. rewrite Hcalls. reflexivity.
Defined.

(** *** The labels of the fit parameters *)

Lemma same_layouts_refl (p : Plot) (g : Globals) : same_layouts p g p g.
Proof. reflexivity. Qed.

Lemma same_layouts_trans (p1 : Plot) (g1 : Globals) (p2 : Plot) (g2 : Globals)
    (p3 : Plot) (g3 : Globals) :
  same_layouts p1 g1 p2 g2 -> same_layouts p2 g2 p3 g3 -> same_layouts p1 g1 p3 g3.
Proof. unfold same_layouts. congruence. Qed.

Lemma same_plot_same_layouts {A : Type} (c : M A) :
  respects same_plot c -> respects same_layouts c.
Proof. intros H p g. unfold same_layouts. rewrite (H p g). reflexivity. Qed.

Lemma initialize_bokeh_figure_same_layouts (residuals : bool) :
  respects same_layouts (initialize_bokeh_figure residuals).
Proof.
  apply same_plot_same_layouts.
  apply (respects_initialize_bokeh_figure _ same_plot_refl same_plot_trans).
  intros; reflexivity.
Qed.

Lemma plot_dataset_bkfigure_same_layouts (dataset : XYDataSet) (residual : bool)
    (data_color : string) :
  respects same_layouts (plot_dataset_bkfigure dataset residual data_color).
Proof.
  intros p g. unfold plot_dataset_bkfigure, the_bkfigure.
  rewrite bind_bind, bind_self. unfold same_layouts, main_layouts.
  destruct (bkfigure p) as [[f | id rows]|] eqn:E;
    rewrite ?bind_ret, ?bind_raise; cbn [assign raise self_after bkfigure
      with_bkfigure layouts add_mark]; rewrite ?E; reflexivity.
Qed.

Lemma plot_dataset_bkres_same_layouts (dataset : XYDataSet) (residual : bool)
    (data_color : string) :
  respects same_layouts (plot_dataset_bkres dataset residual data_color).
Proof.
  intros p g. unfold plot_dataset_bkres, the_bkres.
  rewrite bind_bind, bind_self. unfold same_layouts, main_layouts.
  destruct (bkres p) as [f|];
    rewrite ?bind_ret, ?bind_raise; reflexivity.
Qed.

Lemma plot_function_bkfigure_same_layouts (function : Callable) (xdata : list Q)
    (pars : Pars) (n : Z) (legend_name color : string) (errorbandfactor : Q) :
  respects same_layouts
    (plot_function_bkfigure function xdata pars n legend_name color
                            errorbandfactor).
Proof.
  intros p g. unfold plot_function_bkfigure, the_bkfigure.
  rewrite bind_bind, bind_self. unfold same_layouts, main_layouts.
  destruct (bkfigure p) as [[f | id rows]|] eqn:E;
    rewrite ?bind_ret, ?bind_raise, ?bind_assign;
    cbn [ret raise self_after bkfigure with_bkfigure layouts add_mark];
    rewrite ?E; reflexivity.
Qed.

Ltac same_layouts_steps :=
  repeat first
    [ apply (respects_ret _ same_layouts_refl)
    | apply (respects_raise _ same_layouts_refl)
    | apply (respects_lift _ same_layouts_refl)
    | apply (respects_self _ same_layouts_refl)
    | apply initialize_bokeh_figure_same_layouts
    | apply plot_dataset_bkfigure_same_layouts
    | apply plot_dataset_bkres_same_layouts
    | apply plot_function_bkfigure_same_layouts
    | apply (respects_bind _ same_layouts_trans); [|intros ?]
    | match goal with
      | |- respects _ (if ?b then _ else _) => destruct b eqn:?
      end ].

(** Past the first dataset the loop lays no label. *)
Lemma draw_datasets_rest_same_layouts (remaining : list XYDataSet) (count : Z) :
  1 <= count -> respects same_layouts (draw_datasets remaining count).
Proof.
  revert count. induction remaining as [|dataset rest IH]; intros count Hcount;
    cbn [draw_datasets]; [apply (respects_ret _ same_layouts_refl)|].
  same_layouts_steps.
  - exfalso. match goal with H : (count <? 1) = true |- _ =>
               apply Z.ltb_lt in H; lia end.
  - apply IH. lia.
Qed.

Lemma draw_functions_same_layouts
    (remaining : list (UserFunction * Pars * string)) (xvals : list Q) (count : Z) :
  respects same_layouts (draw_functions remaining xvals count).
Proof.
  revert count. induction remaining as [|[[func pars] fname] rest IH];
    intros count; cbn [draw_functions]; same_layouts_steps. apply IH.
Qed.

(** The loop over the parameters lays one label per index, in order,
    after those already there. *)
Lemma draw_fit_parameters_layouts (dataset : XYDataSet) (indices : list Z)
    (p : Plot) (g : Globals) (p' : Plot) (g' : Globals) (before : list Label) :
  main_layouts p = Some before ->
  draw_fit_parameters dataset indices p g = mkRun (Ok tt) p' g' ->
  exists new, main_layouts p' = Some (before ++ new)%list /\
              Forall2 placed_for indices new.
Proof.
  revert p g before. induction indices as [|i rest IH]; intros p g before Hp H.
  - cbn [draw_fit_parameters] in H. unfold ret in H. apply run_inj in H.
    destruct H as (_ & <- & _). exists []. rewrite app_nil_r.
    split; [exact Hp | constructor].
  - cbn [draw_fit_parameters] in H.
    rewrite bind_lift in H.
    destruct (py_getitem (fit_pars dataset) (-1)) as [ps|e]; [|discriminate H].
    rewrite bind_lift in H.
    destruct (py_getitem ps i) as [par|e]; [|discriminate H].
    cbv zeta in H. rewrite bind_lift in H.
    destruct (py_getitem (str_split "_" (m_str par)) 0) as [first|e];
      [|discriminate H].
    rewrite bind_lift in H.
    destruct (py_getitem (str_split "_" (m_str par)) (-1)) as [last|e];
      [|discriminate H].
    unfold the_bkfigure in H. rewrite bind_bind, bind_self in H. cbv beta in H.
    unfold main_layouts in Hp.
    destruct (bkfigure p) as [[f | id rows]|]; try discriminate Hp.
    injection Hp as Hp.
    rewrite bind_ret, bind_assign in H. cbv beta in H.
    apply (IH _ _ (before ++ [mkLabel 590 (320 + 20 * i) "right" "top" "11pt"
                               "screen" "screen" (first ++ "_" ++ last) "css"
                               "white" 1%Q])%list) in H.
    + destruct H as (new & Hnew & Hplaced).
      eexists (_ :: new). rewrite <- app_assoc in Hnew. cbn [app] in Hnew.
      split; [exact Hnew|].
      constructor; [split; reflexivity | exact Hplaced].
    + unfold main_layouts. norm. cbn [layouts add_layout]. rewrite Hp.
      reflexivity.
Qed.

(** The loop over the datasets lays the labels of the first dataset, if
    it has a fit, and no other. *)
Lemma draw_datasets_layouts (remaining : list XYDataSet)
    (p : Plot) (g : Globals) (p' : Plot) (g' : Globals) (before : list Label) :
  main_layouts p = Some before ->
  draw_datasets remaining 0 p g = mkRun (Ok tt) p' g' ->
  exists new,
    main_layouts p' = Some (before ++ new)%list /\
    match remaining with
    | [] => new = []
    | d :: _ =>
        if 0 <? nfits d
        then exists n, py_getitem (fit_npars d) (-1) = Ok n /\
                       Forall2 placed_for (py_range n) new
        else new = []
    end.
Proof.
  intros Hp H. destruct remaining as [|d rest].
  - cbn [draw_datasets] in H. unfold ret in H. apply run_inj in H.
    destruct H as (_ & <- & _). exists []. rewrite app_nil_r.
    split; [exact Hp | reflexivity].
  - cbn [draw_datasets] in H.
    rewrite bind_self, bind_lift in H. cbv beta in H.
    destruct (py_getitem (datasets_colors p) 0) as [color|e]; [|discriminate H].
    apply (bind_run_from same_layouts) in H;
      [|apply plot_dataset_bkfigure_same_layouts].
    destruct H as (_ & p1 & g1 & Hp1 & H).
    unfold same_layouts in Hp1. rewrite Hp in Hp1. clear Hp p g.
    assert (Hrest : forall q h new,
              main_layouts q = Some (before ++ new)%list ->
              draw_datasets rest (0 + 1) q h = mkRun (Ok tt) p' g' ->
              main_layouts p' = Some (before ++ new)%list).
    { intros q h new Hq Hrun.
      pose proof (draw_datasets_rest_same_layouts rest (0 + 1) ltac:(lia) q h)
        as Hframe.
      rewrite Hrun in Hframe. unfold same_layouts in Hframe.
      cbn [self_after] in Hframe. congruence. }
    destruct (0 <? nfits d).
    + rewrite bind_bind, bind_lift in H.
      destruct (py_getitem (fit_function d) (-1)) as [f|e]; [|discriminate H].
      rewrite bind_bind, bind_lift in H.
      destruct (py_getitem (fit_pars d) (-1)) as [ps|e]; [|discriminate H].
      rewrite bind_bind, bind_lift in H.
      destruct (py_getitem (fit_function_name d) (-1)) as [fname|e];
        [|discriminate H].
      rewrite bind_bind, bind_self in H. cbv beta in H.
      rewrite bind_bind in H.
      apply (bind_run_from same_layouts) in H;
        [|apply plot_function_bkfigure_same_layouts].
      destruct H as (_ & p2 & g2 & Hp2 & H).
      unfold same_layouts in Hp2. rewrite Hp1 in Hp2. clear Hp1 p1 g1.
      change (0 <? 1) with true in H. cbv iota in H.
      rewrite bind_bind, bind_bind, bind_lift in H.
      destruct (py_getitem (fit_npars d) (-1)) as [n|e]; [|discriminate H].
      rewrite (bind_run _ _ _ _ _ _ _
                 (run_split (draw_fit_parameters d (py_range n) p2 g2))) in H.
      destruct (result (draw_fit_parameters d (py_range n) p2 g2))
        as [[]|e] eqn:E; [|discriminate H].
      destruct (draw_fit_parameters_layouts d (py_range n) p2 g2 _ _ before
                  Hp2 (run_eta _ _ E)) as (new & Hnew & Hplaced).
      match type of H with
      | _ ?s ?h0 = _ => set (p3 := s) in *; set (g3 := h0) in *
      end.
      clearbody p3 g3. clear E Hp2 p2 g2.
      apply (bind_run_from same_layouts) in H; [|same_layouts_steps].
      destruct H as (_ & p4 & g4 & Hp4 & H).
      unfold same_layouts in Hp4. rewrite Hnew in Hp4.
      exists new. split; [exact (Hrest _ _ _ Hp4 H)|].
      exists n. split; [reflexivity | exact Hplaced].
    + rewrite bind_ret in H. exists []. rewrite app_nil_r.
      split; [|reflexivity].
      rewrite <- (app_nil_r before). apply (Hrest p1 g1); [|exact H].
      rewrite app_nil_r. exact Hp1.
Qed.

Lemma residual_figure_same_layouts (b : bool) :
  respects same_layouts
    (if b then
       let* res := initialize_bokeh_figure true in
       assign (with_bkres (Some res))
     else ret tt).
Proof.
  destruct b; [|apply (respects_ret _ same_layouts_refl)].
  apply (respects_bind _ same_layouts_trans);
    [apply initialize_bokeh_figure_same_layouts|].
  intros res. apply respects_assign. intros; reflexivity.
Qed.

Lemma residual_figure_frame (b : bool) :
  respects rendering_frame
    (if b then
       let* res := initialize_bokeh_figure true in
       assign (with_bkres (Some res))
     else ret tt).
Proof.
  destruct b; [|apply (respects_ret _ rendering_frame_refl)].
  apply (respects_bind _ rendering_frame_trans);
    [apply (respects_initialize_bokeh_figure _ rendering_frame_refl
              rendering_frame_trans rendering_frame_bump)|].
  intros res. apply respects_assign. intros. apply rendering_frame_bkres.
Qed.

Lemma respects_both (R1 R2 : Plot -> Globals -> Plot -> Globals -> Prop)
    {A : Type} (c : M A) :
  respects R1 c -> respects R2 c ->
  respects (fun p g p' g' => R1 p g p' g' /\ R2 p g p' g') c.
Proof. intros H1 H2 p g. split; [apply H1 | apply H2]. Qed.

(** The labels on the main figure of the object a rendering returns. *)
Lemma populate_bokeh_figure_layouts (p : Plot) (g : Globals) (obj : BkObject) :
  result (populate_bokeh_figure p g) = Ok obj ->
  exists main,
    main_figure obj = Some main /\
    match datasets p with
    | [] => layouts main = []
    | d :: _ =>
        if 0 <? nfits d
        then exists n, py_getitem (fit_npars d) (-1) = Ok n /\
                       Forall2 placed_for (py_range n) (layouts main)
        else layouts main = []
    end.
Proof.
  intros Hres. pose proof (run_eta _ _ Hres) as H.
  set (p' := self_after (populate_bokeh_figure p g)) in *.
  set (g' := globals_after (populate_bokeh_figure p g)) in *.
  clearbody p' g'. clear Hres.
  unfold populate_bokeh_figure in H.
  rewrite (bind_run _ _ _ _ _ _ _ (run_split (initialize_bokeh_figure false p g)))
    in H.
  destruct (result (initialize_bokeh_figure false p g)) as [fig|e] eqn:E;
    [|discriminate H].
  destruct (initialize_main_figure_fields p g fig E)
    as (_ & _ & _ & _ & _ & _ & _ & _ & _ & _ & _ & Hl).
  destruct (initialize_main_figure_quiet p g) as [Hself _].
  rewrite Hself in H. clear Hself E.
  match type of H with _ _ ?h1 = _ => set (g1 := h1) in H; clearbody g1 end.
  rewrite bind_assign, bind_self in H. cbv beta in H. norm_in H.
  apply (bind_run_from (fun p g p' g' =>
            same_layouts p g p' g' /\ rendering_frame p g p' g')) in H;
    [|apply respects_both;
      [apply residual_figure_same_layouts | apply residual_figure_frame]].
  destruct H as (_ & p2 & g2 & [Hlay2 [Hconf2 _]] & H).
  unfold same_layouts, main_layouts in Hlay2. norm_in Hlay2.
  rewrite Hl in Hlay2. fold (main_layouts p2) in Hlay2.
  assert (Hds : datasets p2 = datasets p).
  { change (datasets (configuration p2) = datasets p). rewrite Hconf2.
    reflexivity. }
  clear Hconf2.
  rewrite bind_self in H. cbv beta in H. rewrite Hds in H.
  rewrite (bind_run _ _ _ _ _ _ _
             (run_split (draw_datasets (datasets p) 0 p2 g2))) in H.
  destruct (result (draw_datasets (datasets p) 0 p2 g2)) as [[]|e] eqn:E;
    [|discriminate H].
  destruct (draw_datasets_layouts (datasets p) p2 g2 _ _ [] Hlay2 (run_eta _ _ E))
    as (new & Hnew & Hplaced).
  cbn [app] in Hnew.
  match type of H with
  | _ ?s ?h0 = _ => set (p3 := s) in *; set (g3 := h0) in *
  end.
  clearbody p3 g3. clear E Hlay2 Hds p2 g2.
  rewrite bind_self, bind_lift, range_getitem_0 in H. cbv beta iota in H.
  rewrite bind_lift, range_getitem_1 in H. cbv beta iota zeta in H.
  apply (bind_run_from same_layouts) in H; [|apply draw_functions_same_layouts].
  destruct H as (_ & p4 & g4 & Hlay4 & H).
  unfold same_layouts in Hlay4. rewrite Hnew in Hlay4. clear Hnew p3 g3.
  unfold the_bkfigure in H at 1. rewrite bind_bind, bind_self in H.
  cbv beta in H. unfold main_layouts in Hlay4.
  destruct (bkfigure p4) as [[f | id rows]|]; try discriminate Hlay4.
  injection Hlay4 as Hf.
  rewrite bind_ret, bind_self in H. cbv beta in H.
  rewrite bind_assign, bind_self in H. cbv beta in H. norm_in H.
  assert (Hmain : main_figure obj = Some (set_legend_location (legend_location p4) f)).
  { destruct (show_residuals p4).
    - unfold the_bkfigure, the_bkres in H.
      rewrite bind_bind, bind_bind, bind_self in H. norm_in H.
      cbv beta iota in H.
      rewrite bind_ret, bind_bind, bind_bind, bind_self in H. norm_in H.
      cbv beta in H.
      destruct (bkres p4) as [res|]; [|discriminate H].
      rewrite bind_ret, bind_bind, bind_bi_gridplot in H. cbv beta in H.
      rewrite bind_assign, bind_self in H. cbv beta in H. norm_in H.
      cbv iota in H. unfold ret in H. apply run_inj in H.
      destruct H as (Hobj & _ & _). injection Hobj as <-. reflexivity.
    - rewrite bind_ret, bind_self in H. cbv beta in H. norm_in H. cbv iota in H.
      unfold ret in H. apply run_inj in H.
      destruct H as (Hobj & _ & _). injection Hobj as <-. reflexivity. }
  exists (set_legend_location (legend_location p4) f).
  split; [exact Hmain|].
  cbn [layouts set_legend_location]. rewrite Hf.
  destruct (datasets p) as [|d rest]; [exact Hplaced|].
  destruct (0 <? nfits d); exact Hplaced.
Qed.

(** X24.  A rendering writes the fit parameters of the first dataset only:
    the main figure of the object [populate_bokeh_figure] returns carries
    one label for each parameter of the latest fit of the first dataset,
    the label of parameter i at x = 590 and y = 320 + 20 i in screen
    units, and no label at all when the first dataset has no fit, whatever
    fits the other datasets have. *)
Theorem fit_parameters_of_the_first_dataset_only (p : Plot) (g : Globals)
    (obj : BkObject) :
  result (populate_bokeh_figure p g) = Ok obj ->
  exists main,
    main_figure obj = Some main /\
    match datasets p with
    | [] => layouts main = []
    | d :: _ =>
        if 0 <? nfits d
        then exists n, py_getitem (fit_npars d) (-1) = Ok n /\
                       Forall2 placed_for (py_range n) (layouts main)
        else layouts main = []
    end.
Proof. exact (populate_bokeh_figure_layouts p g obj). Qed.

Lemma fit_parameters_of_the_first_dataset_only_witness :
  (exists a b, map nfits (datasets (self_after two_fits)) = [a; b] /\
               0 < a /\ 0 < b) /\
  exists obj main,
    result (and_then two_fits populate_bokeh_figure) = Ok obj /\
    main_figure obj = Some main /\
    length (layouts main) = 2%nat.
Proof.
  split; [vm_compute; eexists _, _; repeat split|].
  unfold and_then.
  set (p := self_after two_fits). set (g := globals_after two_fits).
  assert (Hres : exists obj, result (populate_bokeh_figure p g) = Ok obj)
    by (vm_compute; eexists; reflexivity).
  destruct Hres as [obj Hres]. exists obj.
  destruct (fit_parameters_of_the_first_dataset_only p g obj Hres)
    as (main & Hmain & Hl).
  exists main. split; [exact Hres|]. split; [exact Hmain|].
  assert (Hd : exists d rest, datasets p = d :: rest /\
                              (0 <? nfits d) = true /\
                              py_getitem (fit_npars d) (-1) = Ok 2)
    by (vm_compute; eexists _, _; repeat split).
  destruct Hd as (d & rest & Hd & Hfit & Hn).
  rewrite Hd, Hfit in Hl. destruct Hl as (n & Hn' & Hplaced).
  rewrite Hn in Hn'. injection Hn' as <-.
  apply Forall2_length in Hplaced. rewrite <- Hplaced. reflexivity.
Defined.
